(** * PlotHandler: combining metric bundles into one plot configuration

    A shallow embedding of [python/lsst/sims/maf/plots/plotHandler.py].

    Conventions of the embedding:
    - Python [str] is [string]; [dict]s with string keys are [gmap string _];
      Python lists are [list]s.
    - A Python [set] of strings is the list of its distinct members.  The
      order in which Python enumerates a set is not determined by the
      program, so every enumeration ([list(s)], [' '.join(s)], [for x in s])
      goes through the oracle [set_iter] of the class [Runtime], of which
      only "it is a permutation of the members" is known.
    - Methods that mutate [self] or call collaborators (the render function,
      matplotlib, the results database) run in a state-and-exception monad
      over a [World]; an exception leaves the mutations made before it. *)

From stdpp Require Import gmap strings list fin_maps sorting.
From Stdlib Require Import ZArith Ascii.

#[local] Set Warnings "-register-all".

(** ** Strings, as Python's [str] methods use them *)

Module Str.

(** [s.split(sep)] for a non-empty [sep]: cut at every non-overlapping
    occurrence of [sep], scanning left to right; [skip] counts the
    characters of a separator still to be dropped. *)
Fixpoint split_go (sep : string) (skip : nat) (s : string) : list string :=
  match s with
  | EmptyString => [""]
  | String c s' =>
      match skip with
      | S k => split_go sep k s'
      | O =>
          if String.prefix sep s
          then "" :: split_go sep (String.length sep - 1) s'
          else match split_go sep 0 s' with
               | w :: ws => String c w :: ws
               | [] => [String c ""]
               end
      end
  end.

Definition split (sep s : string) : list string := split_go sep 0 s.

(** Python's whitespace: space, \t, \n, \v, \f, \r. *)
Definition isspace (c : ascii) : bool :=
  let n := nat_of_ascii c in
  (n =? 32)%nat || ((9 <=? n)%nat && (n <=? 13)%nat).

(** [s.split()]: maximal runs of non-whitespace characters. *)
Fixpoint words_go (cur : option string) (s : string) : list string :=
  match s with
  | EmptyString => match cur with Some w => [String.rev w] | None => [] end
  | String c s' =>
      if isspace c
      then match cur with
           | Some w => String.rev w :: words_go None s'
           | None => words_go None s'
           end
      else words_go (Some (String c (default "" cur))) s'
  end.

Definition words (s : string) : list string := words_go None s.

Fixpoint lstrip (s : string) : string :=
  match s with
  | String c s' => if isspace c then lstrip s' else s
  | EmptyString => ""
  end.

(** [s.strip()] *)
Definition strip (s : string) : string :=
  String.rev (lstrip (String.rev (lstrip s))).

(** [sub in s] *)
Fixpoint contains (sub s : string) : bool :=
  String.prefix sub s ||
  match s with
  | EmptyString => false
  | String _ s' => contains sub s'
  end.

Definition upper_ascii (c : ascii) : ascii :=
  let n := nat_of_ascii c in
  if (97 <=? n)%nat && (n <=? 122)%nat then ascii_of_nat (n - 32) else c.

(** [s.upper()] *)
Fixpoint upper (s : string) : string :=
  match s with
  | EmptyString => ""
  | String c s' => String (upper_ascii c) (upper s')
  end.

(** the one-character string holding a double quote *)
Definition dquote : string := String (ascii_of_nat 34) "".

(** [sep.join(l)] *)
Definition join (sep : string) (l : list string) : string :=
  String.concat sep l.

End Str.

(** ** Python sets of strings *)

Module PySet.

Definition t := list string.

Definition mem (x : string) (s : t) : bool := existsb (String.eqb x) s.

(** [s.add(x)] *)
Definition add (x : string) (s : t) : t := if mem x s then s else s ++ [x].

(** [set(l)] *)
Definition of_list (l : list string) : t := foldl (λ s x, add x s) [] l.

(** [a.intersection(b)] *)
Definition inter (a b : t) : t := List.filter (λ x, mem x b) a.

(** [a.difference(b)] *)
Definition diff (a b : t) : t := List.filter (λ x, negb (mem x b)) a.

(** [a == b] on sets *)
Definition eqb (a b : t) : bool :=
  forallb (λ x, mem x b) a && forallb (λ x, mem x a) b.

(** [set.intersection] applied to the sets of [l]: the first set cut down
    by all the others;
    [None] stands for the [TypeError] of a call with no argument. *)
Definition inter_all (l : list t) : option t :=
  match l with
  | [] => None
  | s :: rest => Some (foldl inter s rest)
  end.

End PySet.

(** [set(l)] for a list of numbers: its distinct members. *)
Definition dedup (l : list nat) : list nat :=
  foldl (λ s n, if existsb (Nat.eqb n) s then s else s ++ [n]) [] l.

(** What the interpreter and the libraries outside this file decide. *)
Class Runtime := {
  (** enumeration order of a set *)
  set_iter : PySet.t → list string;
  set_iter_perm : ∀ s, set_iter s ≡ₚ s;
  (** [np.argsort] on a list of lengths *)
  argsort : list nat → list nat;
  argsort_perm : ∀ l, argsort l ≡ₚ seq 0 (length l);
  (** [lsst.sims.maf.utils.nameSanitize] *)
  nameSanitize : string → string
}.

(** ** Values and exceptions *)

Inductive pyval :=
| VNone
| VBool (b : bool)
| VInt (n : Z)
| VStr (s : string)
| VList (l : list pyval).

(** Truth value of an object in a condition. *)
Definition truthy (v : pyval) : bool :=
  match v with
  | VNone => false
  | VBool b => b
  | VInt n => negb (n =? 0)%Z
  | VStr s => negb (String.eqb s "")
  | VList l => match l with [] => false | _ => true end
  end.

Inductive exn :=
| ValueError (msg : string)
| KeyError (key : string)
| IndexError
| TypeError
| NameError (name : string)
| UnboundLocalError (var : string).

Inductive outcome (A : Type) :=
| Ok (a : A)
| Raise (e : exn).
Arguments Ok {A} a.
Arguments Raise {A} e.

#[global] Instance outcome_ret : MRet outcome := λ A a, Ok a.
#[global] Instance outcome_bind : MBind outcome := λ A B f m,
  match m with
  | Ok a => f a
  | Raise e => Raise e
  end.

(** [d[k]] on a dict *)
Definition getitem {V} (d : gmap string V) (k : string) : outcome V :=
  match d !! k with
  | Some v => Ok v
  | None => Raise (KeyError k)
  end.

(** reading a local variable that may not have been assigned yet *)
Definition local {A} (var : string) (x : option A) : outcome A :=
  match x with
  | Some a => Ok a
  | None => Raise (UnboundLocalError var)
  end.

(** [a == b] on values (a [bool] compares as the integer it is) *)
Fixpoint py_eqb (a b : pyval) : bool :=
  match a, b with
  | VNone, VNone => true
  | VBool x, VBool y => Bool.eqb x y
  | VBool x, VInt n | VInt n, VBool x => (n =? (if x then 1 else 0))%Z
  | VInt x, VInt y => (x =? y)%Z
  | VStr x, VStr y => String.eqb x y
  | VList x, VList y =>
      (fix go (x y : list pyval) : bool :=
         match x, y with
         | [], [] => true
         | a' :: x', b' :: y' => py_eqb a' b' && go x' y'
         | _, _ => false
         end) x y
  | _, _ => false
  end.

(** [v[i]] for a non-negative index *)
Definition py_index (v : pyval) (i : nat) : outcome pyval :=
  match v with
  | VList l => match l !! i with Some x => Ok x | None => Raise IndexError end
  | VStr s => match String.get i s with
              | Some c => Ok (VStr (String c ""))
              | None => Raise IndexError
              end
  | _ => Raise TypeError
  end.

(** [l.insert(i, x)] for a non-negative index: past the end it appends *)
Definition list_insert_at {A} (i : nat) (x : A) (l : list A) : list A :=
  take i l ++ x :: drop i l.

(** ** The data model *)

Record Slicer := {
  slicerName : string;
  sliceColName : string;
  sliceColUnits : string
}.

Module Metric.
Record t := {
  name : string;
  units : option string;   (* [None] is Python's [None] *)
  metricDtype : string
}.
End Metric.

(** A display dict with its four keys. *)
Record DisplayDict := {
  group : string;
  subgroup : string;
  order : Z;
  caption : string
}.

(** A metric bundle, as far as the plot handler reads it. *)
Module MB.
Record t := {
  fileRoot : string;
  slicer : Slicer;
  metric : Metric.t;
  runName : string;
  metadata : string;
  sqlconstraint : string;
  plotDict : gmap string pyval;
  displayDict : DisplayDict;
  metricValues : pyval
}.
End MB.

(** The argument of [setMetricBundles]: a list, or a dict given by its items
    in the order [itervalues()] yields them. *)
Inductive BundleArg :=
| BundleList (l : list MB.t)
| BundleDict (d : list (string * MB.t)).

(** A plotter: its attributes, and the figure number its call returns. *)
Record PlotFunc := {
  plotType : string;
  defaultPlotDict : gmap string pyval;
  objectPlotter : bool;
  call : pyval → Slicer → gmap string pyval → pyval → pyval
}.

(** The results database: only the id that [updateMetric] hands back is
    read by the handler. *)
Record ResultsDb := {
  updateMetric : string → string → string → string → string → pyval → pyval
}.

(** The band tables that [__init__] installs; no method reassigns them. *)
Definition filtercolors : gmap string string :=
  list_to_map [("u", "b"); ("g", "g"); ("r", "y");
               ("i", "r"); ("z", "m"); ("y", "k")].
Definition filterorder : gmap string nat :=
  list_to_map [("u", 0); ("g", 1); ("r", 2); ("i", 3); ("z", 4); ("y", 5)].

(** The handler.  The first six attributes are set by [__init__]; the others
    are created by [setMetricBundles], and a handler that does not have them
    yet is represented with empty values. *)
Record PlotHandler := {
  outDir : string;
  resultsDb : option ResultsDb;
  savefig : bool;
  figformat : string;
  dpi : Z;
  thumbnail : bool;
  mBundles : list MB.t;
  plotDict : gmap string pyval;
  slicer : Slicer;
  metricNames : PySet.t;
  jointMetricNames : string;
  runNames : PySet.t;
  jointRunNames : string;
  metadata : PySet.t;
  jointMetadata : string;
  sqlconstraints : string
}.

Definition __init__ (outDir : string) (resultsDb : option ResultsDb)
    (savefig : bool) (figformat : string) (dpi : Z) (thumbnail : bool)
    : PlotHandler :=
  {| outDir := outDir; resultsDb := resultsDb; savefig := savefig;
     figformat := figformat; dpi := dpi; thumbnail := thumbnail;
     mBundles := []; plotDict := ∅;
     slicer := {| slicerName := ""; sliceColName := ""; sliceColUnits := "" |};
     metricNames := []; jointMetricNames := "";
     runNames := []; jointRunNames := "";
     metadata := []; jointMetadata := ""; sqlconstraints := "" |}.

(** Attribute assignment, [self.x = v]. *)
Definition set_mBundles (v : list MB.t) (self : PlotHandler) : PlotHandler :=
  {| outDir := outDir self; resultsDb := resultsDb self;
     savefig := savefig self; figformat := figformat self; dpi := dpi self;
     thumbnail := thumbnail self; mBundles := v; plotDict := plotDict self;
     slicer := slicer self; metricNames := metricNames self;
     jointMetricNames := jointMetricNames self; runNames := runNames self;
     jointRunNames := jointRunNames self; metadata := metadata self;
     jointMetadata := jointMetadata self;
     sqlconstraints := sqlconstraints self |}.
Definition set_plotDict (v : gmap string pyval) (self : PlotHandler) : PlotHandler :=
  {| outDir := outDir self; resultsDb := resultsDb self;
     savefig := savefig self; figformat := figformat self; dpi := dpi self;
     thumbnail := thumbnail self; mBundles := mBundles self; plotDict := v;
     slicer := slicer self; metricNames := metricNames self;
     jointMetricNames := jointMetricNames self; runNames := runNames self;
     jointRunNames := jointRunNames self; metadata := metadata self;
     jointMetadata := jointMetadata self;
     sqlconstraints := sqlconstraints self |}.
Definition set_slicer (v : Slicer) (self : PlotHandler) : PlotHandler :=
  {| outDir := outDir self; resultsDb := resultsDb self;
     savefig := savefig self; figformat := figformat self; dpi := dpi self;
     thumbnail := thumbnail self; mBundles := mBundles self;
     plotDict := plotDict self; slicer := v; metricNames := metricNames self;
     jointMetricNames := jointMetricNames self; runNames := runNames self;
     jointRunNames := jointRunNames self; metadata := metadata self;
     jointMetadata := jointMetadata self;
     sqlconstraints := sqlconstraints self |}.
Definition set_metricNames (v : PySet.t) (self : PlotHandler) : PlotHandler :=
  {| outDir := outDir self; resultsDb := resultsDb self;
     savefig := savefig self; figformat := figformat self; dpi := dpi self;
     thumbnail := thumbnail self; mBundles := mBundles self;
     plotDict := plotDict self; slicer := slicer self; metricNames := v;
     jointMetricNames := jointMetricNames self; runNames := runNames self;
     jointRunNames := jointRunNames self; metadata := metadata self;
     jointMetadata := jointMetadata self;
     sqlconstraints := sqlconstraints self |}.
Definition set_jointMetricNames (v : string) (self : PlotHandler) : PlotHandler :=
  {| outDir := outDir self; resultsDb := resultsDb self;
     savefig := savefig self; figformat := figformat self; dpi := dpi self;
     thumbnail := thumbnail self; mBundles := mBundles self;
     plotDict := plotDict self; slicer := slicer self;
     metricNames := metricNames self; jointMetricNames := v;
     runNames := runNames self; jointRunNames := jointRunNames self;
     metadata := metadata self; jointMetadata := jointMetadata self;
     sqlconstraints := sqlconstraints self |}.
Definition set_runNames (v : PySet.t) (self : PlotHandler) : PlotHandler :=
  {| outDir := outDir self; resultsDb := resultsDb self;
     savefig := savefig self; figformat := figformat self; dpi := dpi self;
     thumbnail := thumbnail self; mBundles := mBundles self;
     plotDict := plotDict self; slicer := slicer self;
     metricNames := metricNames self;
     jointMetricNames := jointMetricNames self; runNames := v;
     jointRunNames := jointRunNames self; metadata := metadata self;
     jointMetadata := jointMetadata self;
     sqlconstraints := sqlconstraints self |}.
Definition set_jointRunNames (v : string) (self : PlotHandler) : PlotHandler :=
  {| outDir := outDir self; resultsDb := resultsDb self;
     savefig := savefig self; figformat := figformat self; dpi := dpi self;
     thumbnail := thumbnail self; mBundles := mBundles self;
     plotDict := plotDict self; slicer := slicer self;
     metricNames := metricNames self;
     jointMetricNames := jointMetricNames self; runNames := runNames self;
     jointRunNames := v; metadata := metadata self;
     jointMetadata := jointMetadata self;
     sqlconstraints := sqlconstraints self |}.
Definition set_metadata (v : PySet.t) (self : PlotHandler) : PlotHandler :=
  {| outDir := outDir self; resultsDb := resultsDb self;
     savefig := savefig self; figformat := figformat self; dpi := dpi self;
     thumbnail := thumbnail self; mBundles := mBundles self;
     plotDict := plotDict self; slicer := slicer self;
     metricNames := metricNames self;
     jointMetricNames := jointMetricNames self; runNames := runNames self;
     jointRunNames := jointRunNames self; metadata := v;
     jointMetadata := jointMetadata self;
     sqlconstraints := sqlconstraints self |}.
Definition set_jointMetadata (v : string) (self : PlotHandler) : PlotHandler :=
  {| outDir := outDir self; resultsDb := resultsDb self;
     savefig := savefig self; figformat := figformat self; dpi := dpi self;
     thumbnail := thumbnail self; mBundles := mBundles self;
     plotDict := plotDict self; slicer := slicer self;
     metricNames := metricNames self;
     jointMetricNames := jointMetricNames self; runNames := runNames self;
     jointRunNames := jointRunNames self; metadata := metadata self;
     jointMetadata := v; sqlconstraints := sqlconstraints self |}.
Definition set_sqlconstraints (v : string) (self : PlotHandler) : PlotHandler :=
  {| outDir := outDir self; resultsDb := resultsDb self;
     savefig := savefig self; figformat := figformat self; dpi := dpi self;
     thumbnail := thumbnail self; mBundles := mBundles self;
     plotDict := plotDict self; slicer := slicer self;
     metricNames := metricNames self;
     jointMetricNames := jointMetricNames self; runNames := runNames self;
     jointRunNames := jointRunNames self; metadata := metadata self;
     jointMetadata := jointMetadata self; sqlconstraints := v |}.

(** ** Effects *)

(** Calls made to the collaborators, in the order they are made. *)
Inductive Event :=
| EvPlotFunc (metricValues : pyval) (slicer : Slicer)
    (userPlotDict : gmap string pyval) (fignum : pyval)
| EvFigure (fignum : pyval)
| EvLegend (loc : pyval)
| EvFigSavefig (outDir plotFile figformat : string) (dpi : Z)
| EvPltSavefig (outDir thumbFile : string)
| EvUpdateMetric (metricName slicerName runName sqlconstraint metadata : string)
| EvUpdateDisplay (metricId : pyval) (displayDict : DisplayDict)
| EvUpdatePlot (metricId : pyval) (plotType plotFile : string).

Record World := {
  this : PlotHandler;
  log : list Event
}.

(** A method body: it may raise, and what it did to the world before
    raising stays done. *)
Definition M (A : Type) : Type := World → outcome A * World.

#[global] Instance M_ret : MRet M := λ A a w, (Ok a, w).
#[global] Instance M_bind : MBind M := λ A B f m w,
  match m w with
  | (Ok a, w') => f a w'
  | (Raise e, w') => (Raise e, w')
  end.

Definition raise {A} (e : exn) : M A := λ w, (Raise e, w).
Definition lift {A} (o : outcome A) : M A := λ w, (o, w).
Definition get_self : M PlotHandler := λ w, (Ok (this w), w).
Definition update (f : PlotHandler → PlotHandler) : M unit :=
  λ w, (Ok (), {| this := f (this w); log := log w |}).
Definition emit (e : Event) : M unit :=
  λ w, (Ok (), {| this := this w; log := log w ++ [e] |}).

(** A [for] loop whose body may raise. *)
Fixpoint for_each {A} (l : list A) (body : A → M unit) : M unit :=
  match l with
  | [] => mret ()
  | x :: l' => body x ≫= λ _, for_each l' body
  end.

(** ** The methods of [PlotHandler] *)

Section Methods.
Context `{Runtime}.

(** The band letters in display order (the local [order] lists). *)
Definition band_order : list string := ["u"; "g"; "r"; "i"; "z"; "y"].

(** Where [setMetricBundles] inserts a bundle when the ordered list already
    holds [n] bundles (the local [forder] of its loops). *)
Definition forder (n : nat) (mB : MB.t) : nat :=
  let vals := Str.split "_" (MB.fileRoot mB) in
  let forder := (λ f, filterorder !! f)
                  <$> List.filter (λ f, (String.length f =? 1)%nat) vals in
  let forder := omap id forder in
  match last forder with
  | None => n            (* len(forder) == 0 *)
  | Some o => o          (* forder[-1] *)
  end.

(** One round of either loop: [self.mBundles.insert(forder, mB)]. *)
Definition insert_bundle (acc : list MB.t) (mB : MB.t) : list MB.t :=
  list_insert_at (forder (length acc) mB) mB acc.

Definition order_bundles (arrivals : list MB.t) : list MB.t :=
  foldl insert_bundle [] arrivals.

(** The bundles of the argument in the order the loop meets them. *)
Definition arrivals (mBundles : BundleArg) : list MB.t :=
  match mBundles with
  | BundleList l => l
  | BundleDict d => snd <$> d
  end.

Definition slicer_error : exn :=
  ValueError "MetricBundle items must have the same type of slicer".

(** The second half of [_combineMetricNames]: the [jointName] it finds
    for the set [self.metricNames]. *)
Definition joint_metric_names (metricNames : PySet.t) : string :=
  let order := band_order in
  if (length metricNames =? 1)%nat then Str.join " " (set_iter metricNames)
  else
    let nameLengths := (λ x, length (Str.words x)) <$> set_iter metricNames in
    let nameLists := Str.words <$> set_iter metricNames in
    if (length (dedup nameLengths) =? 1)%nat then
      let jointName :=
        (λ i,
           (* all names have the same number of words: x[i] exists *)
           let tmp := PySet.of_list ((λ x, default "" (x !! i)) <$> nameLists) in
           if PySet.eqb (PySet.inter tmp order) tmp then
             foldl (λ filterlist f,
                      if PySet.mem f tmp then filterlist +:+ f else filterlist)
                   "" order
           else Str.join "" (set_iter tmp))
          <$> seq 0 (hd 0 nameLengths) in
      Str.join " " jointName
    else Str.join " " (set_iter metricNames).

(** The sets of distinct values that the [_combine*] methods collect. *)
Definition names_of (l : list MB.t) : PySet.t :=
  foldl (λ s mB, PySet.add (Metric.name (MB.metric mB)) s) [] l.
Definition runs_of (l : list MB.t) : PySet.t :=
  foldl (λ s mB, PySet.add (MB.runName mB) s) [] l.
Definition metadata_of (l : list MB.t) : PySet.t :=
  foldl (λ s mB, PySet.add (MB.metadata mB) s) [] l.
Definition constraints_of (l : list MB.t) : PySet.t :=
  foldl (λ s mB, PySet.add (MB.sqlconstraint mB) s) [] l.

Definition _combineMetricNames : M unit :=
  self ← get_self;
  let metricNames := names_of (mBundles self) in
  update (set_metricNames metricNames);;
  update (set_jointMetricNames (joint_metric_names metricNames)).

Definition _combineRunNames : M unit :=
  self ← get_self;
  let runNames := runs_of (mBundles self) in
  update (set_runNames runNames);;
  update (set_jointRunNames (Str.join " " (set_iter runNames))).

(** The clauses of one metadata string (the first loop of
    [_combineMetadata]). *)
Definition split_clauses (m : string) : PySet.t :=
  let m := if Str.contains " and " m then Str.split " and " m
           else if Str.contains ", " m then Str.split ", " m
           else [m] in
  PySet.of_list (Str.strip <$> m).

(** The [else] branch of [_combineMetadata], from [splitmetas] on. *)
Definition merge_metadata (metadata : PySet.t) : outcome string :=
  let order := band_order in
  let splitmetas := split_clauses <$> set_iter metadata in
  common ← match PySet.inter_all splitmetas with
            | Some c => Ok c | None => Raise TypeError end;
  let diff := (λ x, PySet.diff x common) <$> splitmetas in
  let diffsplit :=
    (λ d, if (0 <? length d)%nat
          then PySet.of_list (hd [] (Str.words <$> set_iter d))
          else []) <$> diff in
  diffcommon ← match PySet.inter_all diffsplit with
                | Some c => Ok c | None => Raise TypeError end;
  let diffdiff := (λ x, PySet.diff x diffcommon) <$> diffsplit in
  let lengths := length <$> diffdiff in
  '(diffdiff, diffcommon) ←
    (if (foldr Nat.min (hd 0 lengths) lengths =? 0)%nat then
       tmp ← mapM (λ d, match set_iter d with
                         | x :: _ => Ok x
                         | [] => Raise IndexError
                         end) diff;
       let diff := tmp in
       let xlengths := String.length <$> diff in
       let idx := argsort xlengths in
       let diffdiff := (λ i, default "" (diff !! i)) <$> idx in
       Ok (diffdiff, [])
     else
       let diffdiffOrdered :=
         flat_map (λ f,
           List.filter (λ d, (length d =? 1)%nat
                             && String.eqb (hd "" (set_iter d)) f) diffdiff)
           order in
       let diffdiffEnd :=
         List.filter (λ d, negb (existsb (PySet.eqb d) diffdiffOrdered)) diffdiff in
       let diffdiff := diffdiffOrdered ++ diffdiffEnd in
       let diffdiff := (λ c, Str.join " " (set_iter c)) <$> diffdiff in
       Ok (diffdiff, set_iter diffcommon));
  Ok (Str.join ", " diffdiff +:+ " " +:+ Str.join " " diffcommon +:+ " "
      +:+ Str.join " " (set_iter common)).

Definition _combineMetadata : M unit :=
  self ← get_self;
  let metadata := metadata_of (mBundles self) in
  update (set_metadata metadata);;
  if (length metadata =? 1)%nat then
    update (set_jointMetadata (Str.join " " (set_iter metadata)))
  else
    combo ← lift (merge_metadata metadata);
    update (set_jointMetadata combo).

Definition _combineSql : M unit :=
  self ← get_self;
  let sqlconstraints := constraints_of (mBundles self) in
  update (set_sqlconstraints (Str.join "; " (set_iter sqlconstraints))).

(** [list(s)[0]] *)
Definition first (s : PySet.t) : outcome string :=
  match set_iter s with
  | x :: _ => Ok x
  | [] => Raise IndexError
  end.

Definition _buildTitle (self : PlotHandler) : outcome string :=
  (* [plotTitle] is a local that the first [if] may leave unassigned *)
  plotTitle ← (if (length (runNames self) =? 1)%nat
               then x ← first (runNames self); Ok (Some x)
               else Ok None);
  plotTitle ← (if (length (metadata self) =? 1)%nat
               then t ← local "plotTitle" plotTitle;
                    x ← first (metadata self);
                    Ok (Some (t +:+ " " +:+ x))
               else Ok plotTitle);
  plotTitle ← (if (length (metricNames self) =? 1)%nat
               then t ← local "plotTitle" plotTitle;
                    x ← first (metricNames self);
                    Ok (Some (t +:+ ": " +:+ x))
               else Ok plotTitle);
  t ← local "plotTitle" plotTitle;
  if String.eqb t ""
  then Ok (jointMetadata self +:+ " " +:+ jointMetricNames self)
  else Ok t.

(** [a + b] where [b] may be [None] *)
Definition str_add (a : string) (b : option string) : outcome string :=
  match b with
  | Some b => Ok (a +:+ b)
  | None => Raise TypeError
  end.

Definition _buildXYlabels (self : PlotHandler) (plotFunc : PlotFunc)
    : outcome (pyval * pyval) :=
  if String.eqb (plotType plotFunc) "BinnedData" then
    if (length (mBundles self) =? 1)%nat then
      mB ← match mBundles self with x :: _ => Ok x | [] => Raise IndexError end;
      let xlabel := sliceColName (MB.slicer mB) +:+ " ("
                    +:+ sliceColUnits (MB.slicer mB) +:+ ")" in
      y ← str_add (Metric.name (MB.metric mB) +:+ " (") (Metric.units (MB.metric mB));
      let ylabel := y +:+ ")" in
      Ok (VStr xlabel, VStr ylabel)
    else
      let xlabel :=
        foldl (λ s mB, PySet.add (sliceColName (MB.slicer mB)) s) [] (mBundles self) in
      let xlabel := Str.join ", " (set_iter xlabel) in
      let ylabel := jointMetricNames self in
      Ok (VStr xlabel, VStr ylabel)
  else
    if (length (mBundles self) =? 1)%nat then
      mB ← match mBundles self with x :: _ => Ok x | [] => Raise IndexError end;
      let xlabel := Metric.name (MB.metric mB) in
      let xlabel :=
        match Metric.units (MB.metric mB) with
        | Some u => if (0 <? String.length u)%nat
                    then xlabel +:+ " (" +:+ u +:+ ")" else xlabel
        | None => xlabel
        end in
      Ok (VStr xlabel, VNone)
    else
      let xlabel := jointMetricNames self in
      (* the set [ylabel]; a list value cannot be hashed *)
      ylabel ← foldl (λ acc mB,
                        s ← acc;
                        match MB.plotDict mB !! "ylabel" with
                        | Some (VList _) => Raise TypeError
                        | Some v => Ok (if existsb (py_eqb v) s then s else s ++ [v])
                        | None => Ok s
                        end) (Ok []) (mBundles self);
      let ylabel := match ylabel with [v] => v | _ => VNone end in
      Ok (VStr xlabel, ylabel).

Definition _buildLegendLabels (self : PlotHandler) : list pyval :=
  if (length (mBundles self) =? 1)%nat then [VNone]
  else
    (λ mB,
       match MB.plotDict mB !! "label" with
       | Some label => label
       | None =>
           let label := "" in
           let label := if (1 <? length (runNames self))%nat
                        then label +:+ MB.runName mB else label in
           let label := if (1 <? length (metadata self))%nat
                        then label +:+ " " +:+ MB.metadata mB else label in
           let label := if (1 <? length (metricNames self))%nat
                        then label +:+ " " +:+ Metric.name (MB.metric mB) else label in
           VStr label
       end) <$> mBundles self.

(** One round of the loop of [_buildColors]; [color] is the loop's local
    variable, which keeps its value from one round to the next. *)
Definition color_step (color : option pyval) (mB : MB.t) : outcome (option pyval) :=
  match MB.plotDict mB !! "color" with
  | Some c => Ok (Some c)
  | None =>
      if Str.contains "filter" (MB.sqlconstraint mB) then
        let vals := Str.split Str.dquote (MB.sqlconstraint mB) in
        foldl (λ acc v,
                 color ← acc;
                 if (String.length v =? 1)%nat
                 then c ← getitem filtercolors v; Ok (Some (VStr c))
                 else Ok color) (Ok color) vals
      else Ok (Some (VStr "b"))
  end.

(** The loop of [_buildColors] over the bundles [l], started with the
    locals [color] and [colors]; it hands back both locals. *)
Fixpoint colors_loop (color : option pyval) (colors : list pyval)
    (l : list MB.t) : outcome (option pyval * list pyval) :=
  match l with
  | [] => Ok (color, colors)
  | mB :: l' =>
      color ← color_step color mB;
      c ← local "color" color;           (* colors.append(color) *)
      colors_loop color (colors ++ [c]) l'
  end.

Definition _buildColors (self : PlotHandler) : outcome (list pyval) :=
  if (length (mBundles self) =? 1)%nat then
    mB ← match mBundles self with x :: _ => Ok x | [] => Raise IndexError end;
    match MB.plotDict mB !! "color" with
    | Some c => Ok [c]
    | None => Ok [VStr "b"]
    end
  else st ← colors_loop None [] (mBundles self); Ok st.2.

Definition _buildCbarFormat (self : PlotHandler) : pyval :=
  if (length (mBundles self) =? 1)%nat then
    match mBundles self with
    | mB :: _ => if String.eqb (Metric.metricDtype (MB.metric mB)) "int"
                 then VStr "%d" else VNone
    | [] => VNone
    end
  else
    let metricDtypes :=
      foldl (λ s mB, PySet.add (Metric.metricDtype (MB.metric mB)) s) []
            (mBundles self) in
    match metricDtypes with   (* a one-element set enumerates in one way *)
    | [d] => if String.eqb d "int" then VStr "%d" else VNone
    | _ => VNone
    end.

(** [tmpPlotDict[k] = v] inside [setPlotDict]: unless [reset], [tmpPlotDict]
    is the very dict [self.plotDict], so the store shows there at once. *)
Definition store (reset : bool) (tmpPlotDict : gmap string pyval) : M unit :=
  if reset then mret () else update (set_plotDict tmpPlotDict).

(** The loop over [plotterDefaults.iteritems()]. *)
Definition apply_defaults (plotterDefaults tmpPlotDict : gmap string pyval)
    : gmap string pyval :=
  map_fold (λ k v acc, match v with VNone => acc | _ => <[k:=v]> acc end)
           tmpPlotDict plotterDefaults.

Definition setPlotDict (userPlotDict : option (gmap string pyval))
    (plotFunc : option PlotFunc) (reset : bool) : M unit :=
  self ← get_self;
  let tmpPlotDict := if reset then ∅ else plotDict self in
  title ← lift (_buildTitle self);
  let tmpPlotDict := <["title" := VStr title]> tmpPlotDict in
  store reset tmpPlotDict;;
  let tmpPlotDict := <["labels" := VList (_buildLegendLabels self)]> tmpPlotDict in
  store reset tmpPlotDict;;
  colors ← lift (_buildColors self);
  let tmpPlotDict := <["colors" := VList colors]> tmpPlotDict in
  let tmpPlotDict := <["legendloc" := VStr "upper right"]> tmpPlotDict in
  let tmpPlotDict := <["cbarFormat" := _buildCbarFormat self]> tmpPlotDict in
  store reset tmpPlotDict;;
  tmpPlotDict ←
    match plotFunc with
    | Some plotFunc =>
        xy ← lift (_buildXYlabels self plotFunc);
        let tmpPlotDict := <["ylabel" := xy.2]> (<["xlabel" := xy.1]> tmpPlotDict) in
        let tmpPlotDict := apply_defaults (defaultPlotDict plotFunc) tmpPlotDict in
        store reset tmpPlotDict;;
        mret tmpPlotDict
    | None => mret tmpPlotDict
    end;
  let tmpPlotDict :=
    match userPlotDict with
    | Some d => d ∪ tmpPlotDict     (* tmpPlotDict.update(plotDict) *)
    | None => tmpPlotDict
    end in
  update (set_plotDict tmpPlotDict).

Definition setMetricBundles (arg : BundleArg) : M unit :=
  update (set_mBundles []);;
  update (set_plotDict ∅);;
  (* the two loops, over a dict's values or over a list, have one body *)
  for_each (arrivals arg)
    (λ mB, update (λ self, set_mBundles (insert_bundle (mBundles self) mB) self));;
  self ← get_self;
  s ← match mBundles self with
      | mB :: _ => mret (MB.slicer mB)
      | [] => raise IndexError
      end;
  update (set_slicer s);;
  for_each (mBundles self)
    (λ mB, if negb (String.eqb (slicerName (MB.slicer mB)) (slicerName s))
           then raise slicer_error else mret ());;
  _combineMetricNames;;
  _combineRunNames;;
  _combineMetadata;;
  _combineSql;;
  setPlotDict None None true.

Definition _buildFileRoot (self : PlotHandler) (outfileSuffix : option string)
    : outcome string :=
  mB ← match mBundles self with x :: _ => Ok x | [] => Raise IndexError end;
  let outfile :=
    if (length (mBundles self) =? 1)%nat then MB.fileRoot mB
    else
      Str.join "_" [jointRunNames self; jointMetricNames self; jointMetadata self]
      +:+ "_" +:+ Str.upper (String.substring 0 4 (slicerName (MB.slicer mB))) in
  let outfile := match outfileSuffix with
                 | Some suffix => outfile +:+ "_" +:+ suffix
                 | None => outfile
                 end in
  Ok (nameSanitize outfile).

(** The [order] that the loop of [_buildDisplayDict] leaves. *)
Definition display_order (l : list MB.t) : Z :=
  foldl (λ cur mB,
           if (cur <? order (MB.displayDict mB))%Z
           then (order (MB.displayDict mB) + 1)%Z
           else cur) 0%Z l.

Definition _buildDisplayDict (self : PlotHandler) : outcome DisplayDict :=
  if (length (mBundles self) =? 1)%nat then
    match mBundles self with
    | mB :: _ => Ok (MB.displayDict mB)
    | [] => Raise IndexError
    end
  else
    let group' := foldl (λ s mB, PySet.add (group (MB.displayDict mB)) s) []
                        (mBundles self) in
    let subgroup' := foldl (λ s mB, PySet.add (subgroup (MB.displayDict mB)) s) []
                           (mBundles self) in
    let order' := display_order (mBundles self) in
    g ← (if (1 <? length group')%nat then Ok "Comparisons" else first group');
    sg ← (if (1 <? length subgroup')%nat then Ok "Comparisons" else first subgroup');
    mB ← match mBundles self with x :: _ => Ok x | [] => Raise IndexError end;
    Ok {| order := order'; group := g; subgroup := sg;
          caption := jointMetricNames self +:+ " metric(s) calculated on a "
                     +:+ slicerName (MB.slicer mB) +:+ " grid, for opsim runs "
                     +:+ jointRunNames self +:+ ", for metadata values of "
                     +:+ jointMetadata self +:+ "." |}.

(** [warnings.warn(msg)].  The module imports [os], [numpy],
    [matplotlib.pyplot] and [lsst.sims.maf.utils] and nothing else, so
    evaluating the name [warnings] raises [NameError]. *)
Definition warnings_warn (msg : string) : M unit :=
  raise (NameError "warnings").

(** The capability check at the head of [plot]; [true] when its [return]
    was reached. *)
Fixpoint check_metricIsColor (l : list MB.t) : M bool :=
  match l with
  | [] => mret false
  | mB :: l' =>
      v ← lift (getitem (MB.plotDict mB) "metricIsColor");
      if negb (truthy v) then
        warnings_warn "Cannot plot object metric values with this plotter.";;
        mret true
      else check_metricIsColor l'
  end.

(** [self.plotDict[k] = self.plotDict[ks][i]] *)
Definition set_active (k ks : string) (i : nat) : M unit :=
  self ← get_self;
  l ← lift (getitem (plotDict self) ks);
  v ← lift (py_index l i);
  update (λ self, set_plotDict (<[k := v]> (plotDict self)) self).

(** The loop of [plot] that calls the plotter once per bundle. *)
Fixpoint render_loop (plotFunc : PlotFunc) (l : list MB.t) (i : nat)
    (fignum : pyval) : M pyval :=
  match l with
  | [] => mret fignum
  | mB :: l' =>
      set_active "label" "labels" i;;
      set_active "color" "colors" i;;
      self ← get_self;
      emit (EvPlotFunc (MB.metricValues mB) (MB.slicer mB)
                       (plotDict self) fignum);;
      let fignum := call plotFunc (MB.metricValues mB) (MB.slicer mB)
                         (plotDict self) fignum in
      render_loop plotFunc l' (S i) fignum
  end.

(** The body of [plot] from "Set outfile name" to its end: one call of the
    plotter per bundle, the legend, and the files and database rows. *)
Definition render_and_save (plotFunc : PlotFunc) (outfileSuffix : option string)
    : M pyval :=
  self ← get_self;
  outfile ← lift (_buildFileRoot self outfileSuffix);
  let plotType0 := plotType plotFunc in
  fignum ← render_loop plotFunc (mBundles self) 0 VNone;
  plotType ←
    (if (1 <? length (mBundles self))%nat then
       emit (EvFigure fignum);;
       self ← get_self;
       loc ← lift (getitem (plotDict self) "legendloc");
       emit (EvLegend loc);;
       mret ("Combo" +:+ plotType0)
     else mret plotType0);
  (if savefig self then
     emit (EvFigure fignum);;
     let plotFile := outfile +:+ "_" +:+ plotType +:+ "." +:+ figformat self in
     emit (EvFigSavefig (outDir self) plotFile (figformat self) (dpi self));;
     (if thumbnail self then
        let thumbFile := "thumb." +:+ outfile +:+ "_" +:+ plotType +:+ ".png" in
        emit (EvPltSavefig (outDir self) thumbFile)
      else mret ());;
     match resultsDb self with
     | Some db =>
         self ← get_self;
         emit (EvUpdateMetric (jointMetricNames self) (slicerName (slicer self))
                 (jointRunNames self) (sqlconstraints self) (jointMetadata self));;
         let metricId := updateMetric db (jointMetricNames self)
                           (slicerName (slicer self)) (jointRunNames self)
                           (sqlconstraints self) (jointMetadata self) VNone in
         displayDict ← lift (_buildDisplayDict self);
         emit (EvUpdateDisplay metricId displayDict);;
         emit (EvUpdatePlot metricId plotType plotFile)
     | None => mret ()
     end
   else mret ());;
  mret fignum.

Definition plot (plotFunc : PlotFunc) (userPlotDict : option (gmap string pyval))
    (outfileSuffix : option string) : M pyval :=
  self ← get_self;
  returned ← (if negb (objectPlotter plotFunc)
              then check_metricIsColor (mBundles self) else mret false);
  if returned : bool then mret VNone else
  (* Update x/y labels using plotType. *)
  setPlotDict userPlotDict (Some plotFunc) false;;
  render_and_save plotFunc outfileSuffix.

End Methods.

(** ** A runtime to compute with *)

(** Sets enumerate in insertion order, [argsort] is a stable merge sort of
    the positions, and [nameSanitize] leaves its argument alone. *)
Definition key_le (a b : nat * nat) : Prop := a.2 ≤ b.2.

#[global] Instance key_le_dec : RelDecision key_le.
Proof. intros a b. unfold key_le. apply _. Defined.

Definition stable_argsort (l : list nat) : list nat :=
  fst <$> merge_sort key_le (zip (seq 0 (length l)) l).

Lemma stable_argsort_perm (l : list nat) :
  stable_argsort l ≡ₚ seq 0 (length l).
Proof.
  unfold stable_argsort.
  rewrite merge_sort_Permutation.
  rewrite fst_zip; [done|].
  by rewrite length_seq.
Qed.

#[global] Instance insertion_runtime : Runtime := {|
  set_iter := λ s, s;
  set_iter_perm := λ s, reflexivity s;
  argsort := stable_argsort;
  argsort_perm := stable_argsort_perm;
  nameSanitize := λ s, s
|}.

(** * Verification *)

(** ** Reasoning about method bodies *)

Lemma bind_run {A B} (m : M A) (f : A → M B) (w : World) :
  (m ≫= f) w = match m w with
               | (Ok a, w') => f a w'
               | (Raise e, w') => (Raise e, w')
               end.
Proof. reflexivity. Qed.

(** [only E o]: the exceptions [o] can end in all satisfy [E]. *)
Definition only {A} (E : exn → Prop) (o : outcome A) : Prop :=
  ∀ e, o = Raise e → E e.

Lemma only_Ok {A} E (a : A) : only E (Ok a).
Proof. intros e [=]. Qed.

Lemma only_Raise {A} (E : exn → Prop) e : E e → only E (@Raise A e).
Proof. intros He e' [= <-]. exact He. Qed.

Lemma only_bind {A B} E (o : outcome A) (f : A → outcome B) :
  only E o → (∀ a, only E (f a)) → only E (o ≫= f).
Proof.
  intros Ho Hf. destruct o as [a|e]; simpl.
  - apply Hf.
  - intros e' [= <-]. by apply Ho.
Qed.

(** [keeps I E m]: running [m] keeps the handler inside [I], whether it
    raises or not, and raises only exceptions of [E]. *)
Definition keeps {A} (I : PlotHandler → Prop) (E : exn → Prop) (m : M A) : Prop :=
  ∀ w, I (this w) → I (this (m w).2) ∧ only E (m w).1.

Section Keeps.
Context (I : PlotHandler → Prop) (E : exn → Prop).

Lemma keeps_ret {A} (a : A) : keeps I E (mret a).
Proof. intros w Hw. split; [done | apply only_Ok]. Qed.

Lemma keeps_raise {A} e : E e → keeps I E (@raise A e).
Proof. intros He w Hw. split; [done | by apply only_Raise]. Qed.

Lemma keeps_lift {A} (o : outcome A) : only E o → keeps I E (lift o).
Proof. intros Ho w Hw. by split. Qed.

Lemma keeps_get : keeps I E get_self.
Proof. intros w Hw. split; [done | apply only_Ok]. Qed.

Lemma keeps_emit ev : keeps I E (emit ev).
Proof. intros w Hw. split; [done | apply only_Ok]. Qed.

Lemma keeps_update f : (∀ s, I s → I (f s)) → keeps I E (update f).
Proof. intros Hf w Hw. split; [by apply Hf | apply only_Ok]. Qed.

Lemma keeps_bind {A B} (m : M A) (f : A → M B) :
  keeps I E m → (∀ a, keeps I E (f a)) → keeps I E (m ≫= f).
Proof.
  intros Hm Hf w Hw. rewrite bind_run.
  destruct (Hm w Hw) as [Hi Ho]. destruct (m w) as [[a|e] w']; simpl in *.
  - by apply Hf.
  - split; [done | by apply only_Raise, Ho].
Qed.

Lemma keeps_for_each {A} (l : list A) (body : A → M unit) :
  (∀ x, keeps I E (body x)) → keeps I E (for_each l body).
Proof.
  intros Hb. induction l as [|x l IH]; simpl.
  - apply keeps_ret.
  - apply keeps_bind; [apply Hb | intros _; apply IH].
Qed.
End Keeps.

(** ** The ordering loop of [setMetricBundles] *)

Lemma list_insert_at_perm {A} (i : nat) (x : A) (l : list A) :
  list_insert_at i x l ≡ₚ x :: l.
Proof.
  unfold list_insert_at.
  rewrite <- Permutation_middle. by rewrite take_drop.
Qed.

Lemma list_insert_at_ge {A} (i : nat) (x : A) (l : list A) :
  length l ≤ i → list_insert_at i x l = l ++ [x].
Proof.
  intros Hi. unfold list_insert_at.
  by rewrite take_ge, drop_ge.
Qed.

Lemma foldl_insert_bundle_perm (l acc : list MB.t) :
  foldl insert_bundle acc l ≡ₚ acc ++ l.
Proof.
  revert acc. induction l as [|mB l IH]; intros acc; simpl.
  - by rewrite app_nil_r.
  - rewrite IH. unfold insert_bundle. rewrite list_insert_at_perm.
    simpl. apply Permutation_middle.
Qed.

Lemma order_bundles_perm (l : list MB.t) : order_bundles l ≡ₚ l.
Proof. apply (foldl_insert_bundle_perm l []). Qed.

(** ** Which exceptions the derivations can end in *)

(** The only [ValueError] of the module is the one of the slicer check. *)
Definition not_value_error (e : exn) : Prop := ∀ msg, e ≠ ValueError msg.

Ltac only_step :=
  lazymatch goal with
  | |- only _ (Ok _) => apply only_Ok
  | |- only _ (mret _) => apply only_Ok
  | |- only _ (Raise _) => apply only_Raise; intros ? [=]
  | |- only _ (mbind _ _) => apply only_bind; [|intros ?]
  | |- only _ (if ?b then _ else _) => destruct b
  | |- only _ (match ?x with _ => _ end) => destruct x
  end.

Ltac only_auto := cbv zeta; repeat only_step.

Section Only.
Context `{Runtime}.

Lemma only_first s : only not_value_error (first s).
Proof. unfold first. only_auto. Qed.

Lemma only_local {A} var (x : option A) : only not_value_error (local var x).
Proof. unfold local. only_auto. Qed.

Lemma only_getitem {V} (d : gmap string V) k : only not_value_error (getitem d k).
Proof. unfold getitem. only_auto. Qed.

Lemma only_mapM {A B} (f : A → outcome B) (l : list A) :
  (∀ x, only not_value_error (f x)) → only not_value_error (mapM f l).
Proof.
  intros Hf. induction l as [|x l IH]; simpl.
  - apply only_Ok.
  - apply only_bind; [apply Hf | intros y].
    apply only_bind; [apply IH | intros ys]. apply only_Ok.
Qed.

Lemma only_merge_metadata md : only not_value_error (merge_metadata md).
Proof.
  unfold merge_metadata. cbv zeta.
  apply only_bind; [only_auto | intros common].
  apply only_bind; [only_auto | intros diffcommon].
  apply only_bind; [| intros [? ?]; only_auto].
  only_step; [|only_auto].
  apply only_bind; [|intros ?; only_auto].
  apply only_mapM. intros d. only_auto.
Qed.

Lemma only_buildTitle self : only not_value_error (_buildTitle self).
Proof.
  unfold _buildTitle.
  repeat first [ apply only_first | apply only_local | only_step ].
Qed.

Lemma only_color_step color mB : only not_value_error (color_step color mB).
Proof.
  unfold color_step. only_step; [only_auto|]. only_step; [|only_auto].
  cbv zeta.
  generalize (Str.split Str.dquote (MB.sqlconstraint mB)); intros vals.
  assert (Hinit : only not_value_error (Ok color : outcome (option pyval)))
    by apply only_Ok.
  revert Hinit. generalize (Ok color : outcome (option pyval)).
  induction vals as [|v vals IH]; intros acc Hacc; simpl; [done|].
  apply IH.
  repeat first [ apply only_getitem | done | only_step ].
Qed.

Lemma only_colors_loop color colors l :
  only not_value_error (colors_loop color colors l).
Proof.
  revert color colors. induction l as [|mB l IH]; intros color colors; simpl.
  - apply only_Ok.
  - apply only_bind; [apply only_color_step | intros c].
    apply only_bind; [apply only_local | intros c']. apply IH.
Qed.

Lemma only_buildColors self : only not_value_error (_buildColors self).
Proof.
  unfold _buildColors. only_step.
  - only_auto.
  - apply only_bind; [apply only_colors_loop | intros ?; only_auto].
Qed.

Lemma only_buildXYlabels self plotFunc :
  only not_value_error (_buildXYlabels self plotFunc).
Proof.
  unfold _buildXYlabels, str_add. cbv zeta.
  only_step; only_step.
  - only_auto.
  - only_auto.
  - only_auto.
  - apply only_bind; [|intros ?; only_auto].
    assert (Hinit : only not_value_error (Ok [] : outcome (list pyval)))
      by apply only_Ok.
    revert Hinit. generalize (Ok [] : outcome (list pyval)).
    induction (mBundles self) as [|mB l IH]; intros acc Hacc; simpl; [done|].
    apply IH. apply only_bind; [done | intros s]. only_auto.
Qed.

End Only.

(** ** What [setMetricBundles] leaves in [self.mBundles] *)

Ltac keeps_step :=
  lazymatch goal with
  | |- keeps _ _ (mret _) => apply keeps_ret
  | |- keeps _ _ get_self => apply keeps_get
  | |- keeps _ _ (emit _) => apply keeps_emit
  | |- keeps _ _ (update _) => apply keeps_update; intros ? ?; eauto
  | |- keeps _ _ (raise _) => apply keeps_raise; intros ? [=]
  | |- keeps _ _ (mbind _ _) => apply keeps_bind; [|intros ?]
  | |- keeps _ _ (if ?b then _ else _) => destruct b
  | |- keeps _ _ (match ?x with _ => _ end) => destruct x
  end.

Section Install.
Context `{Runtime}.

(** The steps after the slicer check touch neither [self.mBundles] nor
    [self.slicer], and raise no [ValueError]. *)
Definition bundles_are (L : list MB.t) (self : PlotHandler) : Prop :=
  mBundles self = L.

(** [setPlotDict] assigns to [self.plotDict] and to nothing else. *)
Lemma keeps_store (I : PlotHandler → Prop) reset tmp :
  (∀ v s, I s → I (set_plotDict v s)) →
  keeps I not_value_error (store reset tmp).
Proof. intros HI. unfold store. repeat keeps_step. Qed.

Lemma keeps_setPlotDict (I : PlotHandler → Prop) userPlotDict plotFunc reset :
  (∀ v s, I s → I (set_plotDict v s)) →
  keeps I not_value_error (setPlotDict userPlotDict plotFunc reset).
Proof.
  intros HI. unfold setPlotDict. cbv zeta.
  repeat lazymatch goal with
         | |- keeps _ _ (store _ _) => by apply keeps_store
         | |- keeps _ _ (lift (_buildTitle _)) =>
             apply keeps_lift, only_buildTitle
         | |- keeps _ _ (lift (_buildColors _)) =>
             apply keeps_lift, only_buildColors
         | |- keeps _ _ (lift (_buildXYlabels _ _)) =>
             apply keeps_lift, only_buildXYlabels
         | |- _ => keeps_step
         end.
Qed.

Lemma ordering_loop_run (l : list MB.t) (self : PlotHandler) (lg : list Event) :
  for_each l
    (λ mB, update (λ self, set_mBundles (insert_bundle (mBundles self) mB) self))
    {| this := self; log := lg |}
  = (Ok (), {| this := set_mBundles (foldl insert_bundle (mBundles self) l) self;
               log := lg |}).
Proof.
  revert self. induction l as [|mB l IH]; intros self; simpl.
  - by destruct self.
  - rewrite bind_run. simpl. by rewrite IH.
Qed.

Definition same_slicer (n : string) (l : list MB.t) : bool :=
  forallb (λ mB, String.eqb (slicerName (MB.slicer mB)) n) l.

Lemma slicer_check_run (n : string) (l : list MB.t) (w : World) :
  for_each l
    (λ mB, if negb (String.eqb (slicerName (MB.slicer mB)) n)
           then raise slicer_error else mret ()) w
  = (if same_slicer n l then Ok () else Raise slicer_error, w).
Proof.
  induction l as [|mB l IH]; simpl; [done|].
  rewrite bind_run.
  destruct (String.eqb (slicerName (MB.slicer mB)) n); simpl; [apply IH | done].
Qed.

(** The handler once the ordering loop and [self.slicer = ...] have run. *)
Definition ordered (arg : BundleArg) (self : PlotHandler) : PlotHandler :=
  set_mBundles (order_bundles (arrivals arg)) (set_plotDict ∅ self).

Definition install_tail : M unit :=
  _combineMetricNames;; _combineRunNames;; _combineMetadata;; _combineSql;;
  setPlotDict None None true.

Lemma install_tail_eq :
  install_tail =
  (_combineMetricNames;; _combineRunNames;; _combineMetadata;; _combineSql;;
   setPlotDict None None true).
Proof. reflexivity. Qed.

Lemma setMetricBundles_run (arg : BundleArg) (w : World) :
  setMetricBundles arg w =
  match order_bundles (arrivals arg) with
  | [] => (Raise IndexError, {| this := ordered arg (this w); log := log w |})
  | mB :: _ =>
      let w' := {| this := set_slicer (MB.slicer mB) (ordered arg (this w));
                   log := log w |} in
      if same_slicer (slicerName (MB.slicer mB)) (order_bundles (arrivals arg))
      then install_tail w'
      else (Raise slicer_error, w')
  end.
Proof.
  unfold setMetricBundles. destruct w as [self lg].
  rewrite bind_run. cbn [update this log].
  rewrite bind_run. cbn [update this log].
  rewrite bind_run, ordering_loop_run.
  rewrite bind_run. cbn [get_self this].
  change (mBundles (set_mBundles _ _)) with (order_bundles (arrivals arg)).
  change (set_mBundles _ (set_plotDict ∅ (set_mBundles [] self)))
    with (ordered arg self).
  destruct (order_bundles (arrivals arg)) as [|mB rest] eqn:Hord.
  - rewrite bind_run. reflexivity.
  - rewrite bind_run. cbn [mret M_ret].
    rewrite bind_run. cbn [update this log].
    rewrite bind_run, slicer_check_run.
    rewrite install_tail_eq.
    destruct (same_slicer _ _); reflexivity.
Qed.

End Install.

(** ** Band order of the installed bundles (C1, C9) and the slicer check (C5) *)

Section InstallClaims.
Context `{Runtime}.

Lemma keeps_install_tail L : keeps (bundles_are L) not_value_error install_tail.
Proof.
  unfold install_tail.
  unfold _combineMetricNames, _combineRunNames, _combineMetadata, _combineSql.
  cbv zeta.
  repeat lazymatch goal with
         | |- keeps _ _ (setPlotDict _ _ _) =>
             apply keeps_setPlotDict; intros v s Hs; exact Hs
         | |- keeps _ _ (lift (merge_metadata _)) =>
             apply keeps_lift, only_merge_metadata
         | |- _ => keeps_step
         end.
Qed.

(** Whatever happens after the ordering loop, [self.mBundles] is what the
    loop built. *)
Lemma setMetricBundles_mBundles (arg : BundleArg) (w : World) :
  mBundles (this (setMetricBundles arg w).2) = order_bundles (arrivals arg).
Proof.
  rewrite setMetricBundles_run. unfold ordered.
  pose proof (keeps_install_tail (order_bundles (arrivals arg))) as Hk.
  destruct (order_bundles (arrivals arg)) as [|mB rest]; [reflexivity|].
  cbv zeta. destruct (same_slicer _ _); [|reflexivity].
  apply Hk. reflexivity.
Qed.

(** The single-character band tokens of a file root, in the order they
    stand in it. *)
Definition is_band_token (f : string) : bool :=
  (String.length f =? 1)%nat && bool_decide (is_Some (filterorder !! f)).

Definition band_tokens (fileRoot : string) : list string :=
  List.filter is_band_token (Str.split "_" fileRoot).

Lemma forder_band_tokens (n : nat) (mB : MB.t) :
  forder n mB = match last (band_tokens (MB.fileRoot mB)) with
                | Some f => default 0 (filterorder !! f)
                | None => n
                end.
Proof.
  unfold forder, band_tokens. cbv zeta.
  generalize (Str.split "_" (MB.fileRoot mB)); intros vals.
  assert (Heq : omap id ((λ f, filterorder !! f)
                           <$> List.filter (λ f, (String.length f =? 1)%nat) vals)
                = (λ f, default 0 (filterorder !! f))
                    <$> List.filter is_band_token vals).
  { induction vals as [|v vals IH]; [done|].
    cbn [List.filter]. unfold is_band_token at 1.
    destruct (String.length v =? 1)%nat; [|exact IH].
    rewrite fmap_cons. cbn [omap list_omap id andb]. rewrite IH.
    destruct (filterorder !! v) as [o|] eqn:Ho.
    - rewrite bool_decide_true by (by eexists). rewrite fmap_cons, Ho. reflexivity.
    - rewrite bool_decide_false by (by intros [? ?]). reflexivity. }
  rewrite Heq, fmap_last.
  by destruct (last _).
Qed.

(** C1. Three bundles whose file roots carry the one band token "g", "u"
    and "r", installed in the arrival order g, u, r, end up in the order
    u, g, r; and every bundle is inserted at the index that the band table
    gives the last band token of its file root, or appended when its file
    root has none. *)
Theorem C1_band_precedence_order (bg bu br : MB.t) (w : World) :
  band_tokens (MB.fileRoot bg) = ["g"] →
  band_tokens (MB.fileRoot bu) = ["u"] →
  band_tokens (MB.fileRoot br) = ["r"] →
  mBundles (this (setMetricBundles (BundleList [bg; bu; br]) w).2) = [bu; bg; br]
  ∧ ∀ (acc : list MB.t) (mB : MB.t),
      insert_bundle acc mB =
      match last (band_tokens (MB.fileRoot mB)) with
      | Some f => list_insert_at (default 0 (filterorder !! f)) mB acc
      | None => acc ++ [mB]
      end.
Proof.
  intros Hg Hu Hr. split.
  - rewrite setMetricBundles_mBundles.
    unfold order_bundles, arrivals, insert_bundle. simpl.
    rewrite !forder_band_tokens, Hg, Hu, Hr. reflexivity.
  - intros acc mB. unfold insert_bundle. rewrite forder_band_tokens.
    destruct (last _); [done|].
    by apply list_insert_at_ge.
Qed.

End InstallClaims.

(** ** Example data *)

Definition ex_slicer : Slicer :=
  {| slicerName := "OneDSlicer"; sliceColName := "airmass"; sliceColUnits := "X" |}.

Definition ex_bundle (fileRoot runName metadata metricName sqlconstraint : string)
    (plotDict : gmap string pyval) (order : Z) : MB.t :=
  {| MB.fileRoot := fileRoot; MB.slicer := ex_slicer;
     MB.metric := {| Metric.name := metricName; Metric.units := Some "#";
                     Metric.metricDtype := "int" |};
     MB.runName := runName; MB.metadata := metadata;
     MB.sqlconstraint := sqlconstraint; MB.plotDict := plotDict;
     MB.displayDict := {| group := "G"; subgroup := "S"; order := order;
                          caption := "" |};
     MB.metricValues := VList [VInt 1; VInt 2] |}.

Definition ex_g : MB.t :=
  ex_bundle "run1_Count_g_ONED" "run1" "g band, dithered" "Count" "" ∅ 0.
Definition ex_u : MB.t :=
  ex_bundle "run1_Count_u_ONED" "run1" "u band, dithered" "Count" "" ∅ 0.
Definition ex_r : MB.t :=
  ex_bundle "run1_Count_r_ONED" "run1" "r band, dithered" "Count" "" ∅ 0.

(** A bundle like [ex_r] on another kind of slicer. *)
Definition ex_healpix : MB.t :=
  {| MB.fileRoot := "run1_Count_r_HEAL";
     MB.slicer := {| slicerName := "HealpixSlicer"; sliceColName := "";
                     sliceColUnits := "" |};
     MB.metric := MB.metric ex_r; MB.runName := "run1";
     MB.metadata := "r band, dithered"; MB.sqlconstraint := "";
     MB.plotDict := ∅; MB.displayDict := MB.displayDict ex_r;
     MB.metricValues := VNone |}.

(** A handler as [PlotHandler()] builds it, and nothing done yet. *)
Definition ex_world : World :=
  {| this := __init__ "." None true "pdf" 600 true; log := [] |}.

Lemma C1_band_precedence_order_witness :
  mBundles (this (setMetricBundles (BundleList [ex_g; ex_u; ex_r]) ex_world).2)
  = [ex_u; ex_g; ex_r].
Proof.
  apply (C1_band_precedence_order ex_g ex_u ex_r ex_world); vm_compute; reflexivity.
Defined.

Section SlicerCheck.
Context `{Runtime}.

Lemma same_slicer_spec (n : string) (l : list MB.t) :
  same_slicer n l = true ↔ ∀ b, b ∈ l → slicerName (MB.slicer b) = n.
Proof.
  unfold same_slicer. induction l as [|mB l IH]; simpl.
  - split; [intros _ b Hb; by apply elem_of_nil in Hb | done].
  - rewrite andb_true_iff, IH, String.eqb_eq. split.
    + intros [Hn Hl] b [->|Hb]%elem_of_cons; [done | by apply Hl].
    + intros Hall. split; [apply Hall; left | intros b Hb; apply Hall; by right].
Qed.

(** C9. For a non-empty argument whose bundles share one slicer name, the
    bundle sequence that [setMetricBundles] leaves in [self.mBundles] is a
    permutation of the argument's bundles, of the same length, and the
    slicer check lets the argument through. *)
Theorem C9_installed_bundles_permutation (arg : BundleArg) (w : World) :
  arrivals arg ≠ [] →
  (∀ b1 b2, b1 ∈ arrivals arg → b2 ∈ arrivals arg →
            slicerName (MB.slicer b1) = slicerName (MB.slicer b2)) →
  let installed := mBundles (this (setMetricBundles arg w).2) in
  installed ≡ₚ arrivals arg
  ∧ length installed = length (arrivals arg)
  ∧ (setMetricBundles arg w).1 ≠ Raise slicer_error.
Proof.
  intros Hne Hsame installed. subst installed.
  rewrite setMetricBundles_mBundles.
  pose proof (order_bundles_perm (arrivals arg)) as Hperm.
  split; [done|]. split; [by rewrite Hperm|].
  rewrite setMetricBundles_run.
  destruct (order_bundles (arrivals arg)) as [|mB rest] eqn:Hord; [done|].
  cbv zeta.
  assert (Hs : same_slicer (slicerName (MB.slicer mB)) (mB :: rest) = true).
  { apply same_slicer_spec. intros b Hb. apply Hsame.
    - by rewrite <- Hperm.
    - rewrite <- Hperm. left. }
  rewrite Hs. intros Hraise.
  destruct (keeps_install_tail (mB :: rest)
              {| this := set_slicer (MB.slicer mB) (ordered arg (this w));
                 log := log w |}) as [_ Honly].
  { unfold bundles_are, ordered. simpl. exact Hord. }
  by apply (Honly _ Hraise "MetricBundle items must have the same type of slicer").
Qed.

(** C5. Installing a non-empty argument in which two bundles carry
    different slicer names raises the [ValueError] of the slicer check; an
    argument whose bundles share one slicer name raises no [ValueError]. *)
Theorem C5_slicer_mismatch_is_fatal (arg : BundleArg) (w : World) :
  arrivals arg ≠ [] →
  ((∃ b1 b2, b1 ∈ arrivals arg ∧ b2 ∈ arrivals arg
             ∧ slicerName (MB.slicer b1) ≠ slicerName (MB.slicer b2)) →
   (setMetricBundles arg w).1 = Raise slicer_error)
  ∧ ((∀ b1 b2, b1 ∈ arrivals arg → b2 ∈ arrivals arg →
               slicerName (MB.slicer b1) = slicerName (MB.slicer b2)) →
     ∀ msg, (setMetricBundles arg w).1 ≠ Raise (ValueError msg)).
Proof.
  intros Hne.
  pose proof (order_bundles_perm (arrivals arg)) as Hperm.
  rewrite setMetricBundles_run.
  destruct (order_bundles (arrivals arg)) as [|mB rest] eqn:Hord.
  { apply Permutation_nil_l in Hperm. by destruct Hne. }
  cbv zeta. split.
  - intros (b1 & b2 & H1 & H2 & Hdiff).
    destruct (same_slicer _ _) eqn:Hs; [|done].
    destruct Hdiff.
    rewrite same_slicer_spec in Hs.
    rewrite (Hs b1), (Hs b2); [done | by rewrite Hperm..].
  - intros Hsame msg.
    assert (Hs : same_slicer (slicerName (MB.slicer mB)) (mB :: rest) = true).
    { apply same_slicer_spec. intros b Hb. apply Hsame.
      - by rewrite <- Hperm.
      - rewrite <- Hperm. left. }
    rewrite Hs. intros Hraise.
    destruct (keeps_install_tail (mB :: rest)
                {| this := set_slicer (MB.slicer mB) (ordered arg (this w));
                   log := log w |}) as [_ Honly].
    { unfold bundles_are, ordered. simpl. exact Hord. }
    by apply (Honly _ Hraise msg).
Qed.

End SlicerCheck.

Lemma C9_installed_bundles_permutation_witness :
  mBundles (this (setMetricBundles (BundleList [ex_g; ex_u; ex_r]) ex_world).2)
    ≡ₚ [ex_g; ex_u; ex_r]
  ∧ length (mBundles (this (setMetricBundles (BundleList [ex_g; ex_u; ex_r])
                              ex_world).2)) = 3
  ∧ (setMetricBundles (BundleList [ex_g; ex_u; ex_r]) ex_world).1
    ≠ Raise slicer_error.
Proof.
  apply (C9_installed_bundles_permutation (BundleList [ex_g; ex_u; ex_r]) ex_world).
  - discriminate.
  - intros b1 b2 H1 H2. simpl in H1, H2.
    repeat (apply elem_of_cons in H1 as [->|H1]); [| | |by apply elem_of_nil in H1];
    repeat (apply elem_of_cons in H2 as [->|H2]);
    first [reflexivity | by apply elem_of_nil in H2].
Defined.

Lemma C5_slicer_mismatch_is_fatal_witness :
  (setMetricBundles (BundleList [ex_g; ex_healpix]) ex_world).1 = Raise slicer_error
  ∧ ∀ msg, (setMetricBundles (BundleList [ex_g; ex_r]) ex_world).1
           ≠ Raise (ValueError msg).
Proof.
  split.
  - apply (C5_slicer_mismatch_is_fatal (BundleList [ex_g; ex_healpix]) ex_world).
    + discriminate.
    + exists ex_g, ex_healpix. simpl.
      split; [left|]. split; [right; left|]. discriminate.
  - apply (C5_slicer_mismatch_is_fatal (BundleList [ex_g; ex_r]) ex_world).
    + discriminate.
    + intros b1 b2 H1 H2. simpl in H1, H2.
      repeat (apply elem_of_cons in H1 as [->|H1]); [| |by apply elem_of_nil in H1];
      repeat (apply elem_of_cons in H2 as [->|H2]);
      first [reflexivity | by apply elem_of_nil in H2].
Defined.

(** ** Merging the metadata of an r-band and a g-band bundle (C2) *)

Section MetadataMerge.
Context `{Runtime}.

Lemma set_iter_nil : set_iter [] = [].
Proof. apply Permutation_nil_r, set_iter_perm. Qed.

Lemma set_iter_singleton (x : string) : set_iter [x] = [x].
Proof. apply Permutation_singleton_r, set_iter_perm. Qed.

Lemma set_iter_pair (x y : string) :
  set_iter [x; y] = [x; y] ∨ set_iter [x; y] = [y; x].
Proof. apply Permutation_length_2_inv. symmetry. apply set_iter_perm. Qed.

(** Symbolic evaluation under an unknown enumeration order: an enumerated
    set that is known is replaced by its one possible enumeration (or by
    each of its two), and the term is head-reduced up to the next one. *)
Ltac resolve_iter :=
  match goal with
  | |- context [set_iter ?l] =>
      lazymatch l with context [set_iter _] => fail | _ => idtac end;
      let v := eval vm_compute in l in
      change (set_iter l) with (set_iter v);
      lazymatch v with
      | [] => rewrite set_iter_nil
      | [?x] => rewrite (set_iter_singleton x)
      | [?x; ?y] => destruct (set_iter_pair x y) as [-> | ->]
      end
  end.

Ltac head_reduce :=
  match goal with
  | |- ?lhs = _ => progress (let t := eval lazy head beta iota zeta delta -[set_iter argsort] in lhs in change lhs with t)
  end.

Ltac expose_iter :=
  progress cbn [fmap list_fmap flat_map List.filter band_order app].

Ltac eval_cond :=
  match goal with
  | |- context [if ?b then _ else _] =>
      lazymatch b with
      | context [set_iter _] => fail
      | true => fail
      | false => fail
      | _ => idtac
      end;
      let v := eval vm_compute in b in
      change b with v; cbv iota
  end.

Ltac run_iter :=
  repeat first [ resolve_iter | head_reduce | expose_iter | eval_cond ];
  vm_compute; reflexivity.

Definition meta_r : string := "r band, dithered".
Definition meta_g : string := "g band, dithered".

Lemma merge_metadata_r_g (md : PySet.t) :
  md = [meta_r; meta_g] ∨ md = [meta_g; meta_r] →
  merge_metadata md = Ok "g, r band dithered".
Proof.
  intros [-> | ->]; unfold merge_metadata.
  - run_iter.
  - run_iter.
Qed.
(** Steps of [setMetricBundles] that cannot raise. *)
Definition never (e : exn) : Prop := False.

Lemma keeps_never_run {A} (I : PlotHandler → Prop) (m : M A) (w : World) :
  keeps I never m → I (this w) →
  ∃ a w1, m w = (Ok a, w1) ∧ I (this w1).
Proof.
  intros Hm Hw. destruct (Hm w Hw) as [Hi Ho].
  destruct (m w) as [[a|e] w1]; simpl in *.
  - by exists a, w1.
  - destruct (Ho e eq_refl).
Qed.

Lemma keeps_combineMetricNames I E :
  (∀ v s, I s → I (set_metricNames v s)) →
  (∀ v s, I s → I (set_jointMetricNames v s)) →
  keeps I E _combineMetricNames.
Proof. intros H1 H2. unfold _combineMetricNames. cbv zeta. repeat keeps_step. Qed.

Lemma keeps_combineRunNames I E :
  (∀ v s, I s → I (set_runNames v s)) →
  (∀ v s, I s → I (set_jointRunNames v s)) →
  keeps I E _combineRunNames.
Proof. intros H1 H2. unfold _combineRunNames. cbv zeta. repeat keeps_step. Qed.

Lemma keeps_combineSql I E :
  (∀ v s, I s → I (set_sqlconstraints v s)) →
  keeps I E _combineSql.
Proof. intros H1. unfold _combineSql. cbv zeta. repeat keeps_step. Qed.

Lemma bind_run_Ok {A B} (m : M A) (f : A → M B) (w w1 : World) (a : A) :
  m w = (Ok a, w1) → (m ≫= f) w = f a w1.
Proof. intros Hm. by rewrite bind_run, Hm. Qed.

Lemma combineMetadata_run (w : World) (combo : string) :
  let md := metadata_of (mBundles (this w)) in
  (length md =? 1)%nat = false →
  merge_metadata md = Ok combo →
  _combineMetadata w =
  (Ok (), {| this := set_jointMetadata combo (set_metadata md (this w));
             log := log w |}).
Proof.
  intros md Hlen Hmerge. unfold _combineMetadata.
  rewrite bind_run. cbn [get_self]. cbv zeta.
  rewrite bind_run. cbn [update this log].
  fold md. rewrite Hlen. rewrite bind_run. unfold lift. rewrite Hmerge.
  reflexivity.
Qed.

Lemma install_tail_metadata (w : World) (combo : string) :
  let md := metadata_of (mBundles (this w)) in
  (length md =? 1)%nat = false →
  merge_metadata md = Ok combo →
  metadata (this (install_tail w).2) = md
  ∧ jointMetadata (this (install_tail w).2) = combo.
Proof.
  intros md Hlen Hmerge. rewrite install_tail_eq.
  destruct (keeps_never_run (bundles_are (mBundles (this w)))
              _combineMetricNames w) as (? & w1 & Hw1 & Hb1);
    [by apply keeps_combineMetricNames | done |].
  rewrite (bind_run_Ok _ _ _ _ _ Hw1).
  destruct (keeps_never_run (bundles_are (mBundles (this w)))
              _combineRunNames w1) as (? & w2 & Hw2 & Hb2);
    [by apply keeps_combineRunNames | done |].
  rewrite (bind_run_Ok _ _ _ _ _ Hw2).
  unfold bundles_are in Hb2.
  rewrite (bind_run_Ok _ _ _ _ _
             (combineMetadata_run w2 combo
                ltac:(by rewrite Hb2) ltac:(by rewrite Hb2))).
  rewrite Hb2. fold md.
  apply (keeps_bind (λ s, metadata s = md ∧ jointMetadata s = combo)
           not_value_error).
  - by apply keeps_combineSql.
  - intros _. by apply keeps_setPlotDict.
  - done.
Qed.

(** The number of places of [s] where [sub] starts. *)
Fixpoint occurrences (sub s : string) : nat :=
  (if String.prefix sub s then 1 else 0) +
  match s with
  | EmptyString => 0
  | String _ s' => occurrences sub s'
  end.

(** C2. Two bundles with the metadata "r band, dithered" and
    "g band, dithered" have the one common clause "dithered"; the joint
    metadata is "g, r band dithered", whatever order the sets enumerate in:
    "g" comes before "r", and "dithered" occurs once. *)
Theorem C2_metadata_merge_band_order (b1 b2 : MB.t) (w : World) :
  slicerName (MB.slicer b1) = slicerName (MB.slicer b2) →
  MB.metadata b1 = "r band, dithered" →
  MB.metadata b2 = "g band, dithered" →
  let self' := this (setMetricBundles (BundleList [b1; b2]) w).2 in
  PySet.inter_all (split_clauses <$> set_iter (metadata self')) = Some ["dithered"]
  ∧ jointMetadata self' = "g, r band dithered"
  ∧ String.index 0 "g" (jointMetadata self') = Some 0
  ∧ String.index 0 "r" (jointMetadata self') = Some 3
  ∧ occurrences "dithered" (jointMetadata self') = 1.
Proof.
  intros Hsl Hr Hg self'.
  assert (Hmeta : (metadata self' = [meta_r; meta_g] ∨ metadata self' = [meta_g; meta_r])
                  ∧ jointMetadata self' = "g, r band dithered").
  { subst self'. rewrite setMetricBundles_run.
    pose proof (order_bundles_perm (arrivals (BundleList [b1; b2]))) as Hperm.
    symmetry in Hperm. apply Permutation_length_2_inv in Hperm.
    unfold ordered.
    destruct Hperm as [-> | ->]; cbv zeta; unfold same_slicer;
      cbn [forallb]; rewrite ?Hsl, !String.eqb_refl; cbn [andb].
    - destruct (install_tail_metadata
                  {| this := set_slicer (MB.slicer b1)
                               (set_mBundles [b1; b2] (set_plotDict ∅ (this w)));
                     log := log w |} "g, r band dithered") as [Hm Hj].
      + cbn. by rewrite Hr, Hg.
      + apply merge_metadata_r_g. cbn. rewrite Hr, Hg. by left.
      + split; [|exact Hj]. rewrite Hm. cbn. rewrite Hr, Hg. by left.
    - destruct (install_tail_metadata
                  {| this := set_slicer (MB.slicer b2)
                               (set_mBundles [b2; b1] (set_plotDict ∅ (this w)));
                     log := log w |} "g, r band dithered") as [Hm Hj].
      + cbn. by rewrite Hr, Hg.
      + apply merge_metadata_r_g. cbn. rewrite Hr, Hg. by right.
      + split; [|exact Hj]. rewrite Hm. cbn. rewrite Hr, Hg. by right. }
  destruct Hmeta as [Hmd ->].
  split; [|by vm_compute].
  destruct Hmd as [-> | ->].
  - destruct (set_iter_pair meta_r meta_g) as [-> | ->]; by vm_compute.
  - destruct (set_iter_pair meta_g meta_r) as [-> | ->]; by vm_compute.
Qed.

End MetadataMerge.

Lemma C2_metadata_merge_band_order_witness :
  jointMetadata
    (this (setMetricBundles (BundleList [ex_r; ex_g]) ex_world).2)
  = "g, r band dithered".
Proof.
  apply (C2_metadata_merge_band_order ex_r ex_g ex_world);
    reflexivity.
Defined.

(** ** Colors of combined bundles (C4, C10) *)

(** The pieces of length one among the pieces of a constraint between
    double quotes. *)
Definition single_char_pieces (sqlconstraint : string) : list string :=
  List.filter (λ v, (String.length v =? 1)%nat)
              (Str.split Str.dquote sqlconstraint).

(** One round of the inner loop of [_buildColors] ([for v in vals]). *)
Definition piece_step (acc : outcome (option pyval)) (v : string)
    : outcome (option pyval) :=
  color ← acc;
  if (String.length v =? 1)%nat
  then c ← getitem filtercolors v; Ok (Some (VStr c))
  else Ok color.

Section Colors.
Context `{Runtime}.

Lemma piece_loop_raise (e : exn) (vals : list string) :
  foldl piece_step (Raise e) vals = Raise e.
Proof. induction vals as [|v vals IH]; [done | exact IH]. Qed.

(** The inner loop looks up every piece of length one, in order: the first
    one missing from the table raises; otherwise the last one stays. *)
Lemma piece_loop_spec (color : option pyval) (vals : list string) :
  foldl piece_step (Ok color) vals =
  let toks := List.filter (λ v, (String.length v =? 1)%nat) vals in
  match List.find (λ t, bool_decide (filtercolors !! t = None)) toks with
  | Some t => Raise (KeyError t)
  | None => Ok (match last toks with
                | Some t => VStr <$> filtercolors !! t
                | None => color
                end)
  end.
Proof.
  revert color. induction vals as [|v vals IH]; intros color; [done|].
  cbn [foldl List.filter]. unfold piece_step at 2. cbn [mbind outcome_bind].
  destruct (String.length v =? 1)%nat eqn:Hlen; [|apply IH].
  cbn [List.find]. unfold getitem.
  destruct (filtercolors !! v) as [c|] eqn:Hc.
  - rewrite bool_decide_false by done. cbn [mbind outcome_bind].
    rewrite IH. cbv zeta.
    destruct (List.find _ _); [done|].
    f_equal.
    destruct (List.filter _ vals) as [|t toks]; [cbn [last]; by rewrite Hc|].
    change (last (v :: t :: toks)) with (last (t :: toks)).
    destruct (last (t :: toks)) eqn:Hlast; [done | by apply last_None in Hlast].
  - rewrite bool_decide_true by done. apply piece_loop_raise.
Qed.

Lemma color_step_filter (color : option pyval) (mB : MB.t) :
  MB.plotDict mB !! "color" = None →
  Str.contains "filter" (MB.sqlconstraint mB) = true →
  color_step color mB =
  let toks := single_char_pieces (MB.sqlconstraint mB) in
  match List.find (λ t, bool_decide (filtercolors !! t = None)) toks with
  | Some t => Raise (KeyError t)
  | None => Ok (match last toks with
                | Some t => VStr <$> filtercolors !! t
                | None => color
                end)
  end.
Proof.
  intros Hov Hfilter. unfold color_step. rewrite Hov, Hfilter.
  apply piece_loop_spec.
Qed.

Lemma colors_loop_app color colors (l1 l2 : list MB.t) :
  colors_loop color colors (l1 ++ l2) =
  colors_loop color colors l1 ≫= λ st, colors_loop st.1 st.2 l2.
Proof.
  revert color colors. induction l1 as [|mB l1 IH]; intros color colors; [done|].
  cbn [app colors_loop].
  destruct (color_step color mB) as [color'|e]; [|done].
  cbn [mbind outcome_bind].
  destruct (local "color" color') as [c|e]; [|done].
  cbn [mbind outcome_bind]. apply IH.
Qed.

(** The loop only appends to [colors], one color per bundle. *)
Lemma colors_loop_extends color colors (l : list MB.t) color' colors' :
  colors_loop color colors l = Ok (color', colors') →
  ∃ ext, colors' = colors ++ ext ∧ length ext = length l.
Proof.
  revert color colors. induction l as [|mB l IH]; intros color colors Hl.
  - injection Hl as <- <-. exists []. by rewrite app_nil_r.
  - cbn [colors_loop] in Hl.
    destruct (color_step color mB) as [c1|e]; [|done].
    cbn [mbind outcome_bind] in Hl.
    destruct (local "color" c1) as [c|e]; [|done].
    cbn [mbind outcome_bind] in Hl.
    destruct (IH _ _ Hl) as (ext & -> & Hext).
    exists (c :: ext). rewrite <- app_assoc. split; [done|]. simpl. by rewrite Hext.
Qed.

(** What the loop has in its locals after a round: [color] is bound, to
    the color just appended. *)
Lemma colors_loop_snoc color colors (l : list MB.t) (p : MB.t) color' colors' :
  colors_loop color colors (l ++ [p]) = Ok (color', colors') →
  ∃ c front, color' = Some c ∧ colors' = front ++ [c]
             ∧ length front = length colors + length l.
Proof.
  rewrite colors_loop_app.
  destruct (colors_loop color colors l) as [[c0 cs0]|e] eqn:Hl; [|done].
  cbn [mbind outcome_bind fst snd colors_loop].
  destruct (color_step c0 p) as [c1|e]; [|done].
  cbn [mbind outcome_bind].
  destruct c1 as [c|]; [|done].
  cbn [local mbind outcome_bind]. intros [= <- <-].
  exists c, cs0. split; [done|]. split; [done|].
  destruct (colors_loop_extends _ _ _ _ _ Hl) as (ext & -> & Hext).
  rewrite length_app. lia.
Qed.

Lemma buildColors_multi (self : PlotHandler) :
  length (mBundles self) ≠ 1 →
  _buildColors self = colors_loop None [] (mBundles self) ≫= λ st, Ok st.2.
Proof.
  intros Hlen. unfold _buildColors.
  destruct (Nat.eqb_spec (length (mBundles self)) 1); [done | reflexivity].
Qed.

(** An exception of [_buildColors] leaves [setPlotDict] as it is. *)
Lemma setPlotDict_colors_raise (w : World) userPlotDict plotFunc reset title e :
  _buildTitle (this w) = Ok title →
  _buildColors (this w) = Raise e →
  (setPlotDict userPlotDict plotFunc reset w).1 = Raise e.
Proof.
  intros Htitle Hcolors. unfold setPlotDict.
  rewrite bind_run. cbn [get_self]. cbv zeta.
  rewrite bind_run. unfold lift at 1. rewrite Htitle.
  destruct reset; unfold store;
    repeat (rewrite bind_run; cbn [mret M_ret update this log]);
    unfold lift at 1; cbn [this]; by rewrite Hcolors.
Qed.

Lemma find_None_intro {A} (f : A → bool) (l : list A) :
  (∀ x, x ∈ l → f x = false) → List.find f l = None.
Proof.
  induction l as [|x l IH]; intros Hall; [done|]. cbn [List.find].
  rewrite (Hall x) by left. apply IH. intros y Hy. apply Hall. by right.
Qed.

(** C4, as the code has it. In the loop over several bundles, a bundle
    without a color override whose constraint contains "filter" has every
    piece of length one between double quotes looked up in the band-color
    table (u blue, g green, r yellow, i red, z magenta, y black), each
    lookup overwriting the one before: when all of them are band letters
    the color is the table entry of the last one; when one is not, the
    [KeyError] of the lookup ends [_buildColors] and [setPlotDict]. *)
Theorem C4_filter_color_last_piece (self : PlotHandler) (pre post : list MB.t)
    (mB : MB.t) (color0 : option pyval) (cs : list pyval) (t : string) :
  mBundles self = pre ++ mB :: post →
  length (mBundles self) ≠ 1 →
  MB.plotDict mB !! "color" = None →
  Str.contains "filter" (MB.sqlconstraint mB) = true →
  colors_loop None [] pre = Ok (color0, cs) →
  last (single_char_pieces (MB.sqlconstraint mB)) = Some t →
  (λ k, filtercolors !! k) <$> band_order = Some <$> ["b"; "g"; "y"; "r"; "m"; "k"]
  ∧ ((∀ k, k ∈ single_char_pieces (MB.sqlconstraint mB) → is_Some (filtercolors !! k)) →
     ∃ col, filtercolors !! t = Some col
            ∧ colors_loop None [] (pre ++ [mB]) = Ok (Some (VStr col), cs ++ [VStr col])
            ∧ ∀ colors, _buildColors self = Ok colors →
                        colors !! length pre = Some (VStr col))
  ∧ ((∃ k, k ∈ single_char_pieces (MB.sqlconstraint mB) ∧ filtercolors !! k = None) →
     ∃ k, k ∈ single_char_pieces (MB.sqlconstraint mB) ∧ filtercolors !! k = None
          ∧ _buildColors self = Raise (KeyError k)
          ∧ ∀ (w : World) userPlotDict plotFunc reset title,
              this w = self → _buildTitle self = Ok title →
              (setPlotDict userPlotDict plotFunc reset w).1 = Raise (KeyError k)).
Proof.
  intros Hbundles Hlen Hov Hfilter Hpre Hlast.
  pose proof (color_step_filter color0 mB Hov Hfilter) as Hstep. cbv zeta in Hstep.
  split; [reflexivity|]. split.
  - intros Hall.
    destruct (Hall t) as [col Hcol].
    { apply last_Some in Hlast as [l' ->]. apply elem_of_app. right. left. }
    rewrite find_None_intro, Hlast, Hcol in Hstep.
    2:{ intros k Hk. apply bool_decide_eq_false. destruct (Hall k Hk) as [? ->]. done. }
    exists col. split; [done|].
    assert (Hsnoc : colors_loop None [] (pre ++ [mB])
                    = Ok (Some (VStr col), cs ++ [VStr col])).
    { rewrite colors_loop_app, Hpre. cbn [mbind outcome_bind fst snd colors_loop].
      by rewrite Hstep. }
    split; [done|].
    intros colors. rewrite buildColors_multi, Hbundles by done.
    rewrite (cons_middle mB pre post), app_assoc, colors_loop_app, Hsnoc.
    cbn [mbind outcome_bind fst snd].
    destruct (colors_loop _ _ post) as [[c' cs']|e] eqn:Hpost; [|done].
    cbn [mbind outcome_bind snd]. intros [= <-].
    destruct (colors_loop_extends _ _ _ _ _ Hpost) as (ext & -> & _).
    destruct (colors_loop_extends _ _ _ _ _ Hpre) as (front & -> & Hfront).
    rewrite <- Hfront, <- app_assoc. cbn [app].
    by rewrite lookup_app_r, Nat.sub_diag.
  - intros (k0 & Hk0 & Hnone).
    destruct (List.find _ _) as [k|] eqn:Hfind.
    + apply List.find_some in Hfind as [Hin Hk%bool_decide_eq_true].
      exists k. split; [by apply list_elem_of_In|]. split; [done|].
      assert (Hraise : _buildColors self = Raise (KeyError k)).
      { rewrite buildColors_multi, Hbundles, colors_loop_app, Hpre by done.
        cbn [mbind outcome_bind fst snd colors_loop]. by rewrite Hstep. }
      split; [done|].
      intros w u pf reset title <- Htitle.
      by apply setPlotDict_colors_raise with title.
    + exfalso.
      pose proof (List.find_none _ _ Hfind k0) as Hk.
      apply list_elem_of_In in Hk0. apply Hk in Hk0.
      by apply bool_decide_eq_false in Hk0.
Qed.

(** C10. In the loop over several bundles, a bundle without a color
    override whose constraint contains "filter" but has no piece of length
    one between double quotes gets the color of the bundle before it; when
    it is the first bundle of the loop, [_buildColors] raises
    [UnboundLocalError] for the local [color]. *)
Theorem C10_color_reused_or_unbound (self : PlotHandler) (pre post : list MB.t)
    (mB : MB.t) :
  mBundles self = pre ++ mB :: post →
  length (mBundles self) ≠ 1 →
  MB.plotDict mB !! "color" = None →
  Str.contains "filter" (MB.sqlconstraint mB) = true →
  single_char_pieces (MB.sqlconstraint mB) = [] →
  (pre = [] → _buildColors self = Raise (UnboundLocalError "color"))
  ∧ (∀ color cs, pre ≠ [] → colors_loop None [] pre = Ok (color, cs) →
       ∃ c, last cs = Some c
            ∧ colors_loop None [] (pre ++ [mB]) = Ok (Some c, cs ++ [c])
            ∧ ∀ colors, _buildColors self = Ok colors →
                colors !! (length pre - 1) = Some c
                ∧ colors !! length pre = Some c).
Proof.
  intros Hbundles Hlen Hov Hfilter Hnone.
  assert (Hstep : ∀ color, color_step color mB = Ok color).
  { intros color. rewrite color_step_filter by done. cbv zeta. by rewrite Hnone. }
  split.
  - intros ->. rewrite buildColors_multi, Hbundles by done.
    cbn [app colors_loop]. by rewrite Hstep.
  - intros color cs Hne Hpre.
    destruct (exists_last Hne) as (l & p & ->).
    destruct (colors_loop_snoc _ _ _ _ _ _ Hpre) as (c & front & -> & -> & Hfront).
    exists c. split; [by rewrite last_snoc|].
    assert (Hsnoc : colors_loop None [] ((l ++ [p]) ++ [mB])
                    = Ok (Some c, (front ++ [c]) ++ [c])).
    { rewrite colors_loop_app, Hpre. cbn [mbind outcome_bind fst snd colors_loop].
      by rewrite Hstep. }
    split; [done|].
    intros colors. rewrite buildColors_multi, Hbundles by done.
    rewrite (cons_middle mB (l ++ [p]) post), app_assoc, colors_loop_app, Hsnoc.
    cbn [mbind outcome_bind fst snd].
    destruct (colors_loop _ _ post) as [[c' cs']|e] eqn:Hpost; [|done].
    cbn [mbind outcome_bind snd]. intros [= <-].
    destruct (colors_loop_extends _ _ _ _ _ Hpost) as (ext & -> & _).
    rewrite length_app. cbn [length] in *.
    replace (length l + 1 - 1) with (length front) by lia.
    replace (length l + 1) with (length (front ++ [c])) by (rewrite length_app; simpl; lia).
    split.
    + rewrite <- !app_assoc. by rewrite lookup_app_r, Nat.sub_diag.
    + rewrite <- (app_assoc (front ++ [c])).
      by rewrite lookup_app_r, Nat.sub_diag.
Qed.

End Colors.

(** Example constraints: two quoted band letters, a quoted letter that is
    no band, and a band letter in single quotes. *)
Definition sql_r_or_g : string :=
  "filter = " +:+ Str.dquote +:+ "r" +:+ Str.dquote +:+ " or filter = "
  +:+ Str.dquote +:+ "g" +:+ Str.dquote.
Definition sql_x : string := "filter = " +:+ Str.dquote +:+ "x" +:+ Str.dquote.
Definition sql_single_quotes : string := "filter = 'r'".

Definition ex_two_filters : MB.t :=
  ex_bundle "run1_Count_ONED" "run1" "" "Count" sql_r_or_g ∅ 0.
Definition ex_no_filter : MB.t :=
  ex_bundle "run1_Count_ONED" "run1" "" "Count" "" ∅ 0.
Definition ex_unknown_filter : MB.t :=
  ex_bundle "run1_Count_ONED" "run1" "" "Count" sql_x ∅ 0.
Definition ex_unquoted_filter : MB.t :=
  ex_bundle "run1_Count_ONED" "run1" "" "Count" sql_single_quotes ∅ 0.

(** The handler after [setMetricBundles(l)] on a new [PlotHandler()]. *)
Definition ex_installed (l : list MB.t) : PlotHandler :=
  this (setMetricBundles (BundleList l) ex_world).2.

(** The claim as stated fails: with the constraint
    filter = "r" or filter = "g" the first piece of length one is r, whose
    table entry is y, and the color derived is g. *)
Lemma C4_first_piece_counterexample :
  (setMetricBundles (BundleList [ex_two_filters; ex_no_filter]) ex_world).1 = Ok ()
  ∧ mBundles (ex_installed [ex_two_filters; ex_no_filter])
    = [ex_two_filters; ex_no_filter]
  ∧ MB.plotDict ex_two_filters !! "color" = None
  ∧ Str.contains "filter" (MB.sqlconstraint ex_two_filters) = true
  ∧ head (single_char_pieces (MB.sqlconstraint ex_two_filters)) = Some "r"
  ∧ filtercolors !! "r" = Some "y"
  ∧ _buildColors (ex_installed [ex_two_filters; ex_no_filter])
    = Ok [VStr "g"; VStr "b"]
  ∧ _buildColors (ex_installed [ex_two_filters; ex_no_filter])
    ≠ Ok [VStr "y"; VStr "b"].
Proof. vm_compute. repeat split; discriminate. Qed.

Lemma C4_filter_color_last_piece_witness :
  (∃ col, filtercolors !! "g" = Some col
          ∧ colors_loop None [] ([] ++ [ex_two_filters])
            = Ok (Some (VStr col), [] ++ [VStr col])
          ∧ ∀ colors, _buildColors (ex_installed [ex_two_filters; ex_no_filter])
                      = Ok colors →
                      colors !! 0 = Some (VStr col))
  ∧ (∃ k, k ∈ single_char_pieces (MB.sqlconstraint ex_unknown_filter)
          ∧ filtercolors !! k = None
          ∧ _buildColors (ex_installed [ex_unknown_filter; ex_no_filter])
            = Raise (KeyError k)
          ∧ ∀ (w : World) userPlotDict plotFunc reset title,
              this w = ex_installed [ex_unknown_filter; ex_no_filter] →
              _buildTitle (ex_installed [ex_unknown_filter; ex_no_filter])
              = Ok title →
              (setPlotDict userPlotDict plotFunc reset w).1 = Raise (KeyError k)).
Proof.
  split.
  - apply (C4_filter_color_last_piece
             (ex_installed [ex_two_filters; ex_no_filter])
             [] [ex_no_filter] ex_two_filters None [] "g");
      try (vm_compute; reflexivity).
    + vm_compute. discriminate.
    + intros k Hk. vm_compute in Hk.
      apply elem_of_cons in Hk as [-> | Hk]; [by vm_compute; eexists|].
      apply elem_of_cons in Hk as [-> | Hk]; [by vm_compute; eexists|].
      by apply elem_of_nil in Hk.
  - apply (C4_filter_color_last_piece
             (ex_installed [ex_unknown_filter; ex_no_filter])
             [] [ex_no_filter] ex_unknown_filter None [] "x");
      try (vm_compute; reflexivity).
    + vm_compute. discriminate.
    + exists "x". split; [vm_compute; left | vm_compute; reflexivity].
Defined.

Lemma C10_color_reused_or_unbound_witness :
  _buildColors (ex_installed [ex_unquoted_filter; ex_no_filter])
  = Raise (UnboundLocalError "color")
  ∧ ∃ c, last [VStr "b"] = Some c
         ∧ colors_loop None [] ([ex_no_filter] ++ [ex_unquoted_filter])
           = Ok (Some c, [VStr "b"] ++ [c])
         ∧ ∀ colors, _buildColors (ex_installed [ex_no_filter; ex_unquoted_filter])
                     = Ok colors →
             colors !! (length [ex_no_filter] - 1) = Some c
             ∧ colors !! length [ex_no_filter] = Some c.
Proof.
  split.
  - apply (C10_color_reused_or_unbound
             (ex_installed [ex_unquoted_filter; ex_no_filter])
             [] [ex_no_filter] ex_unquoted_filter);
      try (vm_compute; reflexivity).
    vm_compute. discriminate.
  - refine (proj2 (C10_color_reused_or_unbound
                     (ex_installed [ex_no_filter; ex_unquoted_filter])
                     [ex_no_filter] [] ex_unquoted_filter _ _ _ _ _)
                  (Some (VStr "b")) [VStr "b"] _ _);
      try (vm_compute; reflexivity).
    + vm_compute. discriminate.
    + discriminate.
Defined.

(** ** What [setPlotDict] leaves in [self.plotDict] *)

(** The seven entries that [setPlotDict] derives from the bundles, written
    over [base]. *)
Definition derived_entries (title : string) (labels colors : list pyval)
    (cbarFormat : pyval) (base : gmap string pyval) : gmap string pyval :=
  <["cbarFormat" := cbarFormat]>
    (<["legendloc" := VStr "upper right"]>
       (<["colors" := VList colors]>
          (<["labels" := VList labels]>
             (<["title" := VStr title]> base)))).

Definition with_xy (xy : pyval * pyval) (d : gmap string pyval)
    : gmap string pyval :=
  <["ylabel" := xy.2]> (<["xlabel" := xy.1]> d).

Definition with_overrides (userPlotDict : option (gmap string pyval))
    (d : gmap string pyval) : gmap string pyval :=
  match userPlotDict with
  | Some o => o ∪ d
  | None => d
  end.

Section PlotDict.
Context `{Runtime}.

Lemma apply_defaults_lookup (defaults base : gmap string pyval) (k : string) :
  apply_defaults defaults base !! k =
  match defaults !! k with
  | Some VNone | None => base !! k
  | Some v => Some v
  end.
Proof.
  unfold apply_defaults.
  apply (map_fold_weak_ind
           (λ r d, r !! k = match d !! k with
                            | Some VNone | None => base !! k
                            | Some v => Some v
                            end)).
  - by rewrite lookup_empty.
  - intros i x m r Hi IH.
    destruct (decide (i = k)) as [->|Hne].
    + rewrite (lookup_insert_eq m), Hi in *.
      destruct x; [exact IH | by rewrite (lookup_insert_eq r)..].
    + rewrite (lookup_insert_ne m) by done.
      destruct x; [exact IH | by rewrite (lookup_insert_ne r)..].
Qed.

(** A run of [setPlotDict] whose derivations succeed. *)
Lemma setPlotDict_run (w : World) userPlotDict plotFunc (reset : bool)
    title colors :
  _buildTitle (this w) = Ok title →
  _buildColors (this w) = Ok colors →
  let base : gmap string pyval := if reset then ∅ else plotDict (this w) in
  let d := derived_entries title (_buildLegendLabels (this w)) colors
                           (_buildCbarFormat (this w)) base in
  match plotFunc with
  | None =>
      setPlotDict userPlotDict None reset w =
      (Ok (), {| this := set_plotDict (with_overrides userPlotDict d) (this w);
                 log := log w |})
  | Some pf =>
      ∀ xy, _buildXYlabels (this w) pf = Ok xy →
      setPlotDict userPlotDict (Some pf) reset w =
      (Ok (), {| this := set_plotDict
                           (with_overrides userPlotDict
                              (apply_defaults (defaultPlotDict pf) (with_xy xy d)))
                           (this w);
                 log := log w |})
  end.
Proof.
  intros Htitle Hcolors base d. subst d base.
  destruct plotFunc as [pf|]; [intros xy Hxy|];
    unfold setPlotDict;
    rewrite bind_run; cbn [get_self]; cbv zeta;
    rewrite bind_run; unfold lift at 1; rewrite Htitle;
    destruct reset; unfold store;
    repeat (rewrite bind_run; cbn [mret M_ret update this log]);
    unfold lift at 1; cbn [this]; rewrite Hcolors;
    repeat (rewrite bind_run; cbn [mret M_ret update this log]);
    try (unfold lift at 1; cbn [this]; rewrite Hxy);
    repeat (rewrite bind_run; cbn [mret M_ret update this log]);
    destruct userPlotDict; reflexivity.
Qed.

(** ** A single installed bundle (C3) *)

Lemma combineMetricNames_run (w : World) :
  _combineMetricNames w =
  (Ok (), {| this := set_jointMetricNames
                       (joint_metric_names (names_of (mBundles (this w))))
                       (set_metricNames (names_of (mBundles (this w))) (this w));
             log := log w |}).
Proof. reflexivity. Qed.

Lemma combineRunNames_run (w : World) :
  _combineRunNames w =
  (Ok (), {| this := set_jointRunNames
                       (Str.join " " (set_iter (runs_of (mBundles (this w)))))
                       (set_runNames (runs_of (mBundles (this w))) (this w));
             log := log w |}).
Proof. reflexivity. Qed.

Lemma combineSql_run (w : World) :
  _combineSql w =
  (Ok (), {| this := set_sqlconstraints
                       (Str.join "; " (set_iter (constraints_of (mBundles (this w)))))
                       (this w);
             log := log w |}).
Proof. reflexivity. Qed.

Lemma combineMetadata_run_one (w : World) :
  (length (metadata_of (mBundles (this w))) =? 1)%nat = true →
  _combineMetadata w =
  (Ok (), {| this := set_jointMetadata
                       (Str.join " " (set_iter (metadata_of (mBundles (this w)))))
                       (set_metadata (metadata_of (mBundles (this w))) (this w));
             log := log w |}).
Proof.
  intros Hlen. unfold _combineMetadata.
  rewrite bind_run. cbn [get_self]. cbv zeta.
  rewrite bind_run. cbn [update this log]. by rewrite Hlen.
Qed.

Lemma string_app_assoc (a b c : string) :
  (a +:+ b) +:+ c = a +:+ (b +:+ c).
Proof.
  induction a as [|x a IH]; [reflexivity|].
  change (String x ((a +:+ b) +:+ c) = String x (a +:+ (b +:+ c))).
  by rewrite IH.
Qed.

Lemma append_nonempty (a b : string) (c : ascii) :
  String.eqb (a +:+ String c b) "" = false.
Proof. by destruct a. Qed.

(** With one run name, one metadata and one metric name, the title is the
    three of them: run name, space, metadata, colon, space, metric name. *)
Lemma buildTitle_single (self : PlotHandler) (r m n : string) :
  runNames self = [r] → metadata self = [m] → metricNames self = [n] →
  _buildTitle self = Ok (r +:+ " " +:+ m +:+ ": " +:+ n).
Proof.
  intros Hr Hm Hn. unfold _buildTitle, first.
  rewrite Hr, Hm, Hn, !set_iter_singleton.
  cbn [length Nat.eqb mbind outcome_bind local].
  rewrite !string_app_assoc.
  change (" " +:+ m +:+ ": " +:+ n) with (String " " (m +:+ ": " +:+ n)).
  by rewrite append_nonempty.
Qed.

Lemma setPlotDict_reset_fields (w : World) (title : string) (colors : list pyval) :
  _buildTitle (this w) = Ok title →
  _buildColors (this w) = Ok colors →
  let r := setPlotDict None None true w in
  r.1 = Ok ()
  ∧ mBundles (this r.2) = mBundles (this w)
  ∧ runNames (this r.2) = runNames (this w)
  ∧ metadata (this r.2) = metadata (this w)
  ∧ metricNames (this r.2) = metricNames (this w)
  ∧ plotDict (this r.2) =
    derived_entries title (_buildLegendLabels (this w)) colors
                    (_buildCbarFormat (this w)) ∅.
Proof.
  intros Htitle Hcolors r. subst r.
  pose proof (setPlotDict_run w None None true title colors Htitle Hcolors) as Hrun.
  cbv zeta in Hrun. rewrite Hrun. by destruct w as [[] ?].
Qed.

Lemma order_bundles_single (mB : MB.t) : order_bundles [mB] = [mB].
Proof.
  unfold order_bundles, insert_bundle, list_insert_at. cbn [foldl length].
  by destruct (forder 0 mB).
Qed.

(** Installing one bundle succeeds, and leaves a title of the single-bundle
    form, the label list [[None]], the color override or "b", and no x or y
    label yet. *)
Lemma setMetricBundles_single (mB : MB.t) (w : World) :
  let r := setMetricBundles (BundleList [mB]) w in
  r.1 = Ok ()
  ∧ mBundles (this r.2) = [mB]
  ∧ runNames (this r.2) = [MB.runName mB]
  ∧ metadata (this r.2) = [MB.metadata mB]
  ∧ metricNames (this r.2) = [Metric.name (MB.metric mB)]
  ∧ plotDict (this r.2) =
    derived_entries
      (MB.runName mB +:+ " " +:+ MB.metadata mB +:+ ": "
       +:+ Metric.name (MB.metric mB))
      [VNone] [default (VStr "b") (MB.plotDict mB !! "color")]
      (if String.eqb (Metric.metricDtype (MB.metric mB)) "int"
       then VStr "%d" else VNone) ∅.
Proof.
  intros r. subst r. rewrite setMetricBundles_run.
  unfold ordered. cbn [arrivals]. rewrite order_bundles_single. cbv zeta.
  unfold same_slicer. cbn [forallb]. rewrite String.eqb_refl. cbn [andb].
  rewrite install_tail_eq.
  rewrite (bind_run_Ok _ _ _ _ _ (combineMetricNames_run _)).
  rewrite (bind_run_Ok _ _ _ _ _ (combineRunNames_run _)).
  match goal with
  | |- context [(_combineMetadata ≫= _) ?w0] =>
      rewrite (bind_run_Ok _ _ w0 _ _ (combineMetadata_run_one w0 eq_refl))
  end.
  rewrite (bind_run_Ok _ _ _ _ _ (combineSql_run _)).
  match goal with
  | |- context [setPlotDict None None true ?w4] => set (w' := w4)
  end.
  assert (Hb : mBundles (this w') = [mB]) by reflexivity.
  assert (Hr : runNames (this w') = [MB.runName mB]) by reflexivity.
  assert (Hm : metadata (this w') = [MB.metadata mB]) by reflexivity.
  assert (Hn : metricNames (this w') = [Metric.name (MB.metric mB)])
    by reflexivity.
  clearbody w'.
  destruct (setPlotDict_reset_fields w' _
              [default (VStr "b") (MB.plotDict mB !! "color")]
              (buildTitle_single _ _ _ _ Hr Hm Hn))
    as (-> & -> & -> & -> & -> & ->).
  - unfold _buildColors. rewrite Hb. cbn [length Nat.eqb mbind outcome_bind].
    by destruct (MB.plotDict mB !! "color").
  - do 5 (split; [done|]).
    unfold _buildLegendLabels, _buildCbarFormat. rewrite Hb.
    reflexivity.
Qed.

Lemma buildColors_single (self : PlotHandler) (mB : MB.t) :
  mBundles self = [mB] →
  _buildColors self = Ok [default (VStr "b") (MB.plotDict mB !! "color")].
Proof.
  intros Hb. unfold _buildColors. rewrite Hb.
  cbn [length Nat.eqb mbind outcome_bind].
  by destruct (MB.plotDict mB !! "color").
Qed.

(** C3, as the code has it. One installed bundle with metric name "Count",
    the empty metadata string and run name "run1", and a plotter of type
    "BinnedData" whose defaults leave title and axis labels alone: the x
    label is the slicer's column name and its units in parentheses, the y
    label is "Count" and the metric units in parentheses, and the title is
    "run1 : Count" (run name, a space and the empty metadata, a colon and a
    space, the metric name). *)
Theorem C3_single_bundle_binned_configuration (mB : MB.t) (plotFunc : PlotFunc)
    (w : World) (u : string) :
  Metric.name (MB.metric mB) = "Count" →
  MB.metadata mB = "" →
  MB.runName mB = "run1" →
  Metric.units (MB.metric mB) = Some u →
  plotType plotFunc = "BinnedData" →
  (∀ k, k ∈ ["title"; "xlabel"; "ylabel"] →
        defaultPlotDict plotFunc !! k = None
        ∨ defaultPlotDict plotFunc !! k = Some VNone) →
  let installed := setMetricBundles (BundleList [mB]) w in
  let configured := setPlotDict None (Some plotFunc) false installed.2 in
  let xl := sliceColName (MB.slicer mB) +:+ " ("
            +:+ sliceColUnits (MB.slicer mB) +:+ ")" in
  let yl := "Count (" +:+ u +:+ ")" in
  installed.1 = Ok ()
  ∧ configured.1 = Ok ()
  ∧ _buildTitle (this installed.2) = Ok "run1 : Count"
  ∧ _buildXYlabels (this installed.2) plotFunc = Ok (VStr xl, VStr yl)
  ∧ plotDict (this configured.2) !! "title" = Some (VStr "run1 : Count")
  ∧ plotDict (this configured.2) !! "xlabel" = Some (VStr xl)
  ∧ plotDict (this configured.2) !! "ylabel" = Some (VStr yl).
Proof.
  intros Hname Hmeta Hrun Hunits Htype Hdefaults installed configured xl yl.
  destruct (setMetricBundles_single mB w) as (Hok & Hb & Hr & Hm & Hn & Hpd).
  fold installed in Hok, Hb, Hr, Hm, Hn, Hpd.
  rewrite Hname, Hmeta, Hrun in *.
  assert (Htitle : _buildTitle (this installed.2) = Ok "run1 : Count")
    by apply (buildTitle_single _ _ _ _ Hr Hm Hn).
  assert (Hxy : _buildXYlabels (this installed.2) plotFunc = Ok (VStr xl, VStr yl)).
  { unfold _buildXYlabels. rewrite Htype, Hb. cbn [String.eqb Ascii.eqb Bool.eqb].
    cbn [length Nat.eqb mbind outcome_bind].
    rewrite Hname, Hunits. reflexivity. }
  pose proof (setPlotDict_run installed.2 None (Some plotFunc) false _ _
                Htitle (buildColors_single _ _ Hb) _ Hxy) as Hconf.
  cbv zeta in Hconf. fold configured in Hconf.
  split; [done|]. split; [by rewrite Hconf|]. split; [done|]. split; [done|].
  rewrite Hconf. cbn [snd this plotDict set_plotDict with_overrides].
  rewrite !apply_defaults_lookup.
  assert (Hd : ∀ k v, k ∈ ["title"; "xlabel"; "ylabel"] →
            match defaultPlotDict plotFunc !! k with
            | Some VNone | None => Some v
            | Some v' => Some v'
            end = Some v).
  { intros k v Hk. by destruct (Hdefaults k Hk) as [-> | ->]. }
  unfold with_xy, derived_entries. cbn [fst snd].
  repeat split.
  - rewrite !lookup_insert_ne, lookup_insert_eq by done.
    apply Hd. set_solver.
  - rewrite lookup_insert_ne, lookup_insert_eq by done.
    apply Hd. set_solver.
  - rewrite lookup_insert_eq. apply Hd. set_solver.
Qed.

End PlotDict.

Definition ex_count : MB.t :=
  ex_bundle "run1_Count_ONED" "run1" "" "Count" "" ∅ 0.

(** A plotter of binned data that accepts any metric value and draws on
    figure 1. *)
Definition ex_binned : PlotFunc :=
  {| plotType := "BinnedData"; defaultPlotDict := ∅; objectPlotter := true;
     call := λ _ _ _ _, VInt 1 |}.

(** The claim as stated fails: the title of the example is "run1 : Count",
    with the space that precedes the empty metadata. *)
Lemma C3_title_counterexample :
  Metric.name (MB.metric ex_count) = "Count"
  ∧ MB.metadata ex_count = ""
  ∧ MB.runName ex_count = "run1"
  ∧ plotType ex_binned = "BinnedData"
  ∧ (plot ex_binned None None
       (setMetricBundles (BundleList [ex_count]) ex_world).2).1 = Ok (VInt 1)
  ∧ plotDict (this (plot ex_binned None None
                      (setMetricBundles (BundleList [ex_count]) ex_world).2).2)
      !! "title" = Some (VStr "run1 : Count")
  ∧ plotDict (this (plot ex_binned None None
                      (setMetricBundles (BundleList [ex_count]) ex_world).2).2)
      !! "title" ≠ Some (VStr "run1: Count").
Proof. vm_compute. repeat split; discriminate. Qed.

Lemma C3_single_bundle_binned_configuration_witness :
  plotDict (this (setPlotDict None (Some ex_binned) false
                    (setMetricBundles (BundleList [ex_count]) ex_world).2).2)
    !! "title" = Some (VStr "run1 : Count").
Proof.
  apply (C3_single_bundle_binned_configuration ex_count ex_binned ex_world "#");
    try reflexivity.
  intros k _. by left.
Defined.

(** ** The capability check of [plot] (C8) *)

Section Capability.
Context `{Runtime}.

(** A bundle that the capability check lets through. *)
Definition is_color (mB : MB.t) : bool :=
  match MB.plotDict mB !! "metricIsColor" with
  | Some v => truthy v
  | None => false
  end.

(** The check never reaches its [return]: a bundle whose [metricIsColor]
    is false ends it in the [NameError] of [warnings], a bundle without the
    key in a [KeyError]; in both cases nothing has been done. *)
Lemma check_metricIsColor_run (l : list MB.t) (w : World) :
  check_metricIsColor l w =
  (match List.find (λ mB, negb (is_color mB)) l with
   | None => Ok false
   | Some mB =>
       match MB.plotDict mB !! "metricIsColor" with
       | Some _ => Raise (NameError "warnings")
       | None => Raise (KeyError "metricIsColor")
       end
   end, w).
Proof.
  induction l as [|mB l IH]; [done|].
  cbn [check_metricIsColor]. rewrite bind_run. unfold lift, getitem.
  cbn [List.find]. unfold is_color at 1.
  destruct (MB.plotDict mB !! "metricIsColor") as [v|] eqn:Hv.
  - destruct (truthy v); cbn [negb]; [exact IH|].
    rewrite Hv. reflexivity.
  - cbn [negb]. rewrite Hv. reflexivity.
Qed.

Lemma plot_object_values_raise (plotFunc : PlotFunc) userPlotDict outfileSuffix
    (w : World) (pre post : list MB.t) (mB : MB.t) (v : pyval) :
  objectPlotter plotFunc = false →
  mBundles (this w) = pre ++ mB :: post →
  forallb is_color pre = true →
  MB.plotDict mB !! "metricIsColor" = Some v →
  truthy v = false →
  plot plotFunc userPlotDict outfileSuffix w = (Raise (NameError "warnings"), w).
Proof.
  intros Hobj Hb Hpre Hv Ht. unfold plot.
  rewrite bind_run. cbn [get_self]. rewrite Hobj. cbn [negb].
  rewrite bind_run, check_metricIsColor_run, Hb.
  assert (Hfind : List.find (λ mB, negb (is_color mB)) (pre ++ mB :: post) = Some mB).
  { clear Hb. induction pre as [|b pre IH]; cbn [app List.find].
    - unfold is_color. by rewrite Hv, Ht.
    - cbn [forallb] in Hpre. apply andb_true_iff in Hpre as [-> Hpre].
      by apply IH. }
  by rewrite Hfind, Hv.
Qed.

End Capability.

(** A plotter for numeric values only, and a bundle of object values. *)
Definition ex_numeric : PlotFunc :=
  {| plotType := "Histogram"; defaultPlotDict := ∅; objectPlotter := false;
     call := λ _ _ _ _, VInt 1 |}.
Definition ex_object : MB.t :=
  ex_bundle "run1_Count_ONED" "run1" "" "Count" ""
            {["metricIsColor" := VBool false]} 0.

(** C8, at the failing input. With a plotter whose [objectPlotter] is false
    and a bundle whose [metricIsColor] is false, [plot] does not warn and
    return: it raises [NameError] for the name [warnings], having rendered,
    saved and recorded nothing. *)
Theorem C8_warning_raises_name_error :
  objectPlotter ex_numeric = false
  ∧ MB.plotDict ex_object !! "metricIsColor" = Some (VBool false)
  ∧ (setMetricBundles (BundleList [ex_object]) ex_world).1 = Ok ()
  ∧ plot ex_numeric None None (setMetricBundles (BundleList [ex_object]) ex_world).2
    = (Raise (NameError "warnings"),
       (setMetricBundles (BundleList [ex_object]) ex_world).2).
Proof.
  split; [reflexivity|]. split; [vm_compute; reflexivity|].
  split; [vm_compute; reflexivity|].
  apply (plot_object_values_raise ex_numeric None None _ [] [] ex_object (VBool false));
    vm_compute; reflexivity.
Qed.

(** ** The order of a combined display record (C7) *)

(** The largest [order] among the display records of [l]. *)
Definition max_order (l : list MB.t) : option Z :=
  match l with
  | [] => None
  | mB :: l' =>
      Some (foldl (λ m b, Z.max m (order (MB.displayDict b)))
                  (order (MB.displayDict mB)) l')
  end.

Definition ex_order5 : MB.t :=
  ex_bundle "run1_Count_ONED" "run1" "" "Count" "" ∅ 5.
Definition ex_order6 : MB.t :=
  ex_bundle "run1_Count_ONED" "run1" "" "Count" "" ∅ 6.

(** C7, at the failing input. For two bundles with display orders 5 and 6
    the combined display record has order 6, the maximum itself, and not
    1 + 6: the second bundle is compared with the 6 that the first one
    left. *)
Theorem C7_display_order_misses_one :
  max_order (mBundles (ex_installed [ex_order5; ex_order6])) = Some 6%Z
  ∧ ∃ dd, _buildDisplayDict (ex_installed [ex_order5; ex_order6]) = Ok dd
          ∧ order dd = 6%Z
          ∧ order dd ≠ (1 + 6)%Z.
Proof.
  split; [vm_compute; reflexivity|].
  eexists. split; [vm_compute; reflexivity|]. split; [reflexivity | discriminate].
Qed.

(** ** The plot configuration across calls of [plot] (C6) *)

(** The three layers that the claim describes, over an empty dict. *)
Definition three_layer_config (title : string) (labels colors : list pyval)
    (cbarFormat : pyval) (xy : pyval * pyval)
    (defaults : gmap string pyval) (userPlotDict : option (gmap string pyval))
    : gmap string pyval :=
  with_overrides userPlotDict
    (apply_defaults defaults
       (with_xy xy (derived_entries title labels colors cbarFormat ∅))).

(** The configurations handed to the plotter, call after call. *)
Definition configs_passed (evs : list Event) : list (gmap string pyval) :=
  omap (λ ev, match ev with
              | EvPlotFunc _ _ userPlotDict _ => Some userPlotDict
              | _ => None
              end) evs.

(** The handler agrees with [cfg] on every key but the two that the render
    loop sets. *)
Definition config_is (cfg : gmap string pyval) (self : PlotHandler) : Prop :=
  ∀ k, k ≠ "label" → k ≠ "color" → plotDict self !! k = cfg !! k.

Definition any_exn (e : exn) : Prop := True.

Section Reuse.
Context `{Runtime}.

Lemma setPlotDict_title_raise (w : World) userPlotDict plotFunc reset e :
  _buildTitle (this w) = Raise e →
  (setPlotDict userPlotDict plotFunc reset w).1 = Raise e.
Proof.
  intros Htitle. unfold setPlotDict.
  rewrite bind_run. cbn [get_self]. cbv zeta.
  rewrite bind_run. unfold lift at 1. by rewrite Htitle.
Qed.

Lemma setPlotDict_xy_raise (w : World) userPlotDict pf reset title colors e :
  _buildTitle (this w) = Ok title →
  _buildColors (this w) = Ok colors →
  _buildXYlabels (this w) pf = Raise e →
  (setPlotDict userPlotDict (Some pf) reset w).1 = Raise e.
Proof.
  intros Htitle Hcolors Hxy. unfold setPlotDict.
  rewrite bind_run. cbn [get_self]. cbv zeta.
  rewrite bind_run. unfold lift at 1. rewrite Htitle.
  destruct reset; unfold store;
    repeat (rewrite bind_run; cbn [mret M_ret update this log]);
    unfold lift at 1; cbn [this]; rewrite Hcolors;
    repeat (rewrite bind_run; cbn [mret M_ret update this log]);
    unfold lift at 1; cbn [this]; by rewrite Hxy.
Qed.

(** A run of [setPlotDict] that succeeds had its derivations succeed. *)
Lemma setPlotDict_Ok_inv (w : World) userPlotDict pf reset :
  (setPlotDict userPlotDict (Some pf) reset w).1 = Ok () →
  ∃ title colors xy,
    _buildTitle (this w) = Ok title
    ∧ _buildColors (this w) = Ok colors
    ∧ _buildXYlabels (this w) pf = Ok xy.
Proof.
  intros Hok.
  destruct (_buildTitle (this w)) as [title|e] eqn:Htitle.
  2:{ by rewrite (setPlotDict_title_raise _ _ _ _ _ Htitle) in Hok. }
  destruct (_buildColors (this w)) as [colors|e] eqn:Hcolors.
  2:{ by rewrite (setPlotDict_colors_raise _ _ _ _ _ _ Htitle Hcolors) in Hok. }
  destruct (_buildXYlabels (this w) pf) as [xy|e] eqn:Hxy.
  2:{ by rewrite (setPlotDict_xy_raise _ _ _ _ _ _ _ Htitle Hcolors Hxy) in Hok. }
  by exists title, colors, xy.
Qed.

Lemma keeps_set_active cfg (k ks : string) (i : nat) :
  k = "label" ∨ k = "color" →
  keeps (config_is cfg) any_exn (set_active k ks i).
Proof.
  intros Hk. unfold set_active.
  apply keeps_bind; [apply keeps_get | intros self].
  apply keeps_bind; [by apply keeps_lift | intros l].
  apply keeps_bind; [by apply keeps_lift | intros v].
  apply keeps_update. intros s Hs k' Hl Hc.
  cbn [plotDict set_plotDict]. rewrite lookup_insert_ne; [by apply Hs|].
  destruct Hk as [-> | ->]; congruence.
Qed.

Lemma keeps_render_loop cfg plotFunc (l : list MB.t) (i : nat) (fignum : pyval) :
  keeps (config_is cfg) any_exn (render_loop plotFunc l i fignum).
Proof.
  revert i fignum. induction l as [|mB l IH]; intros i fignum; cbn [render_loop].
  - apply keeps_ret.
  - apply keeps_bind; [apply keeps_set_active; by left | intros _].
    apply keeps_bind; [apply keeps_set_active; by right | intros _].
    apply keeps_bind; [apply keeps_get | intros self].
    apply keeps_bind; [apply keeps_emit | intros _]. apply IH.
Qed.

(** After [setPlotDict], [plot] writes only the keys [label] and [color]. *)
Lemma keeps_render_and_save cfg plotFunc outfileSuffix :
  keeps (config_is cfg) any_exn (render_and_save plotFunc outfileSuffix).
Proof.
  unfold render_and_save. cbv zeta.
  repeat lazymatch goal with
         | |- keeps _ _ (render_loop _ _ _ _) => apply keeps_render_loop
         | |- keeps _ _ (lift _) => by apply keeps_lift
         | |- _ => keeps_step
         end.
Qed.

(** A call of [plot] that returns has gone through [setPlotDict]. *)
Lemma plot_Ok_run (plotFunc : PlotFunc) userPlotDict outfileSuffix (w : World) v :
  (plot plotFunc userPlotDict outfileSuffix w).1 = Ok v →
  plot plotFunc userPlotDict outfileSuffix w =
  (setPlotDict userPlotDict (Some plotFunc) false
   ≫= λ _, render_and_save plotFunc outfileSuffix) w.
Proof.
  unfold plot. rewrite bind_run. cbn [get_self]. rewrite bind_run.
  destruct (objectPlotter plotFunc); cbn [negb mret M_ret]; [reflexivity|].
  rewrite check_metricIsColor_run.
  destruct (List.find _ _) as [mB|]; [|reflexivity].
  by destruct (MB.plotDict mB !! "metricIsColor").
Qed.

(** The configuration that a successful [plot] leaves: the dict it found,
    patched by the three layers. *)
Lemma plot_config (plotFunc : PlotFunc) userPlotDict outfileSuffix (w : World) v :
  (plot plotFunc userPlotDict outfileSuffix w).1 = Ok v →
  ∃ title colors xy,
    _buildTitle (this w) = Ok title
    ∧ _buildColors (this w) = Ok colors
    ∧ _buildXYlabels (this w) plotFunc = Ok xy
    ∧ config_is
        (with_overrides userPlotDict
           (apply_defaults (defaultPlotDict plotFunc)
              (with_xy xy
                 (derived_entries title (_buildLegendLabels (this w)) colors
                    (_buildCbarFormat (this w)) (plotDict (this w))))))
        (this (plot plotFunc userPlotDict outfileSuffix w).2).
Proof.
  intros Hok. pose proof (plot_Ok_run _ _ _ _ _ Hok) as Hplot.
  rewrite Hplot in Hok |- *. clear Hplot.
  rewrite bind_run in Hok |- *.
  destruct (setPlotDict userPlotDict (Some plotFunc) false w) as [[[]|e] w1] eqn:Hset;
    [|discriminate Hok].
  destruct (setPlotDict_Ok_inv w userPlotDict plotFunc false) as (title & colors & xy & Ht & Hc & Hxy);
    [by rewrite Hset|].
  exists title, colors, xy. do 3 (split; [done|]).
  pose proof (setPlotDict_run w userPlotDict (Some plotFunc) false _ _ Ht Hc _ Hxy)
    as Hrun.
  cbv zeta in Hrun. rewrite Hset in Hrun. injection Hrun as ->.
  apply keeps_render_and_save. by intros k _ _.
Qed.

End Reuse.

(** The first caller's override in the examples. *)
Definition ex_overrides : gmap string pyval := {["xMin" := VInt 0]}.

(** The claim as stated fails: after a first call with the override
    [xMin], a second call without overrides still hands the plotter a
    configuration with [xMin], which the three layers of the second call
    do not have. *)
Lemma C6_stale_override_counterexample :
  let w0 := (setMetricBundles (BundleList [ex_count]) ex_world).2 in
  let w1 := (plot ex_binned (Some ex_overrides) None w0).2 in
  let second := plot ex_binned None None w1 in
  second.1 = Ok (VInt 1)
  ∧ (λ cfg, cfg !! "xMin") <$> last (configs_passed (log second.2))
    = Some (Some (VInt 0))
  ∧ three_layer_config "run1 : Count" [VNone] [VStr "b"] (VStr "%d")
      (VStr "airmass (X)", VStr "Count (#)") (defaultPlotDict ex_binned) None
      !! "xMin" = None
  ∧ _buildTitle (this w1) = Ok "run1 : Count"
  ∧ _buildLegendLabels (this w1) = [VNone]
  ∧ _buildColors (this w1) = Ok [VStr "b"]
  ∧ _buildCbarFormat (this w1) = VStr "%d"
  ∧ _buildXYlabels (this w1) ex_binned = Ok (VStr "airmass (X)", VStr "Count (#)").
Proof. vm_compute. repeat split; reflexivity. Qed.

(** * Further properties of the handler *)

(** ** The sets that the [_combine*] methods collect *)

Lemma mem_spec (x : string) (s : PySet.t) : PySet.mem x s = true ↔ x ∈ s.
Proof.
  unfold PySet.mem. rewrite existsb_exists. split.
  - intros (y & Hy & ->%String.eqb_eq). by apply list_elem_of_In.
  - intros Hx. exists x. split; [by apply list_elem_of_In | apply String.eqb_refl].
Qed.

Lemma add_elem_of (x y : string) (s : PySet.t) :
  y ∈ PySet.add x s ↔ y = x ∨ y ∈ s.
Proof.
  unfold PySet.add. destruct (PySet.mem x s) eqn:Hm.
  - apply mem_spec in Hm. split; [by right | by intros [-> | ?]].
  - rewrite elem_of_app, list_elem_of_singleton. tauto.
Qed.

Lemma add_NoDup (x : string) (s : PySet.t) : NoDup s → NoDup (PySet.add x s).
Proof.
  intros Hs. unfold PySet.add. destruct (PySet.mem x s) eqn:Hm; [done|].
  apply NoDup_app. split; [done|]. split; [|apply NoDup_singleton].
  intros y Hy ->%list_elem_of_singleton.
  apply mem_spec in Hy. congruence.
Qed.

Section Collect.
Context {A : Type} (f : A → string).

(** The distinct values of [f] over [l], added to [acc] in order. *)
Lemma collect_elem_of (l : list A) (acc : PySet.t) (x : string) :
  x ∈ foldl (λ s a, PySet.add (f a) s) acc l ↔ x ∈ acc ∨ ∃ a, a ∈ l ∧ f a = x.
Proof.
  revert acc. induction l as [|a l IH]; intros acc; cbn [foldl].
  - split; [by left | intros [? | (a & Ha & _)]; [done | by apply elem_of_nil in Ha]].
  - rewrite IH, add_elem_of. split.
    + intros [[-> | ?] | (b & Hb & <-)].
      * right. exists a. split; [left | done].
      * by left.
      * right. exists b. split; [by right | done].
    + intros [? | (b & [-> | Hb]%elem_of_cons & <-)].
      * left. by right.
      * left. by left.
      * right. by exists b.
Qed.

Lemma collect_NoDup (l : list A) (acc : PySet.t) :
  NoDup acc → NoDup (foldl (λ s a, PySet.add (f a) s) acc l).
Proof.
  revert acc. induction l as [|a l IH]; intros acc Hacc; cbn [foldl]; [done|].
  by apply IH, add_NoDup.
Qed.

(** When [f] takes one value on all of [l], the set is that value alone. *)
Lemma collect_constant (l : list A) (x : string) :
  l ≠ [] → (∀ a, a ∈ l → f a = x) →
  foldl (λ s a, PySet.add (f a) s) [] l = [x].
Proof.
  intros Hne Hall. destruct l as [|a l]; [done|]. cbn [foldl].
  rewrite (Hall a) by left. change (PySet.add x []) with [x].
  assert (Hl : ∀ b, b ∈ l → f b = x) by (intros b Hb; apply Hall; by right).
  clear Hall Hne. induction l as [|b l IH]; [done|]. cbn [foldl].
  rewrite (Hl b) by left.
  replace (PySet.add x [x]) with [x].
  - apply IH. intros c Hc. apply Hl. by right.
  - unfold PySet.add, PySet.mem. cbn [existsb]. by rewrite String.eqb_refl.
Qed.

(** Two different values of [f] over [l] give a set of two members at
    least. *)
Lemma collect_two (l : list A) (a b : A) :
  a ∈ l → b ∈ l → f a ≠ f b →
  2 ≤ length (foldl (λ s a, PySet.add (f a) s) [] l).
Proof.
  intros Ha Hb Hne.
  pose proof (collect_NoDup l [] (NoDup_nil_2)) as Hnd.
  assert (Hin : ∀ c, c ∈ l → f c ∈ foldl (λ s a, PySet.add (f a) s) [] l).
  { intros c Hc. apply collect_elem_of. right. by exists c. }
  pose proof (Hin a Ha) as Hfa. pose proof (Hin b Hb) as Hfb.
  destruct (foldl _ _ _) as [|x [|y s]]; cbn [length].
  - by apply elem_of_nil in Hfa.
  - apply list_elem_of_singleton in Hfa, Hfb. congruence.
  - lia.
Qed.

End Collect.
(** ** What an install leaves in the combined view *)

(** Everything of the handler that [_combineMetadata], [_combineSql] and
    [setPlotDict] leave alone. *)
Definition names_are (s0 : PlotHandler) (s : PlotHandler) : Prop :=
  mBundles s = mBundles s0
  ∧ metricNames s = metricNames s0 ∧ jointMetricNames s = jointMetricNames s0
  ∧ runNames s = runNames s0 ∧ jointRunNames s = jointRunNames s0.

Section InstallView.
Context `{Runtime}.

(** The handler after [_combineMetricNames] and [_combineRunNames]. *)
Definition with_names (self : PlotHandler) : PlotHandler :=
  set_jointRunNames (Str.join " " (set_iter (runs_of (mBundles self))))
    (set_runNames (runs_of (mBundles self))
       (set_jointMetricNames (joint_metric_names (names_of (mBundles self)))
          (set_metricNames (names_of (mBundles self)) self))).


Lemma install_tail_run (w : World) :
  install_tail w =
  (_combineMetadata ≫= λ _, _combineSql ≫= λ _, setPlotDict None None true)
    {| this := with_names (this w); log := log w |}.
Proof.
  rewrite install_tail_eq.
  rewrite (bind_run_Ok _ _ _ _ _ (combineMetricNames_run _)).
  rewrite (bind_run_Ok _ _ _ _ _ (combineRunNames_run _)).
  cbn [this log]. unfold with_names.
  change (mBundles (set_jointMetricNames _ (set_metricNames _ (this w))))
    with (mBundles (this w)).
  reflexivity.
Qed.

Lemma keeps_combineMetadata (I : PlotHandler → Prop) :
  (∀ v s, I s → I (set_metadata v s)) →
  (∀ v s, I s → I (set_jointMetadata v s)) →
  keeps I not_value_error _combineMetadata.
Proof.
  intros H1 H2. unfold _combineMetadata. cbv zeta.
  repeat lazymatch goal with
         | |- keeps _ _ (lift (merge_metadata _)) =>
             apply keeps_lift, only_merge_metadata
         | |- _ => keeps_step
         end.
Qed.

Lemma keeps_names_tail (s0 : PlotHandler) :
  keeps (names_are s0) not_value_error
    (_combineMetadata ≫= λ _, _combineSql ≫= λ _, setPlotDict None None true).
Proof.
  apply keeps_bind; [by apply keeps_combineMetadata | intros _].
  apply keeps_bind; [by apply keeps_combineSql | intros _].
  by apply keeps_setPlotDict.
Qed.

(** Once the slicer check has passed, the sets of metric names and run
    names are those of the installed bundles, whatever happens next. *)
Lemma install_tail_names (w : World) :
  let s := this (install_tail w).2 in
  mBundles s = mBundles (this w)
  ∧ metricNames s = names_of (mBundles (this w))
  ∧ jointMetricNames s = joint_metric_names (names_of (mBundles (this w)))
  ∧ runNames s = runs_of (mBundles (this w))
  ∧ jointRunNames s = Str.join " " (set_iter (runs_of (mBundles (this w)))).
Proof.
  intros s. subst s. rewrite install_tail_run.
  apply (keeps_names_tail (with_names (this w))). by repeat split.
Qed.

(** The second half of [_combineMetadata], once [self.metadata] is set. *)
Definition joint_metadata_step (metadata : PySet.t) : M unit :=
  if (length metadata =? 1)%nat then
    update (set_jointMetadata (Str.join " " (set_iter metadata)))
  else
    combo ← lift (merge_metadata metadata);
    update (set_jointMetadata combo).

Lemma combineMetadata_split (w : World) :
  _combineMetadata w =
  joint_metadata_step (metadata_of (mBundles (this w)))
    {| this := set_metadata (metadata_of (mBundles (this w))) (this w);
       log := log w |}.
Proof. reflexivity. Qed.

Lemma keeps_joint_metadata_step (I : PlotHandler → Prop) (md : PySet.t) :
  (∀ v s, I s → I (set_jointMetadata v s)) →
  keeps I not_value_error (joint_metadata_step md).
Proof.
  intros HI. unfold joint_metadata_step.
  repeat lazymatch goal with
         | |- keeps _ _ (lift (merge_metadata _)) =>
             apply keeps_lift, only_merge_metadata
         | |- _ => keeps_step
         end.
Qed.

(** [self.metadata] is set before the merge can raise. *)
Lemma install_tail_metadata_set (w : World) :
  metadata (this (install_tail w).2) = metadata_of (mBundles (this w)).
Proof.
  rewrite install_tail_run.
  rewrite bind_run, combineMetadata_split, <- bind_run. cbn [this log].
  change (mBundles (with_names (this w))) with (mBundles (this w)).
  apply (keeps_bind (λ s, metadata s = metadata_of (mBundles (this w)))
           not_value_error).
  - by apply keeps_joint_metadata_step.
  - intros _. apply keeps_bind; [by apply keeps_combineSql | intros _].
    by apply keeps_setPlotDict.
  - reflexivity.
Qed.

End InstallView.
Section InstallProperties.
Context `{Runtime}.

(** An argument that passes the slicer check goes on to the combine steps
    with its bundles in band order. *)
Lemma setMetricBundles_past_check (arg : BundleArg) (w : World) :
  arrivals arg ≠ [] →
  (∀ b1 b2, b1 ∈ arrivals arg → b2 ∈ arrivals arg →
            slicerName (MB.slicer b1) = slicerName (MB.slicer b2)) →
  ∃ mB, head (order_bundles (arrivals arg)) = Some mB
        ∧ setMetricBundles arg w =
          install_tail {| this := set_slicer (MB.slicer mB) (ordered arg (this w));
                          log := log w |}.
Proof.
  intros Hne Hsame.
  pose proof (order_bundles_perm (arrivals arg)) as Hperm.
  rewrite setMetricBundles_run.
  destruct (order_bundles (arrivals arg)) as [|mB rest] eqn:Hord.
  { apply Permutation_nil_l in Hperm. by destruct Hne. }
  exists mB. split; [done|]. cbv zeta.
  assert (Hs : same_slicer (slicerName (MB.slicer mB)) (mB :: rest) = true).
  { apply same_slicer_spec. intros b Hb. apply Hsame.
    - by rewrite <- Hperm.
    - rewrite <- Hperm. left. }
  by rewrite Hs.
Qed.

(** X1. After an install that passes the slicer check, [self.metricNames],
    [self.runNames] and [self.metadata] hold exactly the metric names, run
    names and metadata strings of the argument's bundles, each once, also
    when a later step of the install raises. *)
Theorem X1_install_collects_distinct_values (arg : BundleArg) (w : World) :
  arrivals arg ≠ [] →
  (∀ b1 b2, b1 ∈ arrivals arg → b2 ∈ arrivals arg →
            slicerName (MB.slicer b1) = slicerName (MB.slicer b2)) →
  let self' := this (setMetricBundles arg w).2 in
  (NoDup (metricNames self')
   ∧ ∀ x, x ∈ metricNames self'
          ↔ ∃ b, b ∈ arrivals arg ∧ Metric.name (MB.metric b) = x)
  ∧ (NoDup (runNames self')
     ∧ ∀ x, x ∈ runNames self' ↔ ∃ b, b ∈ arrivals arg ∧ MB.runName b = x)
  ∧ (NoDup (metadata self')
     ∧ ∀ x, x ∈ metadata self' ↔ ∃ b, b ∈ arrivals arg ∧ MB.metadata b = x).
Proof.
  intros Hne Hsame self'. subst self'.
  destruct (setMetricBundles_past_check arg w Hne Hsame) as (mB & _ & ->).
  match goal with |- context [install_tail ?w0] => set (w' := w0) end.
  destruct (install_tail_names w') as (_ & -> & _ & -> & _).
  rewrite (install_tail_metadata_set w').
  change (mBundles (this w')) with (order_bundles (arrivals arg)).
  pose proof (order_bundles_perm (arrivals arg)) as Hperm.
  assert (Hin : ∀ (f : MB.t → string) x,
            (x ∈ [] ∨ ∃ b, b ∈ order_bundles (arrivals arg) ∧ f b = x)
            ↔ ∃ b, b ∈ arrivals arg ∧ f b = x).
  { intros f x. split.
    - intros [Hx | (b & Hb & Hf)]; [by apply elem_of_nil in Hx|].
      exists b. by rewrite <- Hperm.
    - intros (b & Hb & Hf). right. exists b. by rewrite Hperm. }
  unfold names_of, runs_of, metadata_of.
  repeat split; try (apply collect_NoDup, NoDup_nil_2);
    intros Hx; first [ by apply Hin, collect_elem_of
                     | by apply collect_elem_of, Hin ].
Qed.

Lemma buildTitle_unbound (self : PlotHandler) :
  length (runNames self) ≠ 1 →
  _buildTitle self = Raise (UnboundLocalError "plotTitle").
Proof.
  intros Hlen. unfold _buildTitle.
  destruct (Nat.eqb_spec (length (runNames self)) 1) as [|_]; [done|].
  cbn [mbind outcome_bind].
  destruct (length (metadata self) =? 1)%nat; [done|].
  cbn [mbind outcome_bind].
  by destruct (length (metricNames self) =? 1)%nat.
Qed.

(** X2. Bundles of two different runs cannot be installed: when two bundles
    of the argument differ in run name (and all share the slicer name),
    [setMetricBundles] raises, and the title derivation of the handler it
    leaves raises [UnboundLocalError] for the local [plotTitle]. *)
Theorem X2_two_run_names_never_install (arg : BundleArg) (w : World)
    (b1 b2 : MB.t) :
  b1 ∈ arrivals arg → b2 ∈ arrivals arg →
  MB.runName b1 ≠ MB.runName b2 →
  (∀ b b', b ∈ arrivals arg → b' ∈ arrivals arg →
           slicerName (MB.slicer b) = slicerName (MB.slicer b')) →
  (∃ e, (setMetricBundles arg w).1 = Raise e ∧ not_value_error e)
  ∧ _buildTitle (this (setMetricBundles arg w).2)
    = Raise (UnboundLocalError "plotTitle").
Proof.
  intros H1 H2 Hdiff Hsame.
  assert (Hne : arrivals arg ≠ []) by (intros Hnil; rewrite Hnil in H1; by apply elem_of_nil in H1).
  destruct (setMetricBundles_past_check arg w Hne Hsame) as (mB & _ & ->).
  match goal with |- context [install_tail ?w0] => set (w' := w0) end.
  pose proof (order_bundles_perm (arrivals arg)) as Hperm.
  assert (Hruns : length (runs_of (mBundles (this w'))) ≠ 1).
  { change (mBundles (this w')) with (order_bundles (arrivals arg)).
    assert (Htwo : 2 ≤ length (runs_of (order_bundles (arrivals arg)))).
    { apply (collect_two MB.runName _ b1 b2); [by rewrite Hperm.. | done]. }
    lia. }
  assert (Htitle : _buildTitle (this (install_tail w').2)
                   = Raise (UnboundLocalError "plotTitle")).
  { apply buildTitle_unbound.
    destruct (install_tail_names w') as (_ & _ & _ & -> & _). exact Hruns. }
  split; [|exact Htitle].
  destruct (install_tail w').1 as [[]|e] eqn:Hres.
  - exfalso. rewrite install_tail_run in Hres.
    rewrite bind_run in Hres.
    destruct (_combineMetadata _) as [[[]|e] w3] eqn:Hmeta; [|done].
    rewrite (bind_run_Ok _ _ _ _ _ (combineSql_run _)) in Hres.
    rewrite (setPlotDict_title_raise _ _ _ _ (UnboundLocalError "plotTitle")) in Hres;
      [done|].
    apply buildTitle_unbound. cbn [this runNames set_sqlconstraints].
    destruct (keeps_combineMetadata (names_are (with_names (this w')))
                ltac:(done) ltac:(done)
                {| this := with_names (this w'); log := log w' |})
      as [(_ & _ & _ & Hr & _) _]; [by repeat split|].
    rewrite Hmeta in Hr. cbn [snd] in Hr. rewrite Hr. exact Hruns.
  - exists e. split; [done|].
    rewrite install_tail_eq in Hres.
    destruct (keeps_install_tail (mBundles (this w')) w' eq_refl) as [_ Honly].
    rewrite install_tail_eq in Honly. by apply Honly.
Qed.

(** X3. Installing a single bundle always succeeds, and leaves the title
    "<runName> <metadata>: <metricName>", the label list [[None]], the color
    list holding the bundle's color override or "b", and the color bar
    format "%d" exactly when the metric's dtype is "int". *)
Theorem X3_single_bundle_install (mB : MB.t) (w : World) :
  let r := setMetricBundles (BundleList [mB]) w in
  r.1 = Ok ()
  ∧ mBundles (this r.2) = [mB]
  ∧ plotDict (this r.2) =
    derived_entries
      (MB.runName mB +:+ " " +:+ MB.metadata mB +:+ ": "
       +:+ Metric.name (MB.metric mB))
      [VNone] [default (VStr "b") (MB.plotDict mB !! "color")]
      (if String.eqb (Metric.metricDtype (MB.metric mB)) "int"
       then VStr "%d" else VNone) ∅.
Proof.
  intros r.
  destruct (setMetricBundles_single mB w) as (? & ? & _ & _ & _ & ?).
  by repeat split.
Qed.

(** X4. An empty list or dict is refused: [setMetricBundles] raises
    [IndexError] at [self.mBundles[0]], after it has emptied
    [self.mBundles] and [self.plotDict]. *)
Theorem X4_empty_install_raises (arg : BundleArg) (w : World) :
  arrivals arg = [] →
  setMetricBundles arg w =
  (Raise IndexError,
   {| this := set_mBundles [] (set_plotDict ∅ (this w)); log := log w |}).
Proof.
  intros Hnil. rewrite setMetricBundles_run. unfold ordered. by rewrite Hnil.
Qed.

End InstallProperties.

Definition ex_other_run : MB.t :=
  ex_bundle "run2_Count_g_ONED" "run2" "g band, dithered" "Count" "" ∅ 0.

Lemma ex_two_runs_same_slicer (b1 b2 : MB.t) :
  b1 ∈ [ex_g; ex_other_run] → b2 ∈ [ex_g; ex_other_run] →
  slicerName (MB.slicer b1) = slicerName (MB.slicer b2).
Proof.
  intros H1 H2.
  repeat (apply elem_of_cons in H1 as [->|H1]); [| |by apply elem_of_nil in H1];
  repeat (apply elem_of_cons in H2 as [->|H2]);
  first [reflexivity | by apply elem_of_nil in H2].
Qed.

Lemma X1_install_collects_distinct_values_witness :
  NoDup (runNames (this (setMetricBundles (BundleList [ex_g; ex_other_run])
                                          ex_world).2))
  ∧ ∀ x, x ∈ runNames (this (setMetricBundles (BundleList [ex_g; ex_other_run])
                                              ex_world).2)
         ↔ ∃ b, b ∈ [ex_g; ex_other_run] ∧ MB.runName b = x.
Proof.
  pose proof (X1_install_collects_distinct_values
                (BundleList [ex_g; ex_other_run]) ex_world
                ltac:(discriminate) ex_two_runs_same_slicer)
    as (_ & Hruns & _).
  exact Hruns.
Defined.

Lemma X2_two_run_names_never_install_witness :
  _buildTitle (this (setMetricBundles (BundleList [ex_g; ex_other_run]) ex_world).2)
  = Raise (UnboundLocalError "plotTitle").
Proof.
  pose proof (X2_two_run_names_never_install
                (BundleList [ex_g; ex_other_run]) ex_world ex_g ex_other_run)
    as Hx.
  apply Hx.
  - left.
  - right. left.
  - discriminate.
  - exact ex_two_runs_same_slicer.
Defined.

Lemma X4_empty_install_raises_witness :
  (setMetricBundles (BundleDict []) ex_world).1 = Raise IndexError.
Proof.
  by rewrite (X4_empty_install_raises (BundleDict []) ex_world eq_refl).
Defined.

(** ** Joint names of bundles that agree *)

Section Agree.
Context `{Runtime}.

Lemma install_tail_jointMetadata_one (w : World) (m : string) :
  metadata_of (mBundles (this w)) = [m] →
  jointMetadata (this (install_tail w).2) = m.
Proof.
  intros Hmd. rewrite install_tail_run.
  rewrite bind_run, combineMetadata_split, <- bind_run. cbn [this log].
  change (mBundles (with_names (this w))) with (mBundles (this w)).
  rewrite Hmd. unfold joint_metadata_step. cbn [length Nat.eqb].
  rewrite set_iter_singleton, bind_run. cbn [update this log].
  apply (keeps_bind (λ s, jointMetadata s = m) not_value_error).
  - by apply keeps_combineSql.
  - intros _. by apply keeps_setPlotDict.
  - reflexivity.
Qed.

(** X5. When all bundles of an install carry the same metadata string and
    the same metric name, the joint metadata and the joint metric name are
    that string and that name, unchanged. *)
Theorem X5_shared_values_join_verbatim (arg : BundleArg) (w : World)
    (m n : string) :
  arrivals arg ≠ [] →
  (∀ b1 b2, b1 ∈ arrivals arg → b2 ∈ arrivals arg →
            slicerName (MB.slicer b1) = slicerName (MB.slicer b2)) →
  (∀ b, b ∈ arrivals arg → MB.metadata b = m) →
  (∀ b, b ∈ arrivals arg → Metric.name (MB.metric b) = n) →
  let self' := this (setMetricBundles arg w).2 in
  metadata self' = [m] ∧ jointMetadata self' = m
  ∧ metricNames self' = [n] ∧ jointMetricNames self' = n.
Proof.
  intros Hne Hsame Hm Hn self'. subst self'.
  destruct (setMetricBundles_past_check arg w Hne Hsame) as (mB & _ & ->).
  match goal with |- context [install_tail ?w0] => set (w' := w0) end.
  pose proof (order_bundles_perm (arrivals arg)) as Hperm.
  assert (Hord : order_bundles (arrivals arg) ≠ []).
  { intros Hnil. rewrite Hnil in Hperm. by apply Permutation_nil_l in Hperm. }
  assert (Hmd : metadata_of (mBundles (this w')) = [m]).
  { apply collect_constant; [done|]. intros b Hb. apply Hm. by rewrite <- Hperm. }
  assert (Hnames : names_of (mBundles (this w')) = [n]).
  { apply (collect_constant (λ b, Metric.name (MB.metric b))); [done|].
    intros b Hb. apply Hn. by rewrite <- Hperm. }
  destruct (install_tail_names w') as (_ & -> & -> & _).
  rewrite install_tail_metadata_set, (install_tail_jointMetadata_one w' m Hmd).
  rewrite Hmd, Hnames. repeat split.
  unfold joint_metric_names. cbn [length Nat.eqb].
  by rewrite set_iter_singleton.
Qed.

End Agree.

Lemma X5_shared_values_join_verbatim_witness :
  jointMetadata (this (setMetricBundles (BundleList [ex_g; ex_other_run])
                                        ex_world).2) = "g band, dithered"
  ∧ jointMetricNames (this (setMetricBundles (BundleList [ex_g; ex_other_run])
                                             ex_world).2) = "Count".
Proof.
  pose proof (X5_shared_values_join_verbatim
                (BundleList [ex_g; ex_other_run]) ex_world
                "g band, dithered" "Count"
                ltac:(discriminate) ex_two_runs_same_slicer) as Hx.
  destruct Hx as (_ & Hm & _ & Hn).
  - intros b Hb. simpl in Hb.
    repeat (apply elem_of_cons in Hb as [->|Hb]); [reflexivity..|].
    by apply elem_of_nil in Hb.
  - intros b Hb. simpl in Hb.
    repeat (apply elem_of_cons in Hb as [->|Hb]); [reflexivity..|].
    by apply elem_of_nil in Hb.
  - by split.
Defined.

(** ** The color bar format *)

(** X6. For an installed bundle set, the color bar format is "%d" exactly
    when every bundle's metric dtype is "int", and [None] otherwise. *)
Theorem X6_cbar_format_int_iff (self : PlotHandler) :
  mBundles self ≠ [] →
  (_buildCbarFormat self = VStr "%d"
   ↔ ∀ b, b ∈ mBundles self → Metric.metricDtype (MB.metric b) = "int")
  ∧ (_buildCbarFormat self = VStr "%d" ∨ _buildCbarFormat self = VNone).
Proof.
  intros Hne. unfold _buildCbarFormat.
  destruct (mBundles self) as [|mB [|mB' l]] eqn:Hb; [done| |].
  - cbn [length Nat.eqb].
    destruct (String.eqb_spec (Metric.metricDtype (MB.metric mB)) "int") as [Hd|Hd].
    + split; [|by left]. split; [|done].
      intros _ b ->%list_elem_of_singleton. done.
    + split; [|by right]. split; [done|].
      intros Hall. destruct Hd. apply Hall. left.
  - cbn [length Nat.eqb].
    set (l' := mB :: mB' :: l).
    set (dtypes := foldl _ _ _).
    assert (Hin : ∀ b, b ∈ l' → Metric.metricDtype (MB.metric b) ∈ dtypes).
    { intros b Hb'. apply (collect_elem_of (λ b, Metric.metricDtype (MB.metric b))).
      right. by exists b. }
    assert (Hconst : (∀ b, b ∈ l' → Metric.metricDtype (MB.metric b) = "int") →
                     dtypes = ["int"]).
    { intros Hall.
      by apply (collect_constant (λ b, Metric.metricDtype (MB.metric b)) l'). }
    destruct dtypes as [|d [|d' ds]] eqn:Hd.
    + exfalso. specialize (Hin mB ltac:(left)). by apply elem_of_nil in Hin.
    + destruct (String.eqb_spec d "int") as [->|Hne'].
      * split; [|by left]. split; [|done]. intros _ b Hb'.
        by apply list_elem_of_singleton, Hin.
      * split; [|by right]. split; [done|]. intros Hall.
        specialize (Hconst Hall). congruence.
    + split; [|by right]. split; [done|]. intros Hall.
      specialize (Hconst Hall). congruence.
Qed.

Lemma X6_cbar_format_int_iff_witness :
  _buildCbarFormat (ex_installed [ex_g; ex_r]) = VStr "%d"
  ↔ ∀ b, b ∈ mBundles (ex_installed [ex_g; ex_r]) →
         Metric.metricDtype (MB.metric b) = "int".
Proof.
  apply (X6_cbar_format_int_iff (ex_installed [ex_g; ex_r])).
  vm_compute. discriminate.
Defined.

(** ** The display record of combined bundles *)

(** The loop of [display_order], started at [cur]. *)
Lemma display_order_loop (l : list MB.t) (cur : Z) :
  let r := foldl (λ cur mB,
                    if (cur <? order (MB.displayDict mB))%Z
                    then (order (MB.displayDict mB) + 1)%Z
                    else cur) cur l in
  (cur ≤ r)%Z
  ∧ (∀ b, b ∈ l → (order (MB.displayDict b) ≤ r)%Z)
  ∧ (r = cur ∨ ∃ b, b ∈ l ∧ r = (order (MB.displayDict b) + 1)%Z).
Proof.
  revert cur. induction l as [|mB l IH]; intros cur; cbn [foldl].
  - split; [lia|]. split; [|by left]. intros b Hb. by apply elem_of_nil in Hb.
  - destruct (Z.ltb_spec cur (order (MB.displayDict mB))) as [Hlt|Hge].
    + destruct (IH (order (MB.displayDict mB) + 1)%Z) as (Hle & Hall & Hval).
      cbv zeta in *. split; [lia|]. split.
      * intros b [->|Hb]%elem_of_cons; [lia | by apply Hall].
      * right. destruct Hval as [-> | (b & Hb & ->)].
        -- exists mB. split; [left | done].
        -- exists b. split; [by right | done].
    + destruct (IH cur) as (Hle & Hall & Hval).
      cbv zeta in *. split; [lia|]. split.
      * intros b [->|Hb]%elem_of_cons; [lia | by apply Hall].
      * destruct Hval as [-> | (b & Hb & ->)]; [by left|].
        right. exists b. split; [by right | done].
Qed.

(** The group of a combined record: the one group, or "Comparisons". *)
Definition joint_group (groups : PySet.t) : string :=
  match groups with
  | [g] => g
  | _ => "Comparisons"
  end.

Section Display.
Context `{Runtime}.

Lemma pick_group (l : list MB.t) (f : MB.t → string) :
  l ≠ [] →
  (if (1 <? length (foldl (λ s mB, PySet.add (f mB) s) [] l))%nat
   then Ok "Comparisons"
   else first (foldl (λ s mB, PySet.add (f mB) s) [] l))
  = Ok (joint_group (foldl (λ s mB, PySet.add (f mB) s) [] l)).
Proof.
  intros Hne.
  assert (Hin : ∃ x, x ∈ foldl (λ s mB, PySet.add (f mB) s) [] l).
  { destruct l as [|mB l]; [done|]. exists (f mB).
    apply collect_elem_of. right. exists mB. split; [left | done]. }
  destruct (foldl _ _ _) as [|g [|g' gs]].
  - destruct Hin as [x Hx]. by apply elem_of_nil in Hx.
  - cbn [length Nat.ltb Nat.leb]. unfold first. by rewrite set_iter_singleton.
  - reflexivity.
Qed.

(** The combined record of two bundles or more. *)
Lemma buildDisplayDict_multi (self : PlotHandler) (mB : MB.t) (rest : list MB.t) :
  mBundles self = mB :: rest → rest ≠ [] →
  _buildDisplayDict self =
  Ok {| order := display_order (mBundles self);
        group := joint_group
                   (foldl (λ s b, PySet.add (group (MB.displayDict b)) s) []
                          (mBundles self));
        subgroup := joint_group
                      (foldl (λ s b, PySet.add (subgroup (MB.displayDict b)) s) []
                             (mBundles self));
        caption := jointMetricNames self +:+ " metric(s) calculated on a "
                   +:+ slicerName (MB.slicer mB) +:+ " grid, for opsim runs "
                   +:+ jointRunNames self +:+ ", for metadata values of "
                   +:+ jointMetadata self +:+ "." |}.
Proof.
  intros Hb Hrest. unfold _buildDisplayDict. rewrite Hb.
  destruct rest as [|b2 rest]; [done|]. cbn [length Nat.eqb]. cbv zeta.
  rewrite (pick_group _ (λ b, group (MB.displayDict b))) by done.
  rewrite (pick_group _ (λ b, subgroup (MB.displayDict b))) by done.
  reflexivity.
Qed.

(** X7. For two bundles or more, the order of the combined display record
    is never negative and never below a bundle's order, and it is either 0
    or one more than the order of some bundle. *)
Theorem X7_combined_order_bounds (self : PlotHandler) :
  2 ≤ length (mBundles self) →
  ∃ dd, _buildDisplayDict self = Ok dd
        ∧ (0 ≤ order dd)%Z
        ∧ (∀ b, b ∈ mBundles self → (order (MB.displayDict b) ≤ order dd)%Z)
        ∧ (order dd = 0%Z
           ∨ ∃ b, b ∈ mBundles self
                  ∧ order dd = (order (MB.displayDict b) + 1)%Z).
Proof.
  intros Hlen.
  destruct (mBundles self) as [|mB [|b2 rest]] eqn:Hb; cbn [length] in Hlen; [lia..|].
  eexists. split; [by apply (buildDisplayDict_multi self mB (b2 :: rest))|].
  cbn [order]. rewrite Hb. apply (display_order_loop (mB :: b2 :: rest) 0).
Qed.

(** X8. For two bundles or more, the group of the combined display record
    is the bundles' group when they all have the same one, and
    "Comparisons" as soon as two of them differ; a single bundle's display
    record is passed on as it is. *)
Theorem X8_combined_group (self : PlotHandler) :
  (∀ mB, mBundles self = [mB] → _buildDisplayDict self = Ok (MB.displayDict mB))
  ∧ (2 ≤ length (mBundles self) →
     ∃ dd, _buildDisplayDict self = Ok dd
           ∧ (∀ g, (∀ b, b ∈ mBundles self → group (MB.displayDict b) = g) →
                   group dd = g)
           ∧ (∀ b1 b2, b1 ∈ mBundles self → b2 ∈ mBundles self →
                       group (MB.displayDict b1) ≠ group (MB.displayDict b2) →
                       group dd = "Comparisons")).
Proof.
  split.
  - intros mB Hb. unfold _buildDisplayDict. by rewrite Hb.
  - intros Hlen.
    destruct (mBundles self) as [|mB [|b2 rest]] eqn:Hb; cbn [length] in Hlen; [lia..|].
    eexists. split; [by apply (buildDisplayDict_multi self mB (b2 :: rest))|].
    cbn [group]. rewrite Hb. split.
    + intros g Hall.
      by rewrite (collect_constant (λ b, group (MB.displayDict b)) _ g).
    + intros b1 b2' H1 H2 Hdiff.
      pose proof (collect_two (λ b, group (MB.displayDict b)) _ b1 b2' H1 H2 Hdiff)
        as Htwo.
      destruct (foldl _ _ _) as [|g [|g' gs]]; cbn [length] in Htwo; [lia..|done].
Qed.

End Display.

Lemma X7_combined_order_bounds_witness :
  ∃ dd, _buildDisplayDict (ex_installed [ex_order5; ex_order6]) = Ok dd
        ∧ (0 ≤ order dd)%Z
        ∧ (∀ b, b ∈ mBundles (ex_installed [ex_order5; ex_order6]) →
                (order (MB.displayDict b) ≤ order dd)%Z)
        ∧ (order dd = 0%Z
           ∨ ∃ b, b ∈ mBundles (ex_installed [ex_order5; ex_order6])
                  ∧ order dd = (order (MB.displayDict b) + 1)%Z).
Proof.
  apply (X7_combined_order_bounds (ex_installed [ex_order5; ex_order6])).
  vm_compute. lia.
Defined.

(** ** The configuration an install leaves, and the layers of [setPlotDict] *)

Section Layers.
Context `{Runtime}.

Lemma setPlotDict_None_Ok_inv (w : World) userPlotDict reset :
  (setPlotDict userPlotDict None reset w).1 = Ok () →
  ∃ title colors,
    _buildTitle (this w) = Ok title ∧ _buildColors (this w) = Ok colors.
Proof.
  intros Hok.
  destruct (_buildTitle (this w)) as [title|e] eqn:Htitle.
  2:{ by rewrite (setPlotDict_title_raise _ _ _ _ _ Htitle) in Hok. }
  destruct (_buildColors (this w)) as [colors|e] eqn:Hcolors.
  2:{ by rewrite (setPlotDict_colors_raise _ _ _ _ _ _ Htitle Hcolors) in Hok. }
  by exists title, colors.
Qed.

Lemma buildLegendLabels_length (self : PlotHandler) :
  mBundles self ≠ [] →
  length (_buildLegendLabels self) = length (mBundles self).
Proof.
  intros Hne. unfold _buildLegendLabels.
  destruct (Nat.eqb_spec (length (mBundles self)) 1) as [->|_]; [done|].
  by rewrite length_fmap.
Qed.

Lemma buildColors_length (self : PlotHandler) (colors : list pyval) :
  mBundles self ≠ [] →
  _buildColors self = Ok colors →
  length colors = length (mBundles self).
Proof.
  intros Hne. unfold _buildColors.
  destruct (Nat.eqb_spec (length (mBundles self)) 1) as [Hone|_].
  - destruct (mBundles self) as [|mB l]; [done|]. cbn [mbind outcome_bind].
    destruct (MB.plotDict mB !! "color"); intros [= <-]; by rewrite Hone.
  - destruct (colors_loop None [] (mBundles self)) as [[c cs]|e] eqn:Hloop; [|done].
    cbn [mbind outcome_bind snd]. intros [= <-].
    by destruct (colors_loop_extends _ _ _ _ _ Hloop) as (ext & -> & ?).
Qed.

(** X9. A successful install leaves in [self.plotDict] the five derived
    entries and nothing else, whatever the dict held before, with one label
    and one color for each bundle. *)
Theorem X9_install_resets_configuration (arg : BundleArg) (w : World) :
  (setMetricBundles arg w).1 = Ok () →
  let self' := this (setMetricBundles arg w).2 in
  dom (plotDict self')
  = ({["title"; "labels"; "colors"; "legendloc"; "cbarFormat"]} : gset string)
  ∧ plotDict self' !! "legendloc" = Some (VStr "upper right")
  ∧ ∃ labels colors,
      plotDict self' !! "labels" = Some (VList labels)
      ∧ plotDict self' !! "colors" = Some (VList colors)
      ∧ length labels = length (arrivals arg)
      ∧ length colors = length (arrivals arg).
Proof.
  intros Hok self'. subst self'.
  rewrite setMetricBundles_run in Hok |- *.
  pose proof (order_bundles_perm (arrivals arg)) as Hperm.
  destruct (order_bundles (arrivals arg)) as [|mB rest] eqn:Hord; [done|].
  cbv zeta in Hok |- *.
  destruct (same_slicer _ _); [|done].
  match goal with |- context [install_tail ?w0] => set (w' := w0) in * end.
  assert (Hb : mBundles (this w') = mB :: rest)
    by (unfold w', ordered; cbn; exact Hord).
  clearbody w'.
  rewrite install_tail_run in Hok |- *.
  rewrite bind_run in Hok |- *.
  destruct (keeps_combineMetadata (bundles_are (mB :: rest))
              ltac:(done) ltac:(done)
              {| this := with_names (this w'); log := log w' |} Hb) as [Hb3 _].
  destruct (_combineMetadata _) as [[[]|e] w3]; [|done].
  cbn [snd] in Hb3.
  rewrite (bind_run_Ok _ _ _ _ _ (combineSql_run _)) in Hok |- *.
  match goal with |- context [setPlotDict None None true ?w0] => set (w4 := w0) in * end.
  assert (Hb4 : mBundles (this w4) = mB :: rest) by exact Hb3.
  clearbody w4.
  destruct (setPlotDict_None_Ok_inv w4 None true Hok) as (title & colors & Ht & Hc).
  destruct (setPlotDict_reset_fields w4 title colors Ht Hc) as (_ & _ & _ & _ & _ & ->).
  unfold derived_entries. split.
  - rewrite !dom_insert_L, dom_empty_L. set_solver.
  - split; [by rewrite lookup_insert_ne, lookup_insert_eq by done|].
    exists (_buildLegendLabels (this w4)), colors.
    split; [by rewrite !lookup_insert_ne, lookup_insert_eq by done|].
    split; [by rewrite !lookup_insert_ne, lookup_insert_eq by done|].
    assert (Hne : mBundles (this w4) ≠ []) by (by rewrite Hb4).
    rewrite (buildLegendLabels_length _ Hne), (buildColors_length _ _ Hne Hc), Hb4.
    by rewrite <- Hperm.
Qed.

(** X10. In the dict that a successful [setPlotDict] with a plotter leaves,
    a key of the caller's dict has the caller's value, and a key that the
    caller does not give and for which the plotter has a default other than
    [None] has that default: the caller overrides the plotter, and the
    plotter overrides what is derived or was there. *)
Theorem X10_override_layers (w : World) (userPlotDict : option (gmap string pyval))
    (plotFunc : PlotFunc) (reset : bool) :
  (setPlotDict userPlotDict (Some plotFunc) reset w).1 = Ok () →
  let d := plotDict (this (setPlotDict userPlotDict (Some plotFunc) reset w).2) in
  (∀ o k v, userPlotDict = Some o → o !! k = Some v → d !! k = Some v)
  ∧ (∀ k v, (∀ o, userPlotDict = Some o → o !! k = None) →
            defaultPlotDict plotFunc !! k = Some v → v ≠ VNone →
            d !! k = Some v).
Proof.
  intros Hok d. subst d.
  destruct (setPlotDict_Ok_inv w userPlotDict plotFunc reset Hok)
    as (title & colors & xy & Ht & Hc & Hxy).
  pose proof (setPlotDict_run w userPlotDict (Some plotFunc) reset _ _ Ht Hc _ Hxy)
    as Hrun.
  cbv zeta in Hrun. rewrite Hrun. cbn [snd this plotDict set_plotDict].
  split.
  - intros o k v -> Hk. cbn [with_overrides].
    by apply lookup_union_Some_l.
  - intros k v Hover Hdef Hv.
    assert (Hlayer : apply_defaults (defaultPlotDict plotFunc)
               (with_xy xy
                  (derived_entries title (_buildLegendLabels (this w)) colors
                     (_buildCbarFormat (this w))
                     (if reset then ∅ else plotDict (this w)))) !! k = Some v).
    { rewrite apply_defaults_lookup, Hdef. by destruct v. }
    destruct userPlotDict as [o|]; cbn [with_overrides]; [|done].
    rewrite lookup_union_r; [done | by apply Hover].
Qed.

End Layers.

(** A plotter with defaults: one with an opinion, one without. *)
Definition ex_defaults : PlotFunc :=
  {| plotType := "BinnedData";
     defaultPlotDict := {["xMin" := VInt 1; "yMin" := VInt 2; "title" := VNone]};
     objectPlotter := true;
     call := λ _ _ _ _, VInt 1 |}.

Lemma X9_install_resets_configuration_witness :
  dom (plotDict (this (setMetricBundles (BundleList [ex_g; ex_u; ex_r]) ex_world).2))
  = ({["title"; "labels"; "colors"; "legendloc"; "cbarFormat"]} : gset string).
Proof.
  pose proof (X9_install_resets_configuration
                (BundleList [ex_g; ex_u; ex_r]) ex_world) as Hx.
  apply Hx. vm_compute. reflexivity.
Defined.

Lemma X10_override_layers_witness :
  plotDict (this (setPlotDict (Some ex_overrides) (Some ex_defaults) false
                    (setMetricBundles (BundleList [ex_count]) ex_world).2).2)
    !! "xMin" = Some (VInt 0)
  ∧ plotDict (this (setPlotDict (Some ex_overrides) (Some ex_defaults) false
                      (setMetricBundles (BundleList [ex_count]) ex_world).2).2)
      !! "yMin" = Some (VInt 2).
Proof.
  pose proof (X10_override_layers
                (setMetricBundles (BundleList [ex_count]) ex_world).2
                (Some ex_overrides) ex_defaults false) as Hx.
  destruct Hx as [Hu Hd]; [vm_compute; reflexivity|].
  split.
  - apply (Hu ex_overrides); [reflexivity | vm_compute; reflexivity].
  - apply Hd.
    + intros o [= <-]. vm_compute. reflexivity.
    + vm_compute. reflexivity.
    + discriminate.
Defined.

(** ** What a call of [plot] does to the handler and to its collaborators *)

(** [wkeeps I m]: running [m] keeps the world inside [I], whether it raises
    or not. *)
Definition wkeeps {A} (I : World → Prop) (m : M A) : Prop :=
  ∀ w, I w → I (m w).2.

(** An invariant that no assignment to [self.plotDict] disturbs. *)
Definition plotDict_blind (I : World → Prop) : Prop :=
  ∀ v w, I w → I {| this := set_plotDict v (this w); log := log w |}.

(** The plotter calls of a log: the metric values and the slicer of each. *)
Definition calls (evs : list Event) : list (pyval * Slicer) :=
  omap (λ ev, match ev with
              | EvPlotFunc metricValues slicer _ _ => Some (metricValues, slicer)
              | _ => None
              end) evs.

(** The files written and the database rows recorded in a log. *)
Definition is_output (ev : Event) : bool :=
  match ev with
  | EvFigSavefig _ _ _ _ | EvPltSavefig _ _
  | EvUpdateMetric _ _ _ _ _ | EvUpdateDisplay _ _ | EvUpdatePlot _ _ _ => true
  | _ => false
  end.
Definition outputs (evs : list Event) : list Event := List.filter is_output evs.

Section WKeeps.
Context (I : World → Prop).

Lemma wkeeps_ret {A} (a : A) : wkeeps I (mret a).
Proof. by intros w Hw. Qed.

Lemma wkeeps_raise {A} e : wkeeps I (@raise A e).
Proof. by intros w Hw. Qed.

Lemma wkeeps_lift {A} (o : outcome A) : wkeeps I (lift o).
Proof. by intros w Hw. Qed.

Lemma wkeeps_get : wkeeps I get_self.
Proof. by intros w Hw. Qed.

Lemma wkeeps_emit ev :
  (∀ w, I w → I {| this := this w; log := log w ++ [ev] |}) → wkeeps I (emit ev).
Proof. intros He w Hw. by apply He. Qed.

Lemma wkeeps_update f :
  (∀ w, I w → I {| this := f (this w); log := log w |}) → wkeeps I (update f).
Proof. intros Hf w Hw. by apply Hf. Qed.

Lemma wkeeps_bind {A B} (m : M A) (f : A → M B) :
  wkeeps I m → (∀ a, wkeeps I (f a)) → wkeeps I (m ≫= f).
Proof.
  intros Hm Hf w Hw. rewrite bind_run. specialize (Hm w Hw).
  destruct (m w) as [[a|e] w']; cbn [snd] in *; [by apply Hf | done].
Qed.

End WKeeps.

Ltac wkeeps_step :=
  lazymatch goal with
  | |- wkeeps _ (mret _) => apply wkeeps_ret
  | |- wkeeps _ get_self => apply wkeeps_get
  | |- wkeeps _ (lift _) => apply wkeeps_lift
  | |- wkeeps _ (raise _) => apply wkeeps_raise
  | |- wkeeps _ (warnings_warn _) => apply wkeeps_raise
  | |- wkeeps _ (mbind _ _) => apply wkeeps_bind; [|intros ?]
  | |- wkeeps _ (if ?b then _ else _) => destruct b
  | |- wkeeps _ (match ?x with _ => _ end) => destruct x
  end.

Section PlotEffects.
Context `{Runtime}.

Lemma wkeeps_store I reset tmp : plotDict_blind I → wkeeps I (store reset tmp).
Proof.
  intros HI. unfold store. destruct reset; [apply wkeeps_ret|].
  apply wkeeps_update. intros w Hw. by apply HI.
Qed.

Lemma wkeeps_setPlotDict I userPlotDict plotFunc reset :
  plotDict_blind I → wkeeps I (setPlotDict userPlotDict plotFunc reset).
Proof.
  intros HI. unfold setPlotDict. cbv zeta.
  repeat lazymatch goal with
         | |- wkeeps _ (store _ _) => by apply wkeeps_store
         | |- wkeeps _ (update _) =>
             apply wkeeps_update; intros w Hw; by apply HI
         | |- _ => wkeeps_step
         end.
Qed.

Lemma wkeeps_check I (l : list MB.t) : wkeeps I (check_metricIsColor l).
Proof.
  induction l as [|mB l IH]; cbn [check_metricIsColor]; [apply wkeeps_ret|].
  repeat lazymatch goal with
         | |- wkeeps _ (check_metricIsColor _) => apply IH
         | |- _ => wkeeps_step
         end.
Qed.

Lemma wkeeps_set_active I (k ks : string) (i : nat) :
  plotDict_blind I → wkeeps I (set_active k ks i).
Proof.
  intros HI. unfold set_active.
  repeat lazymatch goal with
         | |- wkeeps _ (update _) =>
             apply wkeeps_update; intros w Hw; by apply HI
         | |- _ => wkeeps_step
         end.
Qed.

Lemma wkeeps_render_loop I plotFunc (l : list MB.t) (i : nat) (fignum : pyval) :
  plotDict_blind I →
  (∀ mv sl d fn w, I w →
     I {| this := this w; log := log w ++ [EvPlotFunc mv sl d fn] |}) →
  wkeeps I (render_loop plotFunc l i fignum).
Proof.
  intros HI Hev. revert i fignum.
  induction l as [|mB l IH]; intros i fignum; cbn [render_loop]; [apply wkeeps_ret|].
  repeat lazymatch goal with
         | |- wkeeps _ (set_active _ _ _) => by apply wkeeps_set_active
         | |- wkeeps _ (render_loop _ _ _ _) => apply IH
         | |- wkeeps _ (emit _) => apply wkeeps_emit; intros w Hw; by apply Hev
         | |- _ => wkeeps_step
         end.
Qed.

(** An invariant that no call of a collaborator disturbs. *)
Definition log_blind (I : World → Prop) : Prop :=
  ∀ ev w, I w → I {| this := this w; log := log w ++ [ev] |}.

Lemma wkeeps_render_and_save I plotFunc outfileSuffix :
  plotDict_blind I → log_blind I →
  wkeeps I (render_and_save plotFunc outfileSuffix).
Proof.
  intros HI Hlog. unfold render_and_save. cbv zeta.
  repeat lazymatch goal with
         | |- wkeeps _ (render_loop _ _ _ _) =>
             apply wkeeps_render_loop; [done | intros; by apply Hlog]
         | |- wkeeps _ (emit _) => apply wkeeps_emit; intros w Hw; by apply Hlog
         | |- _ => wkeeps_step
         end.
Qed.

Lemma wkeeps_plot I plotFunc userPlotDict outfileSuffix :
  plotDict_blind I → log_blind I →
  wkeeps I (plot plotFunc userPlotDict outfileSuffix).
Proof.
  intros HI Hlog. unfold plot.
  repeat lazymatch goal with
         | |- wkeeps _ (check_metricIsColor _) => apply wkeeps_check
         | |- wkeeps _ (setPlotDict _ _ _) => by apply wkeeps_setPlotDict
         | |- wkeeps _ (render_and_save _ _) => by apply wkeeps_render_and_save
         | |- _ => wkeeps_step
         end.
Qed.

(** X11. A call of [plot], whether it returns or raises, changes no
    attribute of the handler other than [plotDict]: the installed bundles,
    the slicer, the collected names and the joint names stay as they
    were. *)
Theorem X11_plot_changes_only_plotDict (plotFunc : PlotFunc)
    (userPlotDict : option (gmap string pyval)) (outfileSuffix : option string)
    (w : World) :
  set_plotDict ∅ (this (plot plotFunc userPlotDict outfileSuffix w).2)
  = set_plotDict ∅ (this w).
Proof.
  apply (wkeeps_plot (λ w', set_plotDict ∅ (this w') = set_plotDict ∅ (this w)));
    [by intros v w' Hw' | by intros ev w' Hw' | done].
Qed.

End PlotEffects.

Section PlotCalls.
Context `{Runtime}.

Lemma calls_snoc (evs : list Event) (ev : Event) :
  calls (evs ++ [ev]) =
  calls evs ++ match ev with
               | EvPlotFunc metricValues slicer _ _ => [(metricValues, slicer)]
               | _ => []
               end.
Proof. unfold calls. rewrite omap_app. by destruct ev. Qed.

Lemma outputs_snoc (evs : list Event) (ev : Event) :
  is_output ev = false → outputs (evs ++ [ev]) = outputs evs.
Proof.
  intros Hev. unfold outputs. rewrite List.filter_app. cbn [List.filter].
  by rewrite Hev, app_nil_r.
Qed.

Lemma set_active_log (k ks : string) (i : nat) (w : World) :
  log (set_active k ks i w).2 = log w.
Proof.
  by apply (wkeeps_set_active (λ w', log w' = log w) k ks i); [intros v w' Hw'|].
Qed.

(** A render loop that completes has called the plotter once for each
    bundle, in order, with the bundle's values and slicer. *)
Lemma render_loop_calls plotFunc (l : list MB.t) (i : nat) (fignum r : pyval)
    (w w' : World) :
  render_loop plotFunc l i fignum w = (Ok r, w') →
  calls (log w') = calls (log w) ++ ((λ b, (MB.metricValues b, MB.slicer b)) <$> l).
Proof.
  revert i fignum w. induction l as [|mB l IH]; intros i fignum w; cbn [render_loop].
  - intros [= _ <-]. by rewrite app_nil_r.
  - rewrite bind_run.
    pose proof (set_active_log "label" "labels" i w) as Hl1.
    destruct (set_active "label" "labels" i w) as [[[]|e] w1]; [|done].
    rewrite bind_run.
    pose proof (set_active_log "color" "colors" i w1) as Hl2.
    destruct (set_active "color" "colors" i w1) as [[[]|e] w2]; [|done].
    cbn [snd] in Hl1, Hl2.
    rewrite bind_run. cbn [get_self]. rewrite bind_run. cbn [emit].
    intros Hloop. apply IH in Hloop. rewrite Hloop. cbn [log].
    rewrite calls_snoc, Hl2, Hl1, fmap_cons, <- app_assoc. reflexivity.
Qed.

(** X12. A call of [plot] that returns has called the plotter exactly once
    for each installed bundle, in the order of [self.mBundles], each time
    with that bundle's metric values and slicer. *)
Theorem X12_plot_calls_once_per_bundle (plotFunc : PlotFunc)
    (userPlotDict : option (gmap string pyval)) (outfileSuffix : option string)
    (w : World) (v : pyval) :
  (plot plotFunc userPlotDict outfileSuffix w).1 = Ok v →
  calls (log (plot plotFunc userPlotDict outfileSuffix w).2)
  = calls (log w)
    ++ ((λ b, (MB.metricValues b, MB.slicer b)) <$> mBundles (this w)).
Proof.
  intros Hok. rewrite (plot_Ok_run _ _ _ _ _ Hok) in Hok |- *.
  rewrite bind_run in Hok |- *.
  assert (Hset : log (setPlotDict userPlotDict (Some plotFunc) false w).2 = log w
                 ∧ mBundles (this (setPlotDict userPlotDict (Some plotFunc) false w).2)
                   = mBundles (this w)).
  { by apply (wkeeps_setPlotDict
                (λ w', log w' = log w ∧ mBundles (this w') = mBundles (this w)));
      [intros ? w' Hw'|]. }
  destruct (setPlotDict userPlotDict (Some plotFunc) false w) as [[[]|e] w1];
    [|done].
  cbn [snd] in Hset. destruct Hset as [Hlog Hb].
  unfold render_and_save in Hok |- *.
  rewrite bind_run in Hok |- *. cbn [get_self] in Hok |- *.
  rewrite bind_run in Hok |- *. unfold lift at 1 in Hok. unfold lift at 1.
  destruct (_buildFileRoot (this w1) outfileSuffix) as [outfile|e]; [|done].
  rewrite bind_run in Hok |- *.
  destruct (render_loop plotFunc (mBundles (this w1)) 0 VNone w1)
    as [[fn|e] w2] eqn:Hloop; [|done].
  apply render_loop_calls in Hloop. rewrite Hlog, Hb in Hloop. rewrite <- Hloop.
  clear Hok.
  match goal with
  | |- calls (log (?m w2).2) = _ =>
      cut (wkeeps (λ w', calls (log w') = calls (log w2)) m);
        [intros Hk; by apply Hk|]
  end.
  repeat lazymatch goal with
         | |- wkeeps _ (emit _) =>
             apply wkeeps_emit; intros w0 Hw0; cbn [log];
             by rewrite calls_snoc, app_nil_r
         | |- _ => wkeeps_step
         end.
Qed.

(** X13. With [savefig] off, a call of [plot] writes no file and records
    nothing in the results database, also when the handler has one. *)
Theorem X13_no_output_without_savefig (plotFunc : PlotFunc)
    (userPlotDict : option (gmap string pyval)) (outfileSuffix : option string)
    (w : World) :
  savefig (this w) = false →
  outputs (log (plot plotFunc userPlotDict outfileSuffix w).2) = outputs (log w).
Proof.
  intros Hsave.
  set (I := λ w', savefig (this w') = false ∧ outputs (log w') = outputs (log w)).
  assert (Hblind : plotDict_blind I) by (by intros ? w' Hw').
  assert (Hrender : wkeeps I (render_and_save plotFunc outfileSuffix)).
  { intros w1 Hw1. pose proof Hw1 as [Hs1 _].
    unfold render_and_save. rewrite bind_run. cbn [get_self].
    rewrite Hs1. cbv zeta.
    match goal with
    | |- I (?m w1).2 => cut (wkeeps I m); [intros Hk; by apply Hk|]
    end.
    repeat lazymatch goal with
           | |- wkeeps _ (render_loop _ _ _ _) =>
               apply wkeeps_render_loop;
               [done | intros mv sl d fn w0 [? ?]; split; [done|]; cbn [log];
                       by rewrite outputs_snoc]
           | |- wkeeps _ (emit _) =>
               apply wkeeps_emit; intros w0 [? ?]; split; [done|]; cbn [log];
               by rewrite outputs_snoc
           | |- _ => wkeeps_step
           end. }
  assert (Hplot : wkeeps I (plot plotFunc userPlotDict outfileSuffix)).
  { unfold plot.
    repeat lazymatch goal with
           | |- wkeeps _ (check_metricIsColor _) => apply wkeeps_check
           | |- wkeeps _ (setPlotDict _ _ _) => by apply wkeeps_setPlotDict
           | |- wkeeps _ (render_and_save _ _) => exact Hrender
           | |- _ => wkeeps_step
           end. }
  by apply Hplot.
Qed.

End PlotCalls.

(** A handler that keeps a database but does not save figures. *)
Definition ex_db : ResultsDb := {| updateMetric := λ _ _ _ _ _ _, VInt 7 |}.
Definition ex_world_nosave : World :=
  {| this := __init__ "." (Some ex_db) false "pdf" 600 true; log := [] |}.

Lemma X12_plot_calls_once_per_bundle_witness :
  calls (log (plot ex_binned None None
                (setMetricBundles (BundleList [ex_g; ex_u; ex_r]) ex_world).2).2)
  = calls (log (setMetricBundles (BundleList [ex_g; ex_u; ex_r]) ex_world).2)
    ++ ((λ b, (MB.metricValues b, MB.slicer b))
          <$> mBundles (this (setMetricBundles (BundleList [ex_g; ex_u; ex_r])
                                               ex_world).2)).
Proof.
  apply (X12_plot_calls_once_per_bundle ex_binned None None _ (VInt 1)).
  vm_compute. reflexivity.
Defined.

Lemma X13_no_output_without_savefig_witness :
  outputs (log (plot ex_binned None None
                  (setMetricBundles (BundleList [ex_g; ex_r]) ex_world_nosave).2).2)
  = outputs (log (setMetricBundles (BundleList [ex_g; ex_r]) ex_world_nosave).2).
Proof.
  apply (X13_no_output_without_savefig ex_binned None None).
  vm_compute. reflexivity.
Defined.

(** ** Bundles without a band token, and the capability check when it passes *)

Section MoreInstall.
Context `{Runtime}.

Lemma foldl_insert_unbanded (l acc : list MB.t) :
  (∀ b, b ∈ l → band_tokens (MB.fileRoot b) = []) →
  foldl insert_bundle acc l = acc ++ l.
Proof.
  revert acc. induction l as [|mB l IH]; intros acc Hall; cbn [foldl].
  - by rewrite app_nil_r.
  - rewrite IH by (intros b Hb; apply Hall; by right).
    unfold insert_bundle. rewrite forder_band_tokens, (Hall mB) by left.
    cbn [last]. rewrite list_insert_at_ge by done.
    by rewrite <- app_assoc.
Qed.

(** X14. When no bundle of the argument has a band token in its file root,
    the installed bundles are in the order of arrival. *)
Theorem X14_unbanded_bundles_keep_arrival_order (arg : BundleArg) (w : World) :
  (∀ b, b ∈ arrivals arg → band_tokens (MB.fileRoot b) = []) →
  mBundles (this (setMetricBundles arg w).2) = arrivals arg.
Proof.
  intros Hall. rewrite setMetricBundles_mBundles.
  apply (foldl_insert_unbanded (arrivals arg) [] Hall).
Qed.

(** X15. With a plotter that does not take object values, [plot] goes on
    exactly as with one that does when every bundle flags [metricIsColor];
    and a bundle without the key [metricIsColor], met before any bundle
    whose flag is false, ends the call in a [KeyError], with nothing done. *)
Theorem X15_capability_check (plotFunc : PlotFunc)
    (userPlotDict : option (gmap string pyval)) (outfileSuffix : option string)
    (w : World) :
  objectPlotter plotFunc = false →
  (forallb is_color (mBundles (this w)) = true →
   plot plotFunc userPlotDict outfileSuffix w =
   (setPlotDict userPlotDict (Some plotFunc) false
    ≫= λ _, render_and_save plotFunc outfileSuffix) w)
  ∧ (∀ pre mB post,
       mBundles (this w) = pre ++ mB :: post →
       forallb is_color pre = true →
       MB.plotDict mB !! "metricIsColor" = None →
       plot plotFunc userPlotDict outfileSuffix w
       = (Raise (KeyError "metricIsColor"), w)).
Proof.
  intros Hobj. split.
  - intros Hall. unfold plot.
    rewrite bind_run. cbn [get_self]. rewrite Hobj. cbn [negb].
    rewrite bind_run, check_metricIsColor_run.
    assert (Hfind : List.find (λ mB, negb (is_color mB)) (mBundles (this w)) = None).
    { induction (mBundles (this w)) as [|b l IH]; [done|].
      cbn [forallb] in Hall. apply andb_true_iff in Hall as [Hb Hl].
      cbn [List.find]. rewrite Hb. cbn [negb]. by apply IH. }
    by rewrite Hfind.
  - intros pre mB post Hb Hpre Hkey. unfold plot.
    rewrite bind_run. cbn [get_self]. rewrite Hobj. cbn [negb].
    rewrite bind_run, check_metricIsColor_run, Hb.
    assert (Hfind : List.find (λ mB, negb (is_color mB)) (pre ++ mB :: post)
                    = Some mB).
    { clear Hb. induction pre as [|b pre IH]; cbn [app List.find].
      - unfold is_color. by rewrite Hkey.
      - cbn [forallb] in Hpre. apply andb_true_iff in Hpre as [-> Hpre].
        by apply IH. }
    by rewrite Hfind, Hkey.
Qed.

End MoreInstall.

Definition ex_color_value : MB.t :=
  ex_bundle "run1_Count_ONED" "run1" "" "Count" ""
            {["metricIsColor" := VBool true]} 0.

Lemma X14_unbanded_bundles_keep_arrival_order_witness :
  mBundles (this (setMetricBundles (BundleList [ex_order6; ex_order5]) ex_world).2)
  = [ex_order6; ex_order5].
Proof.
  apply (X14_unbanded_bundles_keep_arrival_order
           (BundleList [ex_order6; ex_order5]) ex_world).
  intros b Hb. simpl in Hb.
  repeat (apply elem_of_cons in Hb as [->|Hb]); [vm_compute; reflexivity..|].
  by apply elem_of_nil in Hb.
Defined.

Lemma X15_capability_check_witness :
  plot ex_numeric None None
       (setMetricBundles (BundleList [ex_color_value]) ex_world).2
  = (setPlotDict None (Some ex_numeric) false
     ≫= λ _, render_and_save ex_numeric None)
      (setMetricBundles (BundleList [ex_color_value]) ex_world).2
  ∧ plot ex_numeric None None
         (setMetricBundles (BundleList [ex_count]) ex_world).2
    = (Raise (KeyError "metricIsColor"),
       (setMetricBundles (BundleList [ex_count]) ex_world).2).
Proof.
  split.
  - apply (X15_capability_check ex_numeric None None); [reflexivity|].
    vm_compute. reflexivity.
  - apply (proj2 (X15_capability_check ex_numeric None None
                    (setMetricBundles (BundleList [ex_count]) ex_world).2
                    eq_refl) [] ex_count []);
      vm_compute; reflexivity.
Defined.

(** ** A metadata string whose clauses all the others share *)

Lemma inter_elem_of (c : string) (a b : PySet.t) :
  c ∈ PySet.inter a b ↔ c ∈ a ∧ c ∈ b.
Proof.
  unfold PySet.inter.
  rewrite list_elem_of_In, List.filter_In, mem_spec, <- list_elem_of_In. tauto.
Qed.

Lemma foldl_inter_elem_of (c : string) (rest : list PySet.t) (s : PySet.t) :
  c ∈ foldl PySet.inter s rest ↔ c ∈ s ∧ ∀ t, t ∈ rest → c ∈ t.
Proof.
  revert s. induction rest as [|t rest IH]; intros s; cbn [foldl].
  - split; [intros Hc; split; [done|]; intros t Ht; by apply elem_of_nil in Ht | by intros [? _]].
  - rewrite IH, inter_elem_of. split.
    + intros [[Hs Ht] Hrest]. split; [done|].
      intros t' [->|Ht']%elem_of_cons; [done | by apply Hrest].
    + intros [Hs Hall]. split; [split; [done | apply Hall; left]|].
      intros t' Ht'. apply Hall. by right.
Qed.

Lemma inter_all_elem_of (c : string) (l : list PySet.t) (r : PySet.t) :
  PySet.inter_all l = Some r → (c ∈ r ↔ ∀ t, t ∈ l → c ∈ t).
Proof.
  destruct l as [|s rest]; [done|]. cbn [PySet.inter_all]. intros [= <-].
  rewrite foldl_inter_elem_of. split.
  - intros [Hs Hrest] t [->|Ht]%elem_of_cons; [done | by apply Hrest].
  - intros Hall. split; [apply Hall; left | intros t Ht; apply Hall; by right].
Qed.

Lemma diff_nil (x y : PySet.t) : (∀ c, c ∈ x → c ∈ y) → PySet.diff x y = [].
Proof.
  intros Hsub. unfold PySet.diff. induction x as [|c x IH]; [done|].
  cbn [List.filter].
  assert (Hc : PySet.mem c y = true) by (apply mem_spec, Hsub; left).
  rewrite Hc. cbn [negb]. apply IH. intros c' Hc'. apply Hsub. by right.
Qed.

Lemma list_nil_no_elem {A} (l : list A) : (∀ x, x ∉ l) → l = [].
Proof. destruct l as [|x l]; [done|]. intros Hno. destruct (Hno x). left. Qed.

Lemma foldr_min_zero (l : list nat) (a : nat) : 0 ∈ l → foldr Nat.min a l = 0.
Proof.
  induction l as [|n l IH]; [by intros ?%elem_of_nil|].
  intros [<-|Hl]%elem_of_cons; cbn [foldr]; [done|].
  rewrite IH by done. apply Nat.min_0_r.
Qed.

Lemma mapM_raise {A B} (f : A → outcome B) (l : list A) (e : exn) (x : A) :
  x ∈ l → f x = Raise e →
  (∀ y e', f y = Raise e' → e' = e) →
  mapM f l = Raise e.
Proof.
  intros Hx Hfx Honly. induction l as [|y l IH]; [by apply elem_of_nil in Hx|].
  cbn [mapM]. destruct (f y) as [b|e'] eqn:Hy.
  - apply elem_of_cons in Hx as [->|Hx]; [congruence|].
    cbn [mbind outcome_bind]. by rewrite IH.
  - cbn [mbind outcome_bind]. f_equal. by apply (Honly y).
Qed.

Section SharedClauses.
Context `{Runtime}.

(** The merge of a metadata set in which one string has only clauses that
    every string of the set has. *)
Lemma merge_metadata_shared_clauses (md : PySet.t) (m0 : string) :
  m0 ∈ md →
  (∀ m c, m ∈ md → c ∈ split_clauses m0 → c ∈ split_clauses m) →
  merge_metadata md = Raise IndexError.
Proof.
  intros Hm0 Hshared. unfold merge_metadata. cbv zeta.
  assert (Hin : m0 ∈ set_iter md) by (by rewrite set_iter_perm).
  assert (Hall : ∀ m, m ∈ set_iter md → m ∈ md)
    by (intros m Hm; by rewrite <- (set_iter_perm md)).
  set (splitmetas := split_clauses <$> set_iter md).
  assert (Hs0 : split_clauses m0 ∈ splitmetas)
    by (by apply list_elem_of_fmap_2).
  destruct (PySet.inter_all splitmetas) as [common|] eqn:Hcommon.
  2:{ destruct splitmetas; [by apply elem_of_nil in Hs0 | done]. }
  cbn [mbind outcome_bind].
  set (diff := (λ x, PySet.diff x common) <$> splitmetas).
  assert (Hd0 : [] ∈ diff).
  { replace [] with (PySet.diff (split_clauses m0) common).
    - by apply (list_elem_of_fmap_2 (λ x, PySet.diff x common)).
    - apply diff_nil. intros c Hc.
      apply (inter_all_elem_of c _ _ Hcommon).
      intros t (m & -> & Hm)%list_elem_of_fmap. apply Hshared; [by apply Hall | done]. }
  set (diffsplit := (λ d : list string, if (0 <? length d)%nat
                          then PySet.of_list (hd [] (Str.words <$> set_iter d))
                          else []) <$> diff).
  assert (Hds0 : [] ∈ diffsplit).
  { change [] with ((λ d : list string, if (0 <? length d)%nat
                          then PySet.of_list (hd [] (Str.words <$> set_iter d))
                          else []) []) at 1.
    by apply (list_elem_of_fmap_2 _ diff []). }
  destruct (PySet.inter_all diffsplit) as [diffcommon|] eqn:Hdc.
  2:{ destruct diffsplit; [by apply elem_of_nil in Hds0 | done]. }
  cbn [mbind outcome_bind].
  assert (Hlen0 : 0 ∈ length <$> ((λ x, PySet.diff x diffcommon) <$> diffsplit)).
  { change 0 with (length (PySet.diff [] diffcommon)).
    apply (list_elem_of_fmap_2 length).
    by apply (list_elem_of_fmap_2 (λ x, PySet.diff x diffcommon)). }
  rewrite (foldr_min_zero _ _ Hlen0). cbn [Nat.eqb].
  rewrite (mapM_raise _ diff IndexError [] Hd0); [reflexivity | cbv beta; rewrite set_iter_nil; reflexivity |].
  intros y e'. destruct (set_iter y); [by intros [= <-] | done].
Qed.

(** X16. An install fails with [IndexError] when the bundles carry two
    metadata strings or more, and all the clauses of one of them are clauses
    of every other (as with "dithered" beside "r band, dithered"). *)
Theorem X16_shared_clauses_raise (arg : BundleArg) (w : World) (b0 b1 : MB.t) :
  (∀ b b', b ∈ arrivals arg → b' ∈ arrivals arg →
           slicerName (MB.slicer b) = slicerName (MB.slicer b')) →
  b0 ∈ arrivals arg → b1 ∈ arrivals arg →
  MB.metadata b0 ≠ MB.metadata b1 →
  (∀ b c, b ∈ arrivals arg → c ∈ split_clauses (MB.metadata b0) →
          c ∈ split_clauses (MB.metadata b)) →
  (setMetricBundles arg w).1 = Raise IndexError.
Proof.
  intros Hsame H0 H1 Hdiff Hshared.
  assert (Hne : arrivals arg ≠ [])
    by (intros Hnil; rewrite Hnil in H0; by apply elem_of_nil in H0).
  destruct (setMetricBundles_past_check arg w Hne Hsame) as (mB & _ & ->).
  match goal with |- context [install_tail ?w0] => set (w' := w0) end.
  pose proof (order_bundles_perm (arrivals arg)) as Hperm.
  assert (Hb : mBundles (this w') = order_bundles (arrivals arg)) by reflexivity.
  clearbody w'.
  rewrite install_tail_run, bind_run, combineMetadata_split.
  cbn [this log].
  change (mBundles (with_names (this w'))) with (mBundles (this w')).
  rewrite Hb. unfold joint_metadata_step.
  assert (Hlen : (length (metadata_of (order_bundles (arrivals arg))) =? 1)%nat = false).
  { apply Nat.eqb_neq.
    assert (2 ≤ length (metadata_of (order_bundles (arrivals arg)))); [|lia].
    apply (collect_two MB.metadata _ b0 b1); [by rewrite Hperm.. | done]. }
  rewrite Hlen, bind_run. unfold lift at 1.
  rewrite (merge_metadata_shared_clauses _ (MB.metadata b0)); [done| |].
  - apply collect_elem_of. right. exists b0. by rewrite Hperm.
  - intros m c [Hm | (b & Hbin & <-)]%collect_elem_of Hc;
      [by apply elem_of_nil in Hm|].
    apply Hshared; [by rewrite <- Hperm | done].
Qed.

End SharedClauses.

Definition ex_dithered : MB.t :=
  ex_bundle "run1_Count_ONED" "run1" "dithered" "Count" "" ∅ 0.

Lemma X16_shared_clauses_raise_witness :
  (setMetricBundles (BundleList [ex_dithered; ex_r]) ex_world).1 = Raise IndexError.
Proof.
  apply (X16_shared_clauses_raise (BundleList [ex_dithered; ex_r]) ex_world
           ex_dithered ex_r).
  - intros b b' Hb Hb'. simpl in Hb, Hb'.
    repeat (apply elem_of_cons in Hb as [->|Hb]); [| |by apply elem_of_nil in Hb];
    repeat (apply elem_of_cons in Hb' as [->|Hb']);
    first [reflexivity | by apply elem_of_nil in Hb'].
  - left.
  - right. left.
  - discriminate.
  - intros b c Hb Hc. simpl in Hb. vm_compute in Hc.
    apply list_elem_of_singleton in Hc as ->.
    repeat (apply elem_of_cons in Hb as [->|Hb]);
      [vm_compute; left | vm_compute; right; left | by apply elem_of_nil in Hb].
Defined.

(** ** The joint metric name, column by column *)

(** The [i]-th words of the names. *)
Definition column (names : list string) (i : nat) : list string :=
  (λ x, default "" (Str.words x !! i)) <$> names.

(** The band letters of a column, in band order. *)
Definition band_word (col : list string) : string :=
  foldl (λ filterlist f, if PySet.mem f col then filterlist +:+ f else filterlist)
        "" band_order.

Definition joint_word (col : list string) : string :=
  if forallb (λ t, PySet.mem t band_order) col then band_word col else hd "" col.

Lemma of_list_elem_of (l : list string) (x : string) : x ∈ PySet.of_list l ↔ x ∈ l.
Proof.
  unfold PySet.of_list.
  rewrite (collect_elem_of (λ a : string, a) l [] x). split.
  - intros [Hx | (a & Ha & <-)]; [by apply elem_of_nil in Hx | done].
  - intros Hx. right. by exists x.
Qed.

Lemma of_list_constant (l : list string) (t : string) :
  l ≠ [] → (∀ x, x ∈ l → x = t) → PySet.of_list l = [t].
Proof. intros Hne Hall. by apply (collect_constant (λ a : string, a) l t). Qed.

Lemma mem_ext (a b : list string) (f : string) :
  (∀ x, x ∈ a ↔ x ∈ b) → PySet.mem f a = PySet.mem f b.
Proof.
  intros Hab. apply Bool.eq_iff_eq_true. by rewrite !mem_spec.
Qed.

Lemma forallb_ext_elem (p : string → bool) (a b : list string) :
  (∀ x, x ∈ a ↔ x ∈ b) → forallb p a = forallb p b.
Proof.
  intros Hab. apply Bool.eq_iff_eq_true. rewrite !forallb_forall.
  split; intros Hp x Hx; apply Hp, list_elem_of_In;
    apply list_elem_of_In in Hx; by apply Hab.
Qed.

Lemma eqb_inter_subset (tmp order : PySet.t) :
  PySet.eqb (PySet.inter tmp order) tmp = forallb (λ x, PySet.mem x order) tmp.
Proof.
  unfold PySet.eqb.
  assert (Hfirst : forallb (λ x, PySet.mem x tmp) (PySet.inter tmp order) = true).
  { apply forallb_forall. intros x Hx%list_elem_of_In.
    apply mem_spec. by apply inter_elem_of in Hx as [? _]. }
  rewrite Hfirst. cbn [andb].
  apply Bool.eq_iff_eq_true. rewrite !forallb_forall.
  split; intros Hp x Hx; specialize (Hp x Hx); apply list_elem_of_In in Hx.
  - apply mem_spec in Hp. apply inter_elem_of in Hp as [_ Hp]. by apply mem_spec.
  - apply mem_spec, inter_elem_of. split; [done | by apply mem_spec].
Qed.

Lemma band_word_ext (a b : list string) :
  (∀ x, x ∈ a ↔ x ∈ b) → band_word a = band_word b.
Proof.
  intros Hab. unfold band_word, band_order. cbn [foldl].
  by rewrite !(mem_ext a b _ Hab).
Qed.

Lemma dedup_constant (l : list nat) (n : nat) :
  l ≠ [] → (∀ x, x ∈ l → x = n) → dedup l = [n].
Proof.
  intros Hne Hall. destruct l as [|a l]; [done|]. unfold dedup. cbn [foldl existsb app].
  rewrite (Hall a) by left.
  assert (Hl : ∀ b, b ∈ l → b = n) by (intros b Hb; apply Hall; by right).
  clear Hall Hne. induction l as [|b l IH]; [done|]. cbn [foldl].
  rewrite (Hl b) by left. cbn [existsb]. rewrite Nat.eqb_refl. cbn [orb].
  apply IH. intros c Hc. apply Hl. by right.
Qed.

Section JointName.
Context `{Runtime}.

(** X17. When the metric names (two or more) have the same number of words,
    and at every position the words are either band letters or one and the
    same word, the joint name is made position by position: the band
    letters that occur, in the order u, g, r, i, z, y, or else the common
    word.  The order in which the set of names is enumerated plays no part. *)
Theorem X17_joint_name_by_columns (names : PySet.t) (n : nat) :
  2 ≤ length names →
  (∀ x, x ∈ names → length (Str.words x) = n) →
  (∀ i, i < n →
        (∀ t, t ∈ column names i → t ∈ band_order)
        ∨ (∃ t, ∀ t', t' ∈ column names i → t' = t)) →
  joint_metric_names names
  = Str.join " " ((λ i, joint_word (column names i)) <$> seq 0 n).
Proof.
  intros Hlen Hwords Hcols. unfold joint_metric_names. cbv zeta.
  destruct (Nat.eqb_spec (length names) 1) as [Hone|_]; [lia|].
  pose proof (set_iter_perm names) as Hperm.
  assert (Hne : set_iter names ≠ []).
  { intros Hnil. rewrite Hnil in Hperm. apply Permutation_nil_l in Hperm.
    rewrite <- Hperm in Hlen. simpl in Hlen. lia. }
  assert (HL : ∀ x, x ∈ set_iter names → length (Str.words x) = n)
    by (intros x Hx; apply Hwords; by rewrite <- Hperm).
  rewrite (dedup_constant _ n).
  2:{ by destruct (set_iter names). }
  2:{ intros k (x & -> & Hx)%list_elem_of_fmap. by apply HL. }
  cbn [length Nat.eqb].
  assert (Hhd : hd 0 ((λ x, length (Str.words x)) <$> set_iter names) = n).
  { destruct (set_iter names) as [|x L]; [done|]. cbn [fmap list_fmap hd].
    apply HL. left. }
  rewrite Hhd. f_equal.
  apply Forall_fmap_ext, Forall_forall. intros i [_ Hi]%elem_of_seq.
  set (tmp := PySet.of_list _).
  assert (Htmp : ∀ x, x ∈ tmp ↔ x ∈ column names i).
  { intros x. subst tmp. rewrite of_list_elem_of, <- list_fmap_compose.
    unfold column. by rewrite Hperm. }
  rewrite eqb_inter_subset, (forallb_ext_elem _ _ _ Htmp).
  unfold joint_word.
  destruct (forallb _ (column names i)) eqn:Hband.
  - change (foldl _ "" band_order) with (band_word tmp). by apply band_word_ext.
  - destruct (Hcols i) as [Hall | (t & Ht)]; [lia | |].
    { exfalso. apply Bool.not_true_iff_false in Hband. apply Hband.
      apply forallb_forall. intros x Hx%list_elem_of_In. by apply mem_spec, Hall. }
    assert (Hcne : (λ x, default "" (x !! i)) <$> (Str.words <$> set_iter names) ≠ []).
    { by destruct (set_iter names). }
    assert (Heq : tmp = [t]).
    { subst tmp. apply of_list_constant; [done|].
      intros x Hx. apply Ht, Htmp, of_list_elem_of, Hx. }
    rewrite Heq, set_iter_singleton.
    assert (Hhd' : hd "" (column names i) = t).
    { unfold column in *. destruct names as [|x names']; [simpl in Hlen; lia|].
      apply Ht. left. }
    rewrite Hhd'. unfold Str.join. cbn [concat]. done.
Qed.

End JointName.

Lemma X17_joint_name_by_columns_witness :
  joint_metric_names ["Count r"; "Count g"] = "Count gr".
Proof.
  rewrite (X17_joint_name_by_columns ["Count r"; "Count g"] 2).
  - reflexivity.
  - simpl. lia.
  - intros x Hx.
    repeat (apply elem_of_cons in Hx as [->|Hx]); [reflexivity.. |].
    by apply elem_of_nil in Hx.
  - intros i Hi. destruct i as [|[|i]]; [right | left | lia].
    + exists "Count". intros t' Ht'. vm_compute in Ht'.
      repeat (apply elem_of_cons in Ht' as [->|Ht']); [reflexivity.. |].
      by apply elem_of_nil in Ht'.
    + intros t Ht. vm_compute in Ht.
      repeat (apply elem_of_cons in Ht as [->|Ht]);
        [unfold band_order; set_solver.. |].
      by apply elem_of_nil in Ht.
Defined.

(** ** Titles and legend labels of an installed handler *)

Lemma string_app_nil_r (a : string) : a +:+ "" = a.
Proof.
  induction a as [|c a IH]; [done|].
  change (String c a +:+ "") with (String c (a +:+ "")). by rewrite IH.
Qed.

Lemma append_cons_nonempty (c : ascii) (a x : string) :
  String.eqb (String c a +:+ x) "" = false.
Proof. reflexivity. Qed.

Lemma singleton_of_length {A} (l : list A) : length l = 1 → ∃ x, l = [x].
Proof. destruct l as [|x [|y l]]; try done. by exists x. Qed.

(** The part of a default legend label that one attribute gives: the value
    after a space when the bundles differ in it, nothing otherwise. *)
Definition label_part (values : PySet.t) (x : string) : string :=
  if (1 <? length values)%nat then " " +:+ x else "".

Section TitleAndLabels.
Context `{Runtime}.

Lemma buildTitle_Ok_one_run (self : PlotHandler) (title : string) :
  _buildTitle self = Ok title → length (runNames self) = 1.
Proof.
  intros Hok. destruct (decide (length (runNames self) = 1)) as [|Hne]; [done|].
  by rewrite (buildTitle_unbound self Hne) in Hok.
Qed.

(** X18. When [_buildTitle] returns, the handler has one run name, and the
    title starts with it unless it is the empty string.  The fallback
    to the joint metadata and joint metric name is what an empty run name
    gives with several metadata strings and several metric names. *)
Theorem X18_title_starts_with_run_name (self : PlotHandler) (title : string) :
  _buildTitle self = Ok title →
  ∃ r, runNames self = [r]
       ∧ (r ≠ "" → ∃ rest, title = r +:+ rest)
       ∧ (r = "" → length (metadata self) ≠ 1 → length (metricNames self) ≠ 1 →
          title = jointMetadata self +:+ " " +:+ jointMetricNames self).
Proof.
  intros Hok.
  destruct (singleton_of_length _ (buildTitle_Ok_one_run _ _ Hok)) as [r Hr].
  exists r. split; [done|].
  unfold _buildTitle, first in Hok. rewrite Hr, set_iter_singleton in Hok.
  cbn [length Nat.eqb mbind outcome_bind] in Hok.
  destruct (Nat.eqb_spec (length (metadata self)) 1) as [Hm|Hm];
    [destruct (singleton_of_length _ Hm) as [m Hm'];
     rewrite Hm', set_iter_singleton in Hok|];
    cbn [local mbind outcome_bind] in Hok;
    (destruct (Nat.eqb_spec (length (metricNames self)) 1) as [Hn|Hn];
     [destruct (singleton_of_length _ Hn) as [n Hn'];
      rewrite Hn', set_iter_singleton in Hok|]);
    cbn [local mbind outcome_bind] in Hok;
    (destruct r as [|c r];
     [split; [done|]; intros _ Hm1 Hn1; try done;
      change (String.eqb "" "") with true in Hok; by injection Hok as <-
     |split; [|done]; intros _;
      rewrite ?string_app_assoc in Hok;
      first [rewrite append_cons_nonempty in Hok; injection Hok as <-;
             eexists; reflexivity
            |change (String.eqb (String c r) "") with false in Hok;
             injection Hok as <-; exists ""; by rewrite string_app_nil_r]]).
Qed.

(** X19. After a successful install of two bundles or more, the handler has
    one run name, and the legend label of a bundle is its own ["label"]
    entry when it has one, and otherwise is made of its metadata, if the
    bundles differ in metadata, and its metric name, if they differ in
    metric name, each after a space: the run name is never part of it. *)
Theorem X19_labels_after_install (arg : BundleArg) (w : World) :
  (setMetricBundles arg w).1 = Ok () →
  2 ≤ length (arrivals arg) →
  let self' := this (setMetricBundles arg w).2 in
  length (runNames self') = 1
  ∧ plotDict self' !! "labels"
    = Some (VList ((λ mB, match MB.plotDict mB !! "label" with
                          | Some label => label
                          | None =>
                              VStr (label_part (metadata self') (MB.metadata mB)
                                    +:+ label_part (metricNames self')
                                          (Metric.name (MB.metric mB)))
                          end) <$> mBundles self')).
Proof.
  intros Hok Hlen self'. subst self'.
  rewrite setMetricBundles_run in Hok |- *.
  pose proof (order_bundles_perm (arrivals arg)) as Hperm.
  destruct (order_bundles (arrivals arg)) as [|mB rest] eqn:Hord; [done|].
  cbv zeta in Hok |- *.
  destruct (same_slicer _ _); [|done].
  match goal with |- context [install_tail ?w0] => set (w' := w0) in * end.
  assert (Hb : mBundles (this w') = mB :: rest)
    by (unfold w', ordered; cbn; exact Hord).
  clearbody w'.
  rewrite install_tail_run in Hok |- *.
  rewrite bind_run in Hok |- *.
  destruct (keeps_combineMetadata (bundles_are (mB :: rest))
              ltac:(done) ltac:(done)
              {| this := with_names (this w'); log := log w' |} Hb) as [Hb3 _].
  destruct (_combineMetadata _) as [[[]|e] w3]; [|done].
  cbn [snd] in Hb3.
  rewrite (bind_run_Ok _ _ _ _ _ (combineSql_run _)) in Hok |- *.
  match goal with |- context [setPlotDict None None true ?w0] => set (w4 := w0) in * end.
  assert (Hb4 : mBundles (this w4) = mB :: rest) by exact Hb3.
  clearbody w4.
  destruct (setPlotDict_None_Ok_inv w4 None true Hok) as (title & colors & Ht & Hc).
  destruct (setPlotDict_reset_fields w4 title colors Ht Hc)
    as (_ & -> & -> & -> & -> & ->).
  pose proof (buildTitle_Ok_one_run _ _ Ht) as Hone.
  split; [done|].
  unfold derived_entries.
  rewrite !lookup_insert_ne, lookup_insert_eq by done.
  do 2 f_equal. unfold _buildLegendLabels.
  assert (Hlen4 : (length (mBundles (this w4)) =? 1)%nat = false).
  { apply Nat.eqb_neq. rewrite Hb4, (Permutation_length Hperm). lia. }
  rewrite Hlen4, Hone. change (1 <? 1)%nat with false. cbv iota.
  apply Forall_fmap_ext, Forall_forall. intros b _.
  destruct (MB.plotDict b !! "label"); [done|]. f_equal.
  unfold label_part.
  destruct (1 <? length (metadata (this w4)))%nat;
    destruct (1 <? length (metricNames (this w4)))%nat;
    try reflexivity.
  by rewrite string_app_nil_r.
Qed.

End TitleAndLabels.

Lemma X18_title_starts_with_run_name_witness :
  ∃ r, runNames (ex_installed [ex_g; ex_u]) = [r]
       ∧ (r ≠ "" → ∃ rest, "run1: Count" = r +:+ rest)
       ∧ (r = "" → length (metadata (ex_installed [ex_g; ex_u])) ≠ 1 →
          length (metricNames (ex_installed [ex_g; ex_u])) ≠ 1 →
          "run1: Count" = jointMetadata (ex_installed [ex_g; ex_u]) +:+ " "
                          +:+ jointMetricNames (ex_installed [ex_g; ex_u])).
Proof.
  apply (X18_title_starts_with_run_name (ex_installed [ex_g; ex_u]) "run1: Count").
  vm_compute. reflexivity.
Defined.

Lemma X19_labels_after_install_witness :
  length (runNames (ex_installed [ex_g; ex_u])) = 1
  ∧ plotDict (ex_installed [ex_g; ex_u]) !! "labels"
    = Some (VList [VStr " u band, dithered"; VStr " g band, dithered"]).
Proof.
  pose proof (X19_labels_after_install (BundleList [ex_g; ex_u]) ex_world) as Hx.
  destruct Hx as [Hone Hlabels].
  - vm_compute. reflexivity.
  - simpl. lia.
  - split; [exact Hone|]. unfold ex_installed. rewrite Hlabels.
    vm_compute. reflexivity.
Defined.

(** ** The configurations that a second call of [plot] hands out (C6) *)

(** The dict that [setPlotDict] with [reset=False] makes of the dict [old]
    it finds: [old] overwritten by the derived entries, then by the
    plotter's defaults that are not [None], then by the caller's
    overrides. *)
Definition patched_config (title : string) (labels colors : list pyval)
    (cbarFormat : pyval) (xy : pyval * pyval)
    (defaults : gmap string pyval) (userPlotDict : option (gmap string pyval))
    (old : gmap string pyval) : gmap string pyval :=
  with_overrides userPlotDict
    (apply_defaults defaults
       (with_xy xy (derived_entries title labels colors cbarFormat old))).

(** The dict that the plotter gets for the bundle at position [i], when
    [self.plotDict] was [cfg] before the render loop:
    [cfg['label'] = cfg['labels'][i]; cfg['color'] = cfg['colors'][i]]. *)
Definition active_config (cfg : gmap string pyval) (i : nat)
    : outcome (gmap string pyval) :=
  labels ← getitem cfg "labels";
  label ← py_index labels i;
  colors ← getitem cfg "colors";
  color ← py_index colors i;
  Ok (<["color" := color]> (<["label" := label]> cfg)).

(** What [plot] returns: the figure number threaded through the calls of
    the plotter, one per bundle, each with its configuration. *)
Definition figure_of (plotFunc : PlotFunc) (l : list MB.t)
    (cfgs : list (gmap string pyval)) (fignum : pyval) : pyval :=
  foldl (λ fignum p, call plotFunc (MB.metricValues p.1) (MB.slicer p.1) p.2 fignum)
        fignum (zip l cfgs).

(** The keys that some layer of [setPlotDict] or the render loop writes
    whatever the arguments are. *)
Definition written_keys : list string :=
  ["label"; "color"; "title"; "labels"; "colors"; "legendloc";
   "cbarFormat"; "xlabel"; "ylabel"].

Lemma configs_passed_snoc (evs : list Event) (ev : Event) :
  configs_passed (evs ++ [ev]) =
  configs_passed evs ++ match ev with
                        | EvPlotFunc _ _ d _ => [d]
                        | _ => []
                        end.
Proof. unfold configs_passed. rewrite omap_app. by destruct ev. Qed.

Lemma bind_Ok_inv {A B} (m : M A) (f : A → M B) (w : World) (b : B) :
  ((m ≫= f) w).1 = Ok b →
  ∃ a w', m w = (Ok a, w') ∧ (m ≫= f) w = f a w'.
Proof.
  rewrite bind_run. destruct (m w) as [[a|e] w']; [|done].
  intros _. by exists a, w'.
Qed.

Lemma active_config_lookup (cfg cfg' : gmap string pyval) (i : nat) (k : string) :
  active_config cfg i = Ok cfg' → k ≠ "label" → k ≠ "color" →
  cfg' !! k = cfg !! k.
Proof.
  unfold active_config. intros Hact Hl Hc.
  destruct (getitem cfg "labels") as [ls|]; [|done]. cbn [mbind outcome_bind] in Hact.
  destruct (py_index ls i) as [vl|]; [|done]. cbn [mbind outcome_bind] in Hact.
  destruct (getitem cfg "colors") as [cs|]; [|done]. cbn [mbind outcome_bind] in Hact.
  destruct (py_index cs i) as [vc|]; [|done]. cbn [mbind outcome_bind] in Hact.
  injection Hact as <-. by rewrite !lookup_insert_ne.
Qed.

Lemma active_config_label_color (cfg cfg' : gmap string pyval) (i : nat) :
  active_config cfg i = Ok cfg' →
  ∃ labels colors label color,
    cfg !! "labels" = Some labels ∧ py_index labels i = Ok label
    ∧ cfg !! "colors" = Some colors ∧ py_index colors i = Ok color
    ∧ cfg' !! "label" = Some label ∧ cfg' !! "color" = Some color.
Proof.
  unfold active_config, getitem. intros Hact.
  destruct (cfg !! "labels") as [ls|]; [|done]. cbn [mbind outcome_bind] in Hact.
  destruct (py_index ls i) as [vl|] eqn:Hvl; [|done]. cbn [mbind outcome_bind] in Hact.
  destruct (cfg !! "colors") as [cs|]; [|done]. cbn [mbind outcome_bind] in Hact.
  destruct (py_index cs i) as [vc|] eqn:Hvc; [|done]. cbn [mbind outcome_bind] in Hact.
  injection Hact as <-. exists ls, cs, vl, vc. do 4 (split; [done|]).
  split; [by rewrite lookup_insert_ne, lookup_insert_eq | by rewrite lookup_insert_eq].
Qed.

(** A key that no layer of the second call writes keeps the value that the
    dict had. *)
Lemma patched_config_old (title : string) (labels colors : list pyval)
    (cbarFormat : pyval) (xy : pyval * pyval) (defaults : gmap string pyval)
    (userPlotDict : option (gmap string pyval)) (old : gmap string pyval)
    (k : string) :
  k ∉ written_keys →
  (∀ o, userPlotDict = Some o → o !! k = None) →
  (defaults !! k = None ∨ defaults !! k = Some VNone) →
  patched_config title labels colors cbarFormat xy defaults userPlotDict old !! k
  = old !! k.
Proof.
  intros Hk Hover Hdef. unfold written_keys in Hk.
  repeat (apply not_elem_of_cons in Hk as [? Hk]).
  unfold patched_config.
  assert (Hlayer : ∀ d, with_overrides userPlotDict d !! k = d !! k).
  { intros d. destruct userPlotDict as [o|]; [|done]. cbn [with_overrides].
    rewrite lookup_union_r; [done | by apply Hover]. }
  rewrite Hlayer, apply_defaults_lookup.
  unfold with_xy, derived_entries.
  rewrite !lookup_insert_ne by done.
  by destruct Hdef as [-> | ->].
Qed.

Section ReuseClaim.
Context `{Runtime}.

Lemma set_active_run (k ks : string) (i : nat) (w : World) :
  set_active k ks i w =
  match getitem (plotDict (this w)) ks ≫= λ l, py_index l i with
  | Ok v => (Ok (), {| this := set_plotDict (<[k := v]> (plotDict (this w))) (this w);
                       log := log w |})
  | Raise e => (Raise e, w)
  end.
Proof.
  unfold set_active. rewrite bind_run. cbn [get_self]. rewrite bind_run.
  unfold lift at 1. destruct (getitem _ ks) as [l|e]; [|done].
  rewrite bind_run. unfold lift at 1. cbn [mbind outcome_bind].
  by destruct (py_index l i).
Qed.

(** A render loop that completes, started on a handler whose dict agrees
    with [base] on all keys but [label] and [color], has handed the plotter
    one dict per bundle: [base] with the label and color of the bundle's
    position. *)
Lemma render_loop_configs plotFunc (base : gmap string pyval) (l : list MB.t)
    (i : nat) (fignum r : pyval) (w w' : World) :
  config_is base (this w) →
  render_loop plotFunc l i fignum w = (Ok r, w') →
  ∃ cfgs,
    configs_passed (log w') = configs_passed (log w) ++ cfgs
    ∧ length cfgs = length l
    ∧ (∀ j cfg, cfgs !! j = Some cfg → active_config base (i + j) = Ok cfg)
    ∧ r = figure_of plotFunc l cfgs fignum.
Proof.
  revert i fignum w. induction l as [|mB l IH]; intros i fignum w Hcfg;
    cbn [render_loop].
  - intros [= <- <-]. exists []. by rewrite app_nil_r.
  - rewrite bind_run, set_active_run.
    destruct (getitem (plotDict (this w)) "labels" ≫= λ l, py_index l i)
      as [vl|e] eqn:Hvl; [|done].
    rewrite bind_run, set_active_run. cbn [this log].
    change (plotDict (set_plotDict ?d _)) with d.
    destruct (getitem (<["label" := vl]> (plotDict (this w))) "colors"
              ≫= λ l, py_index l i) as [vc|e] eqn:Hvc; [|done].
    rewrite bind_run. cbn [get_self]. rewrite bind_run. cbn [emit this log].
    change (plotDict (set_plotDict ?d _)) with d.
    set (cfg := <["color" := vc]> (<["label" := vl]> (plotDict (this w)))).
    intros Hloop. apply IH in Hloop as (cfgs & Hlog & Hlen & Hall & Hr).
    2:{ intros k Hl Hc. cbn [this].
        change (plotDict (set_plotDict ?d _)) with d.
        change (plotDict (set_plotDict ?d _)) with d.
        subst cfg. rewrite !lookup_insert_ne by done. by apply Hcfg. }
    assert (Hbase : cfg = <["color" := vc]> (<["label" := vl]> base)).
    { apply map_eq. intros k. subst cfg.
      destruct (decide (k = "color")) as [->|Hc]; [by rewrite !lookup_insert_eq|].
      rewrite !(lookup_insert_ne _ "color") by done.
      destruct (decide (k = "label")) as [->|Hl]; [by rewrite !lookup_insert_eq|].
      rewrite !(lookup_insert_ne _ "label") by done. by apply Hcfg. }
    exists (cfg :: cfgs). split.
    { rewrite Hlog. cbn [log]. by rewrite configs_passed_snoc, <- app_assoc. }
    split; [cbn [length]; by rewrite Hlen|]. split; [|exact Hr].
    intros [|j] c; cbn [lookup list_lookup].
    + intros [= <-]. rewrite Nat.add_0_r. unfold active_config.
      unfold getitem in Hvl, Hvc |- *.
      rewrite lookup_insert_ne in Hvc by done.
      rewrite (Hcfg "labels") in Hvl by done.
      rewrite (Hcfg "colors") in Hvc by done.
      destruct (base !! "labels") as [ls|]; [|done]. cbn [mbind outcome_bind] in Hvl |- *.
      rewrite Hvl. cbn [mbind outcome_bind].
      destruct (base !! "colors") as [cs|]; [|done]. cbn [mbind outcome_bind] in Hvc |- *.
      rewrite Hvc. cbn [mbind outcome_bind]. by rewrite Hbase.
    + intros Hj. replace (i + S j) with (S i + j) by lia. by apply Hall.
Qed.

(** The part of [plot] after [setPlotDict]: the dicts handed to the plotter
    and the figure number returned. *)
Lemma render_and_save_configs plotFunc outfileSuffix (base : gmap string pyval)
    (w : World) (v : pyval) :
  config_is base (this w) →
  (render_and_save plotFunc outfileSuffix w).1 = Ok v →
  ∃ cfgs,
    configs_passed (log (render_and_save plotFunc outfileSuffix w).2)
    = configs_passed (log w) ++ cfgs
    ∧ length cfgs = length (mBundles (this w))
    ∧ (∀ j cfg, cfgs !! j = Some cfg → active_config base j = Ok cfg)
    ∧ v = figure_of plotFunc (mBundles (this w)) cfgs VNone.
Proof.
  intros Hcfg Hok. unfold render_and_save in Hok |- *.
  rewrite bind_run in Hok |- *. cbn [get_self] in Hok |- *.
  rewrite bind_run in Hok |- *. unfold lift at 1 in Hok. unfold lift at 1.
  destruct (_buildFileRoot (this w) outfileSuffix) as [outfile|e]; [|done].
  cbv zeta in Hok |- *.
  rewrite bind_run in Hok |- *.
  destruct (render_loop plotFunc (mBundles (this w)) 0 VNone w)
    as [[fn|e] w2] eqn:Hloop; [|done].
  destruct (render_loop_configs _ _ _ _ _ _ _ _ Hcfg Hloop)
    as (cfgs & Hlog & Hlen & Hall & Hfn).
  exists cfgs. rewrite <- Hlog. split; [|split; [done|split; [done|]]].
  - clear Hok.
    match goal with
    | |- configs_passed (log (?m w2).2) = _ =>
        cut (wkeeps (λ w', configs_passed (log w') = configs_passed (log w2)) m);
          [intros Hk; by apply Hk|]
    end.
    repeat lazymatch goal with
           | |- wkeeps _ (emit _) =>
               apply wkeeps_emit; intros w0 Hw0; cbn [log];
               by rewrite configs_passed_snoc, app_nil_r
           | |- _ => wkeeps_step
           end.
  - destruct (bind_Ok_inv _ _ _ _ Hok) as (plotType & w3 & _ & Hrun).
    rewrite Hrun in Hok.
    destruct (bind_Ok_inv _ _ _ _ Hok) as ([] & w4 & _ & Hrun').
    rewrite Hrun' in Hok. cbn in Hok. by injection Hok as <-.
Qed.

(** C6, as the code has it. When [plot] is called a second time on a
    handler and returns, the configuration of the second call is the dict
    that the first call left in [self.plotDict], overwritten by the entries
    derived afresh from the bundles, then by the second plotter's defaults
    that are not [None], then by the second caller's overrides.  The
    plotter is called once per bundle, and the dict it is handed for the
    bundle at position [i] is that configuration with [label] and [color]
    set to the [i]-th elements of its [labels] and [colors]; the value
    returned is the figure number of these calls.  So a key that the first
    call set and that no layer of the second call writes is still there, in
    every dict handed to the plotter and in [self.plotDict] afterwards,
    whereas [label] and [color] are set anew for each bundle. *)
Theorem C6_second_plot_patches_first (w0 : World)
    (plotFunc1 plotFunc2 : PlotFunc)
    (userPlotDict1 userPlotDict2 : option (gmap string pyval))
    (outfileSuffix1 outfileSuffix2 : option string) (v : pyval) :
  let w1 := (plot plotFunc1 userPlotDict1 outfileSuffix1 w0).2 in
  let second := plot plotFunc2 userPlotDict2 outfileSuffix2 w1 in
  second.1 = Ok v →
  ∃ title colors xy,
    _buildTitle (this w1) = Ok title
    ∧ _buildColors (this w1) = Ok colors
    ∧ _buildXYlabels (this w1) plotFunc2 = Ok xy
    ∧ config_is
        (with_overrides userPlotDict2
           (apply_defaults (defaultPlotDict plotFunc2)
              (with_xy xy
                 (derived_entries title (_buildLegendLabels (this w1)) colors
                    (_buildCbarFormat (this w1)) (plotDict (this w1))))))
        (this second.2)
    ∧ (∀ k, k ∉ ["label"; "color"; "title"; "labels"; "colors"; "legendloc";
                 "cbarFormat"; "xlabel"; "ylabel"] →
            (∀ o, userPlotDict2 = Some o → o !! k = None) →
            (defaultPlotDict plotFunc2 !! k = None
             ∨ defaultPlotDict plotFunc2 !! k = Some VNone) →
            plotDict (this second.2) !! k = plotDict (this w1) !! k)
    ∧ ∃ cfgs,
        configs_passed (log second.2) = configs_passed (log w1) ++ cfgs
        ∧ length cfgs = length (mBundles (this w1))
        ∧ v = figure_of plotFunc2 (mBundles (this w1)) cfgs VNone
        ∧ ∀ i cfg, cfgs !! i = Some cfg →
            active_config
              (patched_config title (_buildLegendLabels (this w1)) colors
                 (_buildCbarFormat (this w1)) xy (defaultPlotDict plotFunc2)
                 userPlotDict2 (plotDict (this w1))) i = Ok cfg
            ∧ (∃ labels colors' label color,
                 patched_config title (_buildLegendLabels (this w1)) colors
                   (_buildCbarFormat (this w1)) xy (defaultPlotDict plotFunc2)
                   userPlotDict2 (plotDict (this w1)) !! "labels" = Some labels
                 ∧ py_index labels i = Ok label
                 ∧ patched_config title (_buildLegendLabels (this w1)) colors
                     (_buildCbarFormat (this w1)) xy (defaultPlotDict plotFunc2)
                     userPlotDict2 (plotDict (this w1)) !! "colors" = Some colors'
                 ∧ py_index colors' i = Ok color
                 ∧ cfg !! "label" = Some label ∧ cfg !! "color" = Some color)
            ∧ (∀ k, k ≠ "label" → k ≠ "color" →
                    cfg !! k
                    = patched_config title (_buildLegendLabels (this w1)) colors
                        (_buildCbarFormat (this w1)) xy (defaultPlotDict plotFunc2)
                        userPlotDict2 (plotDict (this w1)) !! k)
            ∧ (∀ k, k ∉ written_keys →
                    (∀ o, userPlotDict2 = Some o → o !! k = None) →
                    (defaultPlotDict plotFunc2 !! k = None
                     ∨ defaultPlotDict plotFunc2 !! k = Some VNone) →
                    cfg !! k = plotDict (this w1) !! k).
Proof.
  intros w1 second Hok.
  destruct (plot_config _ _ _ _ _ Hok) as (title & colors & xy & Ht & Hc & Hxy & Hcfg).
  exists title, colors, xy. do 4 (split; [done|]).
  fold (patched_config title (_buildLegendLabels (this w1)) colors
          (_buildCbarFormat (this w1)) xy (defaultPlotDict plotFunc2)
          userPlotDict2 (plotDict (this w1))) in Hcfg.
  set (cfg2 := patched_config _ _ _ _ _ _ _ _) in *.
  split.
  { intros k Hk Hover Hdef.
    assert (Hk' := Hk). repeat (apply not_elem_of_cons in Hk' as [? Hk']).
    rewrite Hcfg by done. by apply patched_config_old. }
  subst second.
  rewrite (plot_Ok_run _ _ _ _ _ Hok) in Hok |- *.
  rewrite bind_run in Hok |- *.
  pose proof (setPlotDict_run w1 userPlotDict2 (Some plotFunc2) false _ _ Ht Hc _ Hxy)
    as Hrun.
  cbv zeta in Hrun. rewrite Hrun in Hok |- *. clear Hrun.
  fold (patched_config title (_buildLegendLabels (this w1)) colors
          (_buildCbarFormat (this w1)) xy (defaultPlotDict plotFunc2)
          userPlotDict2 (plotDict (this w1))) in Hok |- *.
  fold cfg2 in Hok |- *.
  match type of Hok with
  | (render_and_save _ _ ?w).1 = _ => set (ws := w) in *
  end.
  assert (Hws : config_is cfg2 (this ws)) by (by intros k _ _).
  destruct (render_and_save_configs _ _ cfg2 ws v Hws Hok)
    as (cfgs & Hlog & Hlen & Hall & Hv).
  exists cfgs. split; [exact Hlog|]. split; [exact Hlen|]. split; [exact Hv|].
  intros i cfg Hi. specialize (Hall i cfg Hi).
  split; [done|]. split; [by apply active_config_label_color|].
  split; [intros k Hl Hcol; by apply (active_config_lookup _ _ i)|].
  intros k Hk Hover Hdef.
  assert (Hk' := Hk). unfold written_keys in Hk'.
  repeat (apply not_elem_of_cons in Hk' as [? Hk']).
  rewrite (active_config_lookup _ _ i k Hall) by done.
  by apply patched_config_old.
Qed.

End ReuseClaim.

(** A first call with the override [xMin] on two installed bundles, and a
    second call without overrides on the handler it leaves. *)
Definition ex_first_call : World :=
  (plot ex_binned (Some ex_overrides) None
     (setMetricBundles (BundleList [ex_g; ex_u]) ex_world).2).2.
Definition ex_second_call : outcome pyval * World :=
  plot ex_binned None None ex_first_call.


Lemma C6_second_plot_patches_first_witness :
  plotDict (this ex_second_call.2) !! "xMin" = plotDict (this ex_first_call) !! "xMin"
  ∧ ∃ cfgs,
      configs_passed (log ex_second_call.2)
      = configs_passed (log ex_first_call) ++ cfgs
      ∧ length cfgs = 2
      ∧ ∀ i cfg, cfgs !! i = Some cfg →
          cfg !! "xMin" = plotDict (this ex_first_call) !! "xMin"
          ∧ ∃ labels colors label color,
              plotDict (this ex_second_call.2) !! "labels" = Some labels
              ∧ py_index labels i = Ok label
              ∧ plotDict (this ex_second_call.2) !! "colors" = Some colors
              ∧ py_index colors i = Ok color
              ∧ cfg !! "label" = Some label ∧ cfg !! "color" = Some color.
Proof.
  assert (Hkey : "xMin" ∉ written_keys).
  { vm_compute. intros Hin.
    repeat (apply elem_of_cons in Hin as [Hin|Hin]; [discriminate Hin|]).
    by apply elem_of_nil in Hin. }
  assert (Hok : ex_second_call.1 = Ok (VInt 1)) by (vm_compute; reflexivity).
  assert (Hn : length (mBundles (this ex_first_call)) = 2) by (vm_compute; reflexivity).
  pose proof (C6_second_plot_patches_first
              (setMetricBundles (BundleList [ex_g; ex_u]) ex_world).2
              ex_binned ex_binned (Some ex_overrides) None None None (VInt 1) Hok) as Hthm.
  destruct Hthm as (title & colors & xy & _ & _ & _ & Hcfg & Hkeep & cfgs & Hlog & Hlen & _ & Hall).
  split.
  - apply Hkeep; [exact Hkey | intros o [=] | by left].
  - exists cfgs. split; [exact Hlog|]. split.
    { etransitivity; [exact Hlen | exact Hn]. }
    intros i cfg Hi.
    destruct (Hall i cfg Hi) as (_ & Hactive & _ & Hold).
    split; [apply Hold; [exact Hkey | intros o [=] | by left]|].
    destruct Hactive as (ls & cs & vl & vc & Hls & Hvl & Hcs & Hvc & Hl & Hc).
    exists ls, cs, vl, vc.
    unfold patched_config in Hls, Hcs.
    split; [etransitivity; [apply (Hcfg "labels"); discriminate | exact Hls]|].
    split; [exact Hvl|].
    split; [etransitivity; [apply (Hcfg "colors"); discriminate | exact Hcs]|].
    split; [exact Hvc|]. split; [exact Hl | exact Hc].
Defined.
